(** * Consistency Tracker (script.js): date utilities, range validator,
      statistics engine and status classifier

    A shallow embedding of the functions of [script.js] that compute on
    habit records, together with the properties of the specification that
    concern them.

    Conventions of the embedding.
    - A JavaScript string is a [string], its characters taken in the ASCII
      range; the relational operators on strings ([<], [<=], [>=]) and the
      default comparison of [Array.prototype.sort] compare code units
      lexicographically, which is [String.compare].
    - A [Date] object is its time value: [Some t] with [t] in milliseconds
      since the epoch, or [None] for an Invalid Date (time value NaN).
    - A Number that holds an integer, an infinity or NaN is a [number];
      the one computation that leaves the integers, the percentage, is
      carried out in IEEE 754 binary64 with [SpecFloat].
    - The system clock is a parameter [now : Instant], and the time zone
      of the host a parameter [tz : TimeZone]: [getDate] and [setDate] work
      in local time, [toISOString] and the parser of date strings in UTC.
    - [localStorage] under [STORAGE_KEY] is the list of habit records that
      [JSON.parse] returns. *)

From Stdlib Require Import ZArith List String Ascii Bool Lia.
From Stdlib Require Import Permutation Sorted DecimalString DecimalZ SpecFloat.
Import ListNotations.

Local Open Scope string_scope.
Local Open Scope list_scope.
Local Open Scope Z_scope.

(* ================================================================== *)
(** * Numbers *)

(** Integral Number values, the infinities and NaN.  [-0] is identified
    with [Int 0]. *)
Inductive number : Type :=
| NaN
| NegInfinity
| PosInfinity
| Int (z : Z).

(** [Number::toString] on the values above, as used by template literals. *)
Definition Number_toString (n : number) : string :=
  match n with
  | NaN => "NaN"
  | NegInfinity => "-Infinity"
  | PosInfinity => "Infinity"
  | Int z => NilZero.string_of_int (Z.to_int z)
  end.

(** [x === y] on Numbers: NaN differs from everything. *)
Definition Number_strictEq (x y : number) : bool :=
  match x, y with
  | Int a, Int b => a =? b
  | PosInfinity, PosInfinity => true
  | NegInfinity, NegInfinity => true
  | _, _ => false
  end.

(** [x > y] on Numbers: false as soon as one side is NaN. *)
Definition Number_gt (x y : number) : bool :=
  match x, y with
  | NaN, _ | _, NaN => false
  | Int a, Int b => b <? a
  | PosInfinity, PosInfinity => false
  | PosInfinity, _ => true
  | _, NegInfinity => match x with NegInfinity => false | _ => true end
  | _, _ => false
  end.

(** Binary64: 53 bits of precision, exponents below 1024. *)
Definition prec64 : Z := 53.
Definition emax64 : Z := 1024.

(** The double nearest to an integer (exact below 2^53). *)
Definition doubleOfZ (z : Z) : spec_float := binary_normalize prec64 emax64 z 0 false.

Definition toDouble (n : number) : spec_float :=
  match n with
  | NaN => S754_nan
  | NegInfinity => S754_infinity true
  | PosInfinity => S754_infinity false
  | Int z => doubleOfZ z
  end.

(** [Math.round]: the integer closest to the argument, ties toward
    +Infinity, that is floor(x + 1/2) computed exactly on the value
    [m * 2^e] of the double. *)
Definition roundHalfUp (m e : Z) : Z :=
  match e with
  | Zneg p => (2 * m + 2 ^ Zpos p) / 2 ^ (Zpos p + 1)
  | _ => m * 2 ^ e
  end.

Definition Math_round (x : spec_float) : number :=
  match x with
  | S754_nan => NaN
  | S754_infinity true => NegInfinity
  | S754_infinity false => PosInfinity
  | S754_zero _ => Int 0
  | S754_finite s m e => Int (roundHalfUp (if s then Zneg m else Zpos m) e)
  end.

(** [Math.min] of two Numbers. *)
Definition Math_min (x y : number) : number :=
  match x, y with
  | NaN, _ | _, NaN => NaN
  | NegInfinity, _ | _, NegInfinity => NegInfinity
  | PosInfinity, _ => y
  | _, PosInfinity => x
  | Int a, Int b => Int (Z.min a b)
  end.

(* ================================================================== *)
(** * Dates: the calendar of ECMA-262 *)

(** [1000 * 60 * 60 * 24] *)
Definition msPerDay : Z := 1000 * 60 * 60 * 24.

(** Largest magnitude of a time value. *)
Definition maxTime : Z := 8640000000000000.

Definition Date : Type := option Z.

Definition TimeClip (t : Z) : Date :=
  if Z.abs t <=? maxTime then Some t else None.

(** A reading of the system clock: [new Date()] always holds a valid time
    value. *)
Record Instant : Type := mkInstant {
  timeValue : Z;
  timeValue_valid : (Z.abs timeValue <=? maxTime) = true
}.

Definition Day (t : Z) : Z := t / msPerDay.

Definition DayFromYear (y : Z) : Z :=
  365 * (y - 1970) + (y - 1969) / 4 - (y - 1901) / 100 + (y - 1601) / 400.

Definition InLeapYear (y : Z) : Z :=
  if negb (y mod 4 =? 0) then 0
  else if negb (y mod 100 =? 0) then 1
  else if negb (y mod 400 =? 0) then 0
  else 1.

(** The largest [y] with [DayFromYear y <= d]: an estimate from the mean
    length of a year, corrected by at most one. *)
Definition YearFromDay (d : Z) : Z :=
  let y := 1970 + (d * 400) / 146097 in
  if DayFromYear (y + 1) <=? d then y + 1
  else if DayFromYear y <=? d then y
  else y - 1.

Definition DayWithinYear (d : Z) : Z := d - DayFromYear (YearFromDay d).

(** First day within the year of month [m] (0 = January); [leap] is 0 or 1. *)
Definition monthStart (leap m : Z) : Z :=
  match m with
  | 0 => 0
  | 1 => 31
  | 2 => 59 + leap
  | 3 => 90 + leap
  | 4 => 120 + leap
  | 5 => 151 + leap
  | 6 => 181 + leap
  | 7 => 212 + leap
  | 8 => 243 + leap
  | 9 => 273 + leap
  | 10 => 304 + leap
  | 11 => 334 + leap
  | _ => 365 + leap
  end.

Definition monthOfDayWithinYear (leap dwy : Z) : Z :=
  if dwy <? 31 then 0
  else if dwy <? 59 + leap then 1
  else if dwy <? 90 + leap then 2
  else if dwy <? 120 + leap then 3
  else if dwy <? 151 + leap then 4
  else if dwy <? 181 + leap then 5
  else if dwy <? 212 + leap then 6
  else if dwy <? 243 + leap then 7
  else if dwy <? 273 + leap then 8
  else if dwy <? 304 + leap then 9
  else if dwy <? 334 + leap then 10
  else 11.

Definition MonthFromDay (d : Z) : Z :=
  monthOfDayWithinYear (InLeapYear (YearFromDay d)) (DayWithinYear d).

Definition DateFromDay (d : Z) : Z :=
  DayWithinYear d - monthStart (InLeapYear (YearFromDay d)) (MonthFromDay d) + 1.

Definition DaysInMonth (y m : Z) : Z :=
  monthStart (InLeapYear y) (m + 1) - monthStart (InLeapYear y) m.

(** [MakeDay] for a month in 0..11. *)
Definition MakeDay (y m dt : Z) : Z :=
  DayFromYear y + monthStart (InLeapYear y) m + dt - 1.

(* ------------------------------------------------------------------ *)
(** ** [toISOString().split('T')[0]] *)

Definition digitChar (n : Z) : ascii := ascii_of_N (Z.to_N (48 + n mod 10)).

(** The [width] low decimal digits of [n], most significant first, in
    front of [rest]. *)
Fixpoint padStart (width : nat) (n : Z) (rest : string) : string :=
  match width with
  | O => rest
  | S w => padStart w (n / 10) (String (digitChar n) rest)
  end.

(** Years 0..9999 print with four digits, the others with a sign and six. *)
Definition yearString (y : Z) (rest : string) : string :=
  if (0 <=? y) && (y <=? 9999) then padStart 4 y rest
  else String (if 0 <=? y then "+"%char else "-"%char) (padStart 6 (Z.abs y) rest).

Definition isoDateOfDay (d : Z) : string :=
  yearString (YearFromDay d)
    (String "-" (padStart 2 (MonthFromDay d + 1)
       (String "-" (padStart 2 (DateFromDay d) "")))).

Definition isoDate (t : Z) : string := isoDateOfDay (Day t).

(* ------------------------------------------------------------------ *)
(** ** [new Date(string)] on the date-time string format

    The format of ECMA-262: a year ([YYYY], or a sign and six digits, not
    [-000000]), optionally [-MM] and then [-DD], followed here by the time
    [T00:00:00Z] that [getDateFromString] appends.  What engines make of
    other strings, and of a day beyond the end of its month, differs from
    one engine to the next; the embedding answers Invalid Date there. *)

Definition isDigit (c : ascii) : bool :=
  ((48 <=? N_of_ascii c) && (N_of_ascii c <=? 57))%N.

Definition digitValue (c : ascii) : Z := Z.of_N (N_of_ascii c) - 48.

Fixpoint readDigits (n : nat) (acc : Z) (s : string) : option (Z * string) :=
  match n with
  | O => Some (acc, s)
  | S n' =>
      match s with
      | String c rest =>
          if isDigit c then readDigits n' (10 * acc + digitValue c) rest else None
      | EmptyString => None
      end
  end.

Definition readYear (s : string) : option (Z * string) :=
  match s with
  | String c rest =>
      if Ascii.eqb c "+" then readDigits 6 0 rest
      else if Ascii.eqb c "-" then
        match readDigits 6 0 rest with
        | Some (y, rest') => if y =? 0 then None else Some (- y, rest')
        | None => None
        end
      else readDigits 4 0 s
  | EmptyString => None
  end.

(** An optional [-NN] field; 1 when absent. *)
Definition readField (s : string) : option (Z * string) :=
  match s with
  | String c rest => if Ascii.eqb c "-" then readDigits 2 0 rest else Some (1, s)
  | EmptyString => Some (1, s)
  end.

Definition Date_parse (s : string) : Date :=
  match readYear s with
  | None => None
  | Some (y, s1) =>
      match readField s1 with
      | None => None
      | Some (m, s2) =>
          match readField s2 with
          | None => None
          | Some (dt, s3) =>
              if (s3 =? "T00:00:00Z")%string
                 && (1 <=? m) && (m <=? 12)
                 && (1 <=? dt) && (dt <=? DaysInMonth y (m - 1))
              then TimeClip (MakeDay y (m - 1) dt * msPerDay)
              else None
          end
      end
  end.

(* ================================================================== *)
(** * script.js: constants and data *)

Definition MAX_HABIT_DURATION_DAYS : Z := 90.

(** The habit record.  [completionDates] is [None] when the field is
    missing or holds something that is not an array. *)
Record Habit : Type := mkHabit {
  id : string;
  name : string;
  startDate : string;
  endDate : string;
  createdAt : string;
  completionDates : option (list string)
}.

(** What a call can end in: a value, the [RangeError] that
    [toISOString] throws on an Invalid Date, or, for the embedding of a
    loop, an exhausted iteration budget. *)
Inductive outcome (A : Type) : Type :=
| Returned (a : A)
| RangeError
| OutOfFuel.

Arguments Returned {A} a.
Arguments RangeError {A}.
Arguments OutOfFuel {A}.

(* ------------------------------------------------------------------ *)
(** ** Date utilities *)

Definition getTodayDateString (now : Instant) : string :=
  isoDate (timeValue now).

Definition getDateString (date : Date) : outcome string :=
  match date with
  | Some t => Returned (isoDate t)
  | None => RangeError
  end.

Definition getDateFromString (dateStr : string) : Date :=
  Date_parse (dateStr ++ "T00:00:00Z")%string.

(** [end - start], NaN when either Date is invalid. *)
Definition Date_sub (e s : Date) : number :=
  match e, s with
  | Some te, Some ts => Int (te - ts)
  | _, _ => NaN
  end.

(** [Math.floor(x / (1000 * 60 * 60 * 24))]: on the differences of two
    midnights, multiples of [msPerDay] below 2^63, the double division is
    exact. *)
Definition floorDivMsPerDay (x : number) : number :=
  match x with
  | Int z => Int (z / msPerDay)
  | other => other
  end.

Definition calculateDaysDifference (startStr endStr : string) : number :=
  let start := getDateFromString startStr in
  let end_ := getDateFromString endStr in
  floorDivMsPerDay (Date_sub end_ start).

(** The time zone of the host, as ECMA-262 reads it: the offset of local
    time from UTC in ms, at an instant [t] ([offsetAtUTC], by which
    LocalTime(t) = t + offset), and for a local time [t] ([offsetAtLocal],
    by which UTC(t) = t - offset; where the zone skips or repeats the local
    time, this is the offset that the host picks). *)
Record TimeZone : Type := mkTimeZone {
  offsetAtUTC : Z -> Z;
  offsetAtLocal : Z -> Z
}.

Definition LocalTime (tz : TimeZone) (t : Z) : Z := t + offsetAtUTC tz t.

Definition UTC (tz : TimeZone) (t : Z) : Z := t - offsetAtLocal tz t.

Definition TimeWithinDay (t : Z) : Z := t mod msPerDay.

Definition MakeDate (day time : Z) : Z := day * msPerDay + time.

(** [date.getDate()] on a valid Date: the day of the month in local
    time. *)
Definition getDate (tz : TimeZone) (t : Z) : Z :=
  DateFromDay (Day (LocalTime tz t)).

(** [date.setDate(dt)] on a valid Date: the day of the month is replaced
    in local time, the time within the day kept, and the result taken back
    to UTC. *)
Definition setDate (tz : TimeZone) (t : Z) (dt : Z) : Date :=
  let lt := LocalTime tz t in
  let newDate :=
    MakeDate (MakeDay (YearFromDay (Day lt)) (MonthFromDay (Day lt)) dt)
             (TimeWithinDay lt) in
  TimeClip (UTC tz newDate).

(** [date.setDate(date.getDate() + days)]; on an Invalid Date [getDate]
    is NaN and [setDate] leaves the Date invalid. *)
Definition setDate_plus (tz : TimeZone) (date : Date) (days : Z) : Date :=
  match date with
  | Some t => setDate tz t (getDate tz t + days)
  | None => None
  end.

Definition addDaysToDate (tz : TimeZone) (dateStr : string) (days : Z)
  : outcome string :=
  getDateString (setDate_plus tz (getDateFromString dateStr) days).

(* ------------------------------------------------------------------ *)
(** ** Range validator *)

Record validation : Type := mkValidation {
  valid : bool;
  error : string
}.

(** [end <= start] on two Dates: false when either is invalid. *)
Definition Date_le (a b : Date) : bool :=
  match a, b with
  | Some ta, Some tb => ta <=? tb
  | _, _ => false
  end.

(** The source also sets [today] to the local midnight of the current day
    and does not use it. *)
Definition validateDateRange (startDateStr endDateStr : string) : validation :=
  let start := getDateFromString startDateStr in
  let end_ := getDateFromString endDateStr in
  if Date_le end_ start then
    {| valid := false; error := "End date must be after start date" |}
  else
    let daysDiff := calculateDaysDifference startDateStr endDateStr in
    if Number_gt daysDiff (Int MAX_HABIT_DURATION_DAYS) then
      {| valid := false;
         error := ("Maximum duration is "
                   ++ Number_toString (Int MAX_HABIT_DURATION_DAYS)
                   ++ " days. Your range is "
                   ++ Number_toString daysDiff ++ " days.")%string |}
    else {| valid := true; error := "" |}.

(* ------------------------------------------------------------------ *)
(** ** Toggling a completion *)

(** [array.includes(x)] and [array.indexOf(x) > -1]. *)
Definition includes (l : list string) (x : string) : bool :=
  existsb (String.eqb x) l.

(** [array.splice(array.indexOf(x), 1)] when [x] occurs: the first
    occurrence goes. *)
Fixpoint spliceFirst (x : string) (l : list string) : list string :=
  match l with
  | [] => []
  | y :: l' => if (y =? x)%string then l' else y :: spliceFirst x l'
  end.

(** The mutation of the habit found. *)
Definition toggleDate (habit : Habit) (dateStr : string) : Habit :=
  let dates := match completionDates habit with
               | Some l => l
               | None => []
               end in
  let dates' := if includes dates dateStr
                then spliceFirst dateStr dates
                else dates ++ [dateStr] in
  {| id := id habit; name := name habit;
     startDate := startDate habit; endDate := endDate habit;
     createdAt := createdAt habit;
     completionDates := Some dates' |}.

(** [habits.find(h => h.id === habitId)] *)
Definition findHabit (habitId : string) (habits : list Habit) : option Habit :=
  find (fun h => (id h =? habitId)%string) habits.

(** The store after [toggleHabitCompletion]: the first habit with the
    given id is mutated and the list saved; without such a habit nothing
    is saved. *)
Fixpoint toggleHabitCompletion (habitId dateStr : string) (habits : list Habit)
  : list Habit :=
  match habits with
  | [] => []
  | h :: rest =>
      if (id h =? habitId)%string then toggleDate h dateStr :: rest
      else h :: toggleHabitCompletion habitId dateStr rest
  end.

(** The source answers false for a null [habit] as well; here a habit is
    always a record. *)
Definition isHabitCompletedOnDate (habit : Habit) (dateStr : string) : bool :=
  match completionDates habit with
  | None => false
  | Some l => includes l dateStr
  end.

Definition isDateWithinRange (habit : Habit) (dateStr : string) : bool :=
  (startDate habit <=? dateStr)%string && (dateStr <=? endDate habit)%string.

(* ------------------------------------------------------------------ *)
(** ** Habit status *)

Inductive status : Type := not_started | active | completed.

Definition getHabitStatus (habit : Habit) (now : Instant) : status :=
  let today := getTodayDateString now in
  if (today <? startDate habit)%string then not_started
  else if (endDate habit <? today)%string then completed
  else active.

Section StatusMessage.

(** [Date.prototype.toLocaleDateString], which depends on the locale of
    the host. *)
Variable toLocaleDateString : Date -> string.


End StatusMessage.

(* ------------------------------------------------------------------ *)
(** ** Statistics *)

(** What one pass through the body of the [while (true)] loop of
    [calculateCurrentStreak] does: it leaves the loop, throws (in
    [toISOString], on an Invalid Date), or goes on with a new date and
    streak. *)
Inductive iteration : Type :=
| Break (streak : nat)
| Throw
| Continue (currentDate : Date) (streak : nat).

Definition streakStep (tz : TimeZone) (habit : Habit) (currentDate : Date)
  (streak : nat) : iteration :=
  match getDateString currentDate with
  | Returned dateStr =>
      if negb (isDateWithinRange habit dateStr) then Break streak
      else if isHabitCompletedOnDate habit dateStr then
        Continue (setDate_plus tz currentDate (-1)) (S streak)
      else Break streak
  | _ => Throw
  end.

(** The loop, for up to [2 ^ depth] iterations: twice the loop of
    [2 ^ (depth - 1)]. *)
Fixpoint streakLoop (depth : nat) (tz : TimeZone) (habit : Habit)
  (currentDate : Date) (streak : nat) : iteration :=
  match depth with
  | O => streakStep tz habit currentDate streak
  | S depth' =>
      match streakLoop depth' tz habit currentDate streak with
      | Continue currentDate' streak' =>
          streakLoop depth' tz habit currentDate' streak'
      | done => done
      end
  end.

(** The loop is followed for [2 ^ 64] iterations, which is more than a
    Date has milliseconds; a loop still going on then is [OutOfFuel]. *)
Definition walkDepth : nat := 64.

(** [today] is [new Date()], the reading [now] of the clock, and
    [currentDate] a copy of it. *)
Definition calculateCurrentStreak (tz : TimeZone) (habit : Habit) (now : Instant)
  : outcome nat :=
  let today := Some (timeValue now) in
  let currentDate := today in
  match streakLoop walkDepth tz habit currentDate 0 with
  | Break streak => Returned streak
  | Throw => RangeError
  | Continue _ _ => OutOfFuel
  end.

(** [Array.prototype.sort()] without a comparison function, on strings:
    ascending in code-unit order.  That order is total and antisymmetric,
    so the sorted array is the same for every sorting algorithm; insertion
    sort stands for the engine's. *)
Fixpoint insertSorted (x : string) (l : list string) : list string :=
  match l with
  | [] => [x]
  | y :: l' => if (x <=? y)%string then x :: l else y :: insertSorted x l'
  end.

Fixpoint sort (l : list string) : list string :=
  match l with
  | [] => []
  | x :: l' => insertSorted x (sort l')
  end.

(** [(currDate - prevDate) / (1000 * 60 * 60 * 24) === 1]: the quotient of
    two integers of that size is 1 only for a difference of one day. *)
Definition dayDiffIsOne (prev curr : string) : bool :=
  let prevDate := getDateFromString prev in
  let currDate := getDateFromString curr in
  Number_strictEq (Date_sub currDate prevDate) (Int msPerDay).

(** The [for] loop of [calculateLongestStreak] from index [i] on, where
    [prev] is [sortedDates[i - 1]] and [rest] the elements from [i]. *)
Fixpoint longestLoop (prev : string) (rest : list string)
  (maxStreak currentStreak : nat) : nat :=
  match rest with
  | [] => maxStreak
  | curr :: rest' =>
      if dayDiffIsOne prev curr then
        let currentStreak' := S currentStreak in
        longestLoop curr rest' (Nat.max maxStreak currentStreak') currentStreak'
      else longestLoop curr rest' maxStreak 1
  end.

Definition calculateLongestStreak (habit : Habit) : nat :=
  match completionDates habit with
  | None => 0%nat
  | Some dates =>
      let datesInRange := filter (isDateWithinRange habit) dates in
      match datesInRange with
      | [] => 0%nat
      | _ :: _ =>
          match sort datesInRange with
          | [] => 1%nat
          | first :: rest => longestLoop first rest 1 1
          end
      end
  end.

Definition calculateTotalCompleted (habit : Habit) : nat :=
  match completionDates habit with
  | None => 0%nat
  | Some dates => List.length (filter (isDateWithinRange habit) dates)
  end.

Definition calculateCompletionPercentage (habit : Habit) : number :=
  let daysDiff :=
    match calculateDaysDifference (startDate habit) (endDate habit) with
    | Int z => Int (z + 1)
    | other => other
    end in
  if Number_strictEq daysDiff (Int 0) then Int 0
  else
    let completedDays := Int (Z.of_nat (calculateTotalCompleted habit)) in
    let percentage :=
      Math_round
        (SFmul prec64 emax64
           (SFdiv prec64 emax64 (toDouble completedDays) (toDouble daysDiff))
           (toDouble (Int 100))) in
    Math_min percentage (Int 100).

(* ================================================================== *)
(** * Notions of the specification *)

(** A canonical date string: the [YYYY-MM-DD] form of a calendar day, as
    [getDateString] prints the days of the years 0000 to 9999. *)
Definition isCanonicalDate (s : string) : bool :=
  match getDateFromString s with
  | Some t => (isoDate t =? s)%string && (String.length s =? 10)%nat
  | None => false
  end.

(** The completion dates of a habit, none when the field is unusable. *)
Definition datesOf (habit : Habit) : list string :=
  match completionDates habit with
  | Some l => l
  | None => []
  end.

(** The loop of [calculateCurrentStreak] unrolled [fuel] times. *)
Fixpoint streakWalk (fuel : nat) (tz : TimeZone) (habit : Habit)
  (currentDate : Date) (streak : nat) : iteration :=
  match fuel with
  | O => Continue currentDate streak
  | S fuel' =>
      match streakStep tz habit currentDate streak with
      | Continue currentDate' streak' =>
          streakWalk fuel' tz habit currentDate' streak'
      | done => done
      end
  end.

(** The Date after [i] calls of [setDate(getDate() + days)]. *)
Fixpoint stepDate (tz : TimeZone) (days : Z) (date : Date) (i : nat) {struct i}
  : Date :=
  match i with
  | O => date
  | S i' => stepDate tz days (setDate_plus tz date days) i'
  end.

(** The walk of the current streak finds a completed day in range at its
    pass [i]. *)
Definition walkFinds (tz : TimeZone) (habit : Habit) (date : Date) (i : nat)
  : bool :=
  match getDateString (stepDate tz (-1) date i) with
  | Returned dateStr =>
      isDateWithinRange habit dateStr && isHabitCompletedOnDate habit dateStr
  | _ => false
  end.

(** The offset of the zone does not change from the instant [lo] to the
    instant [hi]: it is the same at every instant between them, and for
    the local times of these instants. *)
Definition steady (tz : TimeZone) (lo hi : Z) : Prop :=
  exists offset,
    (forall t, lo <= t <= hi -> offsetAtUTC tz t = offset)
    /\ (forall t, lo <= t <= hi -> offsetAtLocal tz (t + offset) = offset).

(** The offsets of the zone differ by [shift] ms at most. *)
Definition shiftWithin (tz : TimeZone) (shift : Z) : Prop :=
  forall t u, Z.abs (offsetAtUTC tz t - offsetAtLocal tz u) <= shift.

(** The date string of the day [i] days before [now]. *)
Definition dayBefore (now : Instant) (i : nat) : string :=
  isoDate (timeValue now - Z.of_nat i * msPerDay).

(** Year, month and date of a day as one decimal number [YYYYMMDD]. *)
Definition dateKey (d : Z) : Z :=
  YearFromDay d * 10000 + (MonthFromDay d + 1) * 100 + DateFromDay d.

(** The maximal runs of a list of date strings: a run goes on while each
    date is one day after the date before it. *)
Fixpoint runs (l : list string) : list (list string) :=
  match l with
  | [] => []
  | x :: l' =>
      match runs l' with
      | (y :: r) :: rs =>
          if dayDiffIsOne x y then (x :: y :: r) :: rs else [x] :: (y :: r) :: rs
      | _ => [[x]]
      end
  end.

(** The length of the longest run; 0 without any date. *)
Definition longestRun (l : list string) : nat :=
  list_max (map (@List.length string) (runs l)).

(** Every date of a run but the first is one day after its predecessor. *)
Fixpoint consecutive (r : list string) : bool :=
  match r with
  | x :: (y :: _) as r' => dayDiffIsOne x y && consecutive r'
  | _ => true
  end.

(** The day number that a date string reads as; 0 for an Invalid Date. *)
Definition dayNum (s : string) : Z :=
  match getDateFromString s with
  | Some t => Day t
  | None => 0
  end.

(** Strings in code-unit order, and date strings in strict order of their
    days. *)
Definition sle (a b : string) : Prop := (a <=? b)%string = true.

(** The arithmetic of [calculateCompletionPercentage] on [c] completed
    days and a span of [d] days:
    [Math.min(Math.round((c / d) * 100), 100)] in binary64. *)
Definition doublePercentage (c d : Z) : number :=
  Math_min
    (Math_round
       (SFmul prec64 emax64
          (SFdiv prec64 emax64 (doubleOfZ c) (doubleOfZ d))
          (doubleOfZ 100)))
    (Int 100).

(** The percentage in the words of the specification:
    [round(100 * c / d)] over the rationals, halves rounded up, clamped to
    at most 100; for a span [d > 0]. *)
Definition roundedPercentage (c d : Z) : Z :=
  Z.min ((200 * c + d) / (2 * d)) 100.

(** A double that is not NaN and carries the sign [s]. *)
Definition signed (s : bool) (x : spec_float) : Prop :=
  match x with
  | S754_nan => False
  | S754_zero s' | S754_infinity s' | S754_finite s' _ _ => s' = s
  end.

(** [y <= m * 2^e], on integers. *)
Definition scaledLe (y m e : Z) : Prop :=
  match e with
  | Zneg p => y * 2 ^ Zpos p <= m
  | _ => y <= m * 2 ^ e
  end.

(** A double that is at least the integer [y]. *)
Definition atLeast (y : Z) (x : spec_float) : Prop :=
  match x with
  | S754_finite false m e => scaledLe y (Zpos m) e
  | S754_infinity false => True
  | _ => False
  end.

(** Between two successive runs the day does not advance by one: the runs
    are maximal. *)
Fixpoint separated (rs : list (list string)) : bool :=
  match rs with
  | r1 :: rs' =>
      match rs' with
      | (y :: _) :: _ => negb (dayDiffIsOne (List.last r1 "") y) && separated rs'
      | _ => separated rs'
      end
  | [] => true
  end.

(** Two habit records that no function of the engine tells apart. *)
Definition sameStatistics (h h' : Habit) : Prop :=
  id h' = id h /\ startDate h' = startDate h /\ endDate h' = endDate h
  /\ (forall dateStr,
        isHabitCompletedOnDate h' dateStr = isHabitCompletedOnDate h dateStr)
  /\ (forall tz now,
        calculateCurrentStreak tz h' now = calculateCurrentStreak tz h now)
  /\ calculateLongestStreak h' = calculateLongestStreak h
  /\ calculateTotalCompleted h' = calculateTotalCompleted h
  /\ calculateCompletionPercentage h' = calculateCompletionPercentage h.

(* ------------------------------------------------------------------ *)
(** ** Scenarios *)

(** A host on UTC, and a host in New York with the rules of 2024: daylight
    time, four hours behind UTC, from 2024-03-10T07:00Z to
    2024-11-03T06:00Z, and standard time, five hours behind, around it.
    The local times from 02:00 to 03:00 of 2024-03-10 do not exist and are
    read by the offset before the change; those from 01:00 to 02:00 of
    2024-11-03 exist twice and are read as the earlier instant. *)
Definition utcZone : TimeZone :=
  {| offsetAtUTC := fun _ => 0; offsetAtLocal := fun _ => 0 |}.

Definition newYork2024 : TimeZone :=
  {| offsetAtUTC := fun t =>
       if (1710054000000 <=? t) && (t <? 1730613600000)
       then -14400000 else -18000000;
     offsetAtLocal := fun t =>
       if (1710039600000 <=? t) && (t <? 1730599200000)
       then -14400000 else -18000000 |}.

(** 23:30 UTC of 2024-03-10, and a habit of March 2024 with that day
    completed and no other. *)
Definition evening_2024_03_10 : Instant := mkInstant 1710113400000 eq_refl.

Definition marchHabit : Habit :=
  {| id := "6"; name := "Stretch";
     startDate := "2024-03-01"; endDate := "2024-03-31";
     createdAt := "2024-03-01T08:00:00.000Z";
     completionDates := Some ["2024-03-10"] |}.

(** Midnight and noon (UTC) of 2024-01-03, and midnight of 2024-01-10. *)
Definition midnight_2024_01_03 : Instant := mkInstant 1704240000000 eq_refl.
Definition noon_2024_01_03 : Instant := mkInstant 1704283200000 eq_refl.
Definition midnight_2024_01_10 : Instant := mkInstant 1704844800000 eq_refl.

(** Scenario A: four completions in a range of ten days. *)
Definition scenarioA : Habit :=
  {| id := "1"; name := "Gym";
     startDate := "2024-01-01"; endDate := "2024-01-10";
     createdAt := "2024-01-01T08:00:00.000Z";
     completionDates :=
       Some ["2024-01-01"; "2024-01-02"; "2024-01-03"; "2024-01-05"] |}.

(** Scenario B: the first three days of the range completed. *)
Definition scenarioB : Habit :=
  {| id := "1"; name := "Gym";
     startDate := "2024-01-01"; endDate := "2024-01-10";
     createdAt := "2024-01-01T08:00:00.000Z";
     completionDates := Some ["2024-01-01"; "2024-01-02"; "2024-01-03"] |}.

(** The same three days, the second stored twice. *)
Definition duplicatedHabit : Habit :=
  {| id := "1"; name := "Gym";
     startDate := "2024-01-01"; endDate := "2024-01-10";
     createdAt := "2024-01-01T08:00:00.000Z";
     completionDates :=
       Some ["2024-01-01"; "2024-01-02"; "2024-01-02"; "2024-01-03"] |}.

(** One date stored twice. *)
Definition twiceHabit : Habit :=
  {| id := "1"; name := "Gym";
     startDate := "2024-01-01"; endDate := "2024-01-10";
     createdAt := "2024-01-01T08:00:00.000Z";
     completionDates := Some ["2024-01-02"; "2024-01-02"] |}.

(** A range of 40 days, 2024-01-01 to 2024-02-09, with its first 23 days
    completed. *)
Definition fortyDayHabit : Habit :=
  {| id := "2"; name := "Reading";
     startDate := "2024-01-01"; endDate := "2024-02-09";
     createdAt := "2024-01-01T08:00:00.000Z";
     completionDates :=
       Some ["2024-01-01"; "2024-01-02"; "2024-01-03"; "2024-01-04";
             "2024-01-05"; "2024-01-06"; "2024-01-07"; "2024-01-08";
             "2024-01-09"; "2024-01-10"; "2024-01-11"; "2024-01-12";
             "2024-01-13"; "2024-01-14"; "2024-01-15"; "2024-01-16";
             "2024-01-17"; "2024-01-18"; "2024-01-19"; "2024-01-20";
             "2024-01-21"; "2024-01-22"; "2024-01-23"] |}.

(** A record whose range is inverted, as no validated habit is, and the
    midnight of 2024-01-15, a day between its two ends. *)
Definition invertedHabit : Habit :=
  {| id := "4"; name := "Walk";
     startDate := "2024-02-01"; endDate := "2024-01-01";
     createdAt := "2024-01-01T08:00:00.000Z";
     completionDates := Some [] |}.

Definition midnight_2024_01_15 : Instant := mkInstant 1705276800000 eq_refl.

(** A record whose startDate names no month of the calendar. *)
Definition undatedHabit : Habit :=
  {| id := "5"; name := "Journal";
     startDate := "2024-13-01"; endDate := "2024-01-10";
     createdAt := "2024-01-01T08:00:00.000Z";
     completionDates := Some ["2024-01-02"] |}.

(** A record without a usable [completionDates] field. *)
Definition legacyHabit : Habit :=
  {| id := "3"; name := "Namaz";
     startDate := "2024-01-01"; endDate := "2024-01-22";
     createdAt := "2024-01-01T08:00:00.000Z";
     completionDates := None |}.

(* ================================================================== *)
(** * script.js: the other functions on habits *)

(** [Date.prototype.toISOString] on a valid time value:
    [YYYY-MM-DDTHH:mm:ss.sssZ]. *)
Definition toISOString (t : Z) : string :=
  let ms := t mod msPerDay in
  String.append (isoDate t)
    (String "T" (padStart 2 (ms / 3600000)
       (String ":" (padStart 2 (ms / 60000 mod 60)
          (String ":" (padStart 2 (ms / 1000 mod 60)
             (String "." (padStart 3 (ms mod 1000) "Z")))))))).

(** [string.split('T')[0]]: the part before the first [T]. *)
Fixpoint beforeT (s : string) : string :=
  match s with
  | EmptyString => EmptyString
  | String c rest => if Ascii.eqb c "T" then EmptyString else String c (beforeT rest)
  end.

(** White space of the ASCII range, as [String.prototype.trim] removes it:
    tab, line feed, vertical tab, form feed, carriage return and space. *)
Definition isWhiteSpace (c : ascii) : bool :=
  orb ((9 <=? N_of_ascii c)%N && (N_of_ascii c <=? 13)%N)
      (N_of_ascii c =? 32)%N.

Fixpoint trimStart (s : string) : string :=
  match s with
  | EmptyString => EmptyString
  | String c rest => if isWhiteSpace c then trimStart rest else s
  end.

Fixpoint trimEnd (s : string) : string :=
  match s with
  | EmptyString => EmptyString
  | String c rest =>
      match trimEnd rest with
      | EmptyString => if isWhiteSpace c then EmptyString else String c EmptyString
      | rest' => String c rest'
      end
  end.

Definition trim (s : string) : string := trimEnd (trimStart s).

(** What [createHabit] returns: [{ success: true, habit }] or
    [{ success: false, error }]. *)
Inductive creation : Type :=
| Created (habit : Habit)
| Rejected (error : string).

(** [createHabit], with the store before and after it.  [idClock] is the
    reading of the clock by [Date.now()] and [createdClock] the later one
    by [new Date()]. *)
Definition createHabit (name startDateStr endDateStr : string)
  (idClock createdClock : Instant) (habits : list Habit)
  : creation * list Habit :=
  let validation := validateDateRange startDateStr endDateStr in
  if negb (valid validation) then (Rejected (error validation), habits)
  else
    let newHabit :=
      {| id := Number_toString (Int (timeValue idClock));
         name := trim name;
         startDate := startDateStr;
         endDate := endDateStr;
         createdAt := toISOString (timeValue createdClock);
         completionDates := Some [] |} in
    (Created newHabit, habits ++ [newHabit]).

(** The store after [deleteHabit]. *)
Definition deleteHabit (habitId : string) (habits : list Habit) : list Habit :=
  filter (fun h => negb (id h =? habitId)%string) habits.

(** The [for] loop of [getDaysToDisplay] with [n] iterations to go. *)
Fixpoint daysLoop (n : nat) (tz : TimeZone) (currentDate : Date)
  (days : list string) : outcome (list string) :=
  match n with
  | O => Returned days
  | S n' =>
      match getDateString currentDate with
      | Returned dateStr =>
          daysLoop n' tz (setDate_plus tz currentDate 1) (days ++ [dateStr])
      | RangeError => RangeError
      | OutOfFuel => OutOfFuel
      end
  end.

(** [i < daysDiff] holds for the [daysDiff] first values of [i], and for
    none when [daysDiff] is NaN. *)
Definition getDaysToDisplay (tz : TimeZone) (habit : Habit)
  : outcome (list string) :=
  let daysDiff :=
    match calculateDaysDifference (startDate habit) (endDate habit) with
    | Int z => Int (z + 1)
    | other => other
    end in
  let currentDate := getDateFromString (startDate habit) in
  match daysDiff with
  | Int d => daysLoop (Z.to_nat d) tz currentDate []
  | PosInfinity => OutOfFuel
  | _ => Returned []
  end.

(** The guard of the checkbox of today in [renderHabit]: the checkbox
    toggles today when today is in range and the habit active.
    [renderHabit] reads the clock twice for it: [statusClock] is the
    reading by [getHabitStatus] at its start, [todayClock] the later one by
    [getTodayDateString]. *)
Definition canToggleToday (habit : Habit) (statusClock todayClock : Instant)
  : bool :=
  let status := getHabitStatus habit statusClock in
  let today := getTodayDateString todayClock in
  isDateWithinRange habit today
  && match status with active => true | _ => false end.

(** The click handler of the confirm button, on the values of the three
    inputs of the form: what [dateError] shows, or the habit added.  The
    handler trims the name, refuses an empty name and an empty date, and
    hands the rest to [createHabit]. *)
Inductive submission : Type :=
| Shown (message : string)
| Added (habit : Habit).

Definition confirmAdd (nameValue startValue endValue : string)
  (idClock createdClock : Instant) (habits : list Habit)
  : submission * list Habit :=
  let habitName := trim nameValue in
  let startDate := startValue in
  let endDate := endValue in
  if (habitName =? "")%string then (Shown "Please enter a habit name", habits)
  else if (startDate =? "")%string || (endDate =? "")%string then
    (Shown "Please select both start and end dates", habits)
  else
    match createHabit habitName startDate endDate idClock createdClock habits with
    | (Rejected error, habits') => (Shown error, habits')
    | (Created habit, habits') => (Added habit, habits')
    end.

(** A record of the store as an older version of the program may have
    left it: each field a string or missing, the completion dates an array
    of strings or missing. *)
Record StoredHabit : Type := mkStoredHabit {
  storedId : option string;
  storedName : option string;
  storedStartDate : option string;
  storedEndDate : option string;
  storedCreatedAt : option string;
  storedCompletionDates : option (list string)
}.

(** [x || d] on a string or missing value [x]: the empty string is falsy
    as well. *)
Definition orDefault (x : option string) (d : string) : string :=
  match x with
  | Some s => if (s =? "")%string then d else s
  | None => d
  end.

(** The function that [migrateHabits] maps over the store.  [idClock] and
    [createdClock] are the readings of the clock by [Date.now()] and
    [new Date()], which are taken for this record when the field is
    missing. *)
Definition migrateHabit (today endDate : string) (idClock createdClock : Instant)
  (habit : StoredHabit) : Habit :=
  {| id := orDefault (storedId habit) (Number_toString (Int (timeValue idClock)));
     name := orDefault (storedName habit) "Unnamed Habit";
     startDate := orDefault (storedStartDate habit) today;
     endDate := orDefault (storedEndDate habit) endDate;
     createdAt := orDefault (storedCreatedAt habit)
                    (toISOString (timeValue createdClock));
     completionDates := Some (match storedCompletionDates habit with
                              | Some l => l
                              | None => []
                              end) |}.

(** [habits.map] from index [i] on, with the clock readings of each
    index. *)
Fixpoint migrateFrom (i : nat) (today endDate : string)
  (idClock createdClock : nat -> Instant) (habits : list StoredHabit)
  : list Habit :=
  match habits with
  | [] => []
  | habit :: rest =>
      migrateHabit today endDate (idClock i) (createdClock i) habit
      :: migrateFrom (S i) today endDate idClock createdClock rest
  end.

(** The store after [migrateHabits]: the records of [updated].  They are
    saved when their JSON text differs from that of the store, and are the
    store itself when it does not. *)
Definition migrateHabits (tz : TimeZone) (now : Instant)
  (idClock createdClock : nat -> Instant) (habits : list StoredHabit)
  : outcome (list Habit) :=
  let today := getTodayDateString now in
  match addDaysToDate tz today 21 with
  | Returned endDate =>
      Returned (migrateFrom 0 today endDate idClock createdClock habits)
  | RangeError => RangeError
  | OutOfFuel => OutOfFuel
  end.

(** A habit record read back from the store. *)
Definition stored (h : Habit) : StoredHabit :=
  {| storedId := Some (id h);
     storedName := Some (name h);
     storedStartDate := Some (startDate h);
     storedEndDate := Some (endDate h);
     storedCreatedAt := Some (createdAt h);
     storedCompletionDates := completionDates h |}.

(** Without white space at its start. *)
Definition startsClean (s : string) : bool :=
  match s with
  | EmptyString => true
  | String c _ => negb (isWhiteSpace c)
  end.

(* ================================================================== *)
(** * The calendar *)

Ltac Zify.zify_post_hook ::= Z.div_mod_to_equations.

Lemma msPerDay_eq : msPerDay = 86400000.
Proof. reflexivity. Qed.

Lemma InLeapYear_cases y : InLeapYear y = 0 \/ InLeapYear y = 1.
Proof.
  unfold InLeapYear.
  destruct (y mod 4 =? 0), (y mod 100 =? 0), (y mod 400 =? 0); simpl; auto.
Qed.

Lemma DayFromYear_succ y :
  DayFromYear (y + 1) = DayFromYear y + 365 + InLeapYear y.
Proof.
  unfold DayFromYear, InLeapYear.
  destruct (Z.eqb_spec (y mod 4) 0), (Z.eqb_spec (y mod 100) 0),
    (Z.eqb_spec (y mod 400) 0); cbn [negb]; lia.
Qed.

Lemma DayFromYear_mono y1 y2 : y1 <= y2 -> DayFromYear y1 <= DayFromYear y2.
Proof. unfold DayFromYear. lia. Qed.

Lemma YearFromDay_spec d :
  DayFromYear (YearFromDay d) <= d < DayFromYear (YearFromDay d + 1).
Proof.
  unfold YearFromDay.
  set (y := 1970 + d * 400 / 146097).
  assert (E : DayFromYear (y - 1) <= d < DayFromYear (y + 2))
    by (unfold DayFromYear, y; lia).
  destruct (Z.leb_spec (DayFromYear (y + 1)) d).
  - replace (y + 1 + 1) with (y + 2) by lia. lia.
  - destruct (Z.leb_spec (DayFromYear y) d).
    + lia.
    + replace (y - 1 + 1) with y by lia. lia.
Qed.

(** [YearFromDay d] is the only year whose days contain [d]. *)
Lemma YearFromDay_unique d y :
  DayFromYear y <= d < DayFromYear (y + 1) -> YearFromDay d = y.
Proof.
  intros H. pose proof (YearFromDay_spec d) as S.
  destruct (Z.lt_trichotomy (YearFromDay d) y) as [L | [E | G]]; trivial.
  - pose proof (DayFromYear_mono (YearFromDay d + 1) y). lia.
  - pose proof (DayFromYear_mono (y + 1) (YearFromDay d)). lia.
Qed.

Lemma YearFromDay_mono a b : a <= b -> YearFromDay a <= YearFromDay b.
Proof.
  intros H. pose proof (YearFromDay_spec a). pose proof (YearFromDay_spec b).
  destruct (Z_le_gt_dec (YearFromDay a) (YearFromDay b)); trivial.
  pose proof (DayFromYear_mono (YearFromDay b + 1) (YearFromDay a)). lia.
Qed.

Lemma DayWithinYear_bounds d :
  0 <= DayWithinYear d < 365 + InLeapYear (YearFromDay d).
Proof.
  unfold DayWithinYear. pose proof (YearFromDay_spec d).
  rewrite DayFromYear_succ in *. lia.
Qed.

Lemma monthOfDayWithinYear_spec leap dwy :
  (leap = 0 \/ leap = 1) -> 0 <= dwy < 365 + leap ->
  let m := monthOfDayWithinYear leap dwy in
  0 <= m <= 11 /\ monthStart leap m <= dwy < monthStart leap (m + 1).
Proof.
  intros L B. unfold monthOfDayWithinYear.
  destruct L; subst leap;
  repeat match goal with
         | |- context [ ?a <? ?b ] => destruct (Z.ltb_spec a b)
         end; cbn; lia.
Qed.

Lemma MonthFromDay_bounds d : 0 <= MonthFromDay d <= 11.
Proof.
  apply (monthOfDayWithinYear_spec _ _ (InLeapYear_cases _) (DayWithinYear_bounds d)).
Qed.

Lemma DateFromDay_bounds d :
  1 <= DateFromDay d <= DaysInMonth (YearFromDay d) (MonthFromDay d).
Proof.
  unfold DateFromDay, DaysInMonth, MonthFromDay.
  pose proof (monthOfDayWithinYear_spec _ _ (InLeapYear_cases _)
                (DayWithinYear_bounds d)) as H.
  cbv zeta in H. lia.
Qed.

Lemma DaysInMonth_le_31 y m : 0 <= m <= 11 -> DaysInMonth y m <= 31.
Proof.
  intros H. unfold DaysInMonth.
  assert (C : m = 0 \/ m = 1 \/ m = 2 \/ m = 3 \/ m = 4 \/ m = 5 \/ m = 6
              \/ m = 7 \/ m = 8 \/ m = 9 \/ m = 10 \/ m = 11) by lia.
  destruct (InLeapYear_cases y) as [L | L]; rewrite L;
    repeat (destruct C as [C | C]; [subst m; cbn; lia | ]); subst m; cbn; lia.
Qed.

(** A day number is rebuilt from its year, month and date. *)
Lemma MakeDay_of_day d :
  MakeDay (YearFromDay d) (MonthFromDay d) (DateFromDay d) = d.
Proof. unfold MakeDay, DateFromDay, DayWithinYear. lia. Qed.

(* ================================================================== *)
(** * Printing and reading dates *)

Lemma N_of_digitChar n : N_of_ascii (digitChar n) = Z.to_N (48 + n mod 10).
Proof. unfold digitChar. apply N_ascii_embedding. lia. Qed.

Lemma isDigit_digitChar n : isDigit (digitChar n) = true.
Proof.
  unfold isDigit. rewrite N_of_digitChar.
  apply andb_true_intro; split; apply N.leb_le; lia.
Qed.

Lemma digitValue_digitChar n : digitValue (digitChar n) = n mod 10.
Proof. unfold digitValue. rewrite N_of_digitChar. lia. Qed.

Lemma digitChar_neq n c : (N_of_ascii c < 48)%N -> Ascii.eqb (digitChar n) c = false.
Proof.
  intros H. apply Ascii.eqb_neq. intros E.
  apply (f_equal N_of_ascii) in E. rewrite N_of_digitChar in E. lia.
Qed.

Lemma readDigits_padStart w : forall k n acc rest,
  readDigits (w + k) acc (padStart w n rest)
  = readDigits k (acc * 10 ^ Z.of_nat w + n mod 10 ^ Z.of_nat w) rest.
Proof.
  induction w as [| w IH]; intros k n acc rest.
  - cbn [padStart Nat.add]. f_equal.
    change (10 ^ Z.of_nat 0) with 1. rewrite Z.mod_1_r. lia.
  - cbn [padStart]. replace (S w + k)%nat with (w + S k)%nat by lia.
    rewrite IH. cbn [readDigits].
    rewrite isDigit_digitChar, digitValue_digitChar. f_equal.
    rewrite Nat2Z.inj_succ, Z.pow_succ_r by lia.
    assert (0 < 10 ^ Z.of_nat w) by (apply Z.pow_pos_nonneg; lia).
    rewrite (Z.rem_mul_r n 10 (10 ^ Z.of_nat w)) by lia. ring.
Qed.

Lemma readDigits_padStart_exact w n rest :
  0 <= n < 10 ^ Z.of_nat w ->
  readDigits w 0 (padStart w n rest) = Some (n, rest).
Proof.
  intros H. rewrite <- (Nat.add_0_r w) at 1. rewrite readDigits_padStart.
  cbn [readDigits]. rewrite Z.mod_small by lia. reflexivity.
Qed.

Lemma padStart_append w : forall n rest s,
  (padStart w n rest ++ s)%string = padStart w n (rest ++ s)%string.
Proof.
  induction w as [| w IH]; intros n rest s; cbn [padStart].
  - reflexivity.
  - apply IH.
Qed.

Lemma yearString_append y rest s :
  (yearString y rest ++ s)%string = yearString y (rest ++ s)%string.
Proof.
  unfold yearString. destruct ((0 <=? y) && (y <=? 9999)).
  - apply padStart_append.
  - cbn [append]. rewrite padStart_append. reflexivity.
Qed.

Lemma readYear_yearString y rest :
  Z.abs y < 1000000 -> readYear (yearString y rest) = Some (y, rest).
Proof.
  intros B. unfold yearString.
  destruct (Z.leb_spec 0 y) as [P | N]; cbn [andb].
  - destruct (Z.leb_spec y 9999) as [S | L].
    + pose proof (readDigits_padStart_exact 4 y rest) as R.
      cbn [padStart] in *. unfold readYear.
      rewrite !digitChar_neq by (cbn; lia). apply R.
      change (10 ^ Z.of_nat 4) with 10000. lia.
    + unfold readYear. change (Ascii.eqb "+" "+") with true. cbn iota.
      rewrite readDigits_padStart_exact.
      * f_equal. f_equal. lia.
      * change (10 ^ Z.of_nat 6) with 1000000. lia.
  - unfold readYear. change (Ascii.eqb "-" "+") with false.
    change (Ascii.eqb "-" "-") with true. cbn iota.
    rewrite readDigits_padStart_exact.
    + destruct (Z.eqb_spec (Z.abs y) 0); [lia |]. f_equal. f_equal. lia.
    + change (10 ^ Z.of_nat 6) with 1000000. lia.
Qed.

Lemma readField_padStart n rest :
  0 <= n < 100 -> readField (String "-" (padStart 2 n rest)) = Some (n, rest).
Proof.
  intros H. unfold readField. change (Ascii.eqb "-" "-") with true. cbn iota.
  apply readDigits_padStart_exact. change (10 ^ Z.of_nat 2) with 100. lia.
Qed.

(** Reading back a printed day gives its midnight. *)
Lemma getDateFromString_isoDateOfDay d :
  Z.abs (YearFromDay d) < 1000000 ->
  getDateFromString (isoDateOfDay d) = TimeClip (d * msPerDay).
Proof.
  intros B. unfold getDateFromString, isoDateOfDay.
  rewrite yearString_append. cbn [append]. rewrite padStart_append.
  cbn [append]. rewrite padStart_append. cbn [append].
  unfold Date_parse. rewrite (readYear_yearString _ _ B).
  pose proof (MonthFromDay_bounds d) as M.
  pose proof (DateFromDay_bounds d) as D.
  pose proof (DaysInMonth_le_31 (YearFromDay d) _ M) as D31.
  rewrite readField_padStart by lia. rewrite readField_padStart by lia.
  rewrite String.eqb_refl.
  replace (MonthFromDay d + 1 - 1) with (MonthFromDay d) by lia.
  rewrite MakeDay_of_day.
  replace (1 <=? MonthFromDay d + 1) with true by (symmetry; apply Z.leb_le; lia).
  replace (MonthFromDay d + 1 <=? 12) with true by (symmetry; apply Z.leb_le; lia).
  replace (1 <=? DateFromDay d) with true by (symmetry; apply Z.leb_le; lia).
  replace (DateFromDay d <=? DaysInMonth (YearFromDay d) (MonthFromDay d))
    with true by (symmetry; apply Z.leb_le; lia).
  reflexivity.
Qed.

(* ------------------------------------------------------------------ *)
(** ** Valid time values *)

Lemma TimeClip_Some t u : TimeClip t = Some u -> u = t /\ Z.abs t <= maxTime.
Proof.
  unfold TimeClip. destruct (Z.leb_spec (Z.abs t) maxTime); intros E;
    inversion E; subst; split; [reflexivity | assumption].
Qed.

Lemma TimeClip_valid t : Z.abs t <= maxTime -> TimeClip t = Some t.
Proof.
  intros H. unfold TimeClip.
  destruct (Z.leb_spec (Z.abs t) maxTime); [reflexivity | lia].
Qed.

Lemma Instant_valid (now : Instant) : Z.abs (timeValue now) <= maxTime.
Proof. apply Z.leb_le, timeValue_valid. Qed.

Lemma Day_valid t : Z.abs t <= maxTime -> Z.abs (Day t) <= 100000000.
Proof. unfold Day, maxTime. rewrite msPerDay_eq. lia. Qed.

Lemma Day_midnight_valid t :
  Z.abs t <= maxTime -> Z.abs (Day t * msPerDay) <= maxTime.
Proof. unfold Day, maxTime. rewrite msPerDay_eq. lia. Qed.

Lemma YearFromDay_valid d :
  Z.abs d <= 100000000 -> Z.abs (YearFromDay d) < 1000000.
Proof.
  intros H. pose proof (YearFromDay_spec d) as S.
  unfold DayFromYear in S. lia.
Qed.

Lemma Date_parse_valid s t : Date_parse s = Some t -> Z.abs t <= maxTime.
Proof.
  unfold Date_parse.
  destruct (readYear s) as [[y s1] |]; [| discriminate].
  destruct (readField s1) as [[m s2] |]; [| discriminate].
  destruct (readField s2) as [[dt s3] |]; [| discriminate].
  match goal with |- (if ?c then _ else _) = _ -> _ => destruct c end;
    [| discriminate].
  intros E. apply TimeClip_Some in E. destruct E as [-> E]. exact E.
Qed.

Lemma getDateFromString_isoDate t :
  Z.abs t <= maxTime -> getDateFromString (isoDate t) = Some (Day t * msPerDay).
Proof.
  intros H. unfold isoDate.
  rewrite getDateFromString_isoDateOfDay
    by (apply YearFromDay_valid, Day_valid, H).
  apply TimeClip_valid, Day_midnight_valid, H.
Qed.

(** Printing is injective on the days of valid time values. *)
Lemma isoDate_inj t1 t2 :
  Z.abs t1 <= maxTime -> Z.abs t2 <= maxTime ->
  isoDate t1 = isoDate t2 -> Day t1 = Day t2.
Proof.
  intros H1 H2 E.
  pose proof (getDateFromString_isoDate t1 H1) as P1.
  pose proof (getDateFromString_isoDate t2 H2) as P2.
  rewrite E, P2 in P1. inversion P1 as [Q].
  rewrite msPerDay_eq in Q. lia.
Qed.

Lemma Day_minus_days t i : Day (t - i * msPerDay) = Day t - i.
Proof. unfold Day. rewrite msPerDay_eq. lia. Qed.

Lemma Day_of_midnight d : Day (d * msPerDay) = d.
Proof. unfold Day. rewrite msPerDay_eq. lia. Qed.

(* ------------------------------------------------------------------ *)
(** ** Canonical date strings *)

Lemma length_padStart w : forall n rest,
  String.length (padStart w n rest) = (w + String.length rest)%nat.
Proof.
  induction w as [| w IH]; intros n rest; cbn [padStart].
  - reflexivity.
  - rewrite IH. cbn [String.length]. lia.
Qed.

Lemma length_isoDateOfDay d :
  String.length (isoDateOfDay d)
  = if (0 <=? YearFromDay d) && (YearFromDay d <=? 9999) then 10%nat else 13%nat.
Proof.
  unfold isoDateOfDay, yearString.
  destruct ((0 <=? YearFromDay d) && (YearFromDay d <=? 9999));
    cbn [String.length]; rewrite ?length_padStart; cbn [String.length];
    rewrite ?length_padStart; cbn [String.length]; rewrite ?length_padStart;
    reflexivity.
Qed.

(** A canonical date string is the print of a day of the years 0..9999, and
    reads back as the midnight of that day. *)
Lemma isCanonicalDate_inv s :
  isCanonicalDate s = true ->
  exists d, s = isoDateOfDay d
            /\ 0 <= YearFromDay d <= 9999
            /\ Z.abs (d * msPerDay) <= maxTime
            /\ getDateFromString s = Some (d * msPerDay).
Proof.
  unfold isCanonicalDate.
  destruct (getDateFromString s) as [t |] eqn:P; [| discriminate].
  intros H. apply andb_true_iff in H. destruct H as [E L].
  apply String.eqb_eq in E. apply Nat.eqb_eq in L.
  assert (V : Z.abs t <= maxTime) by (apply (Date_parse_valid _ _ P)).
  pose proof (getDateFromString_isoDate t V) as R.
  rewrite E, P in R. inversion R as [Q].
  exists (Day t). rewrite <- Q. repeat split; trivial.
  - unfold isoDate in E. symmetry. exact E.
  - rewrite <- E in L. unfold isoDate in L. rewrite length_isoDateOfDay in L.
    destruct (Z.leb_spec 0 (YearFromDay (Day t))); [lia | discriminate].
  - rewrite <- E in L. unfold isoDate in L. rewrite length_isoDateOfDay in L.
    destruct (Z.leb_spec 0 (YearFromDay (Day t))); cbn [andb] in L;
      [| discriminate].
    destruct (Z.leb_spec (YearFromDay (Day t)) 9999); [lia | discriminate].
Qed.

(* ------------------------------------------------------------------ *)
(** ** Lexicographic order of canonical date strings is chronological *)

Lemma monthDate_mono leap a b :
  (leap = 0 \/ leap = 1) -> 0 <= a -> a < b -> b < 365 + leap ->
  (monthOfDayWithinYear leap a + 1) * 100
    + (a - monthStart leap (monthOfDayWithinYear leap a) + 1)
  < (monthOfDayWithinYear leap b + 1) * 100
    + (b - monthStart leap (monthOfDayWithinYear leap b) + 1).
Proof.
  intros L A AB B. unfold monthOfDayWithinYear.
  destruct L; subst leap;
    repeat match goal with
           | |- context [ ?x <? ?y ] => destruct (Z.ltb_spec x y)
           end; unfold monthStart; cbv beta iota; lia.
Qed.

Lemma dateKey_mono d1 d2 : d1 < d2 -> dateKey d1 < dateKey d2.
Proof.
  intros H. unfold dateKey.
  pose proof (YearFromDay_mono d1 d2 ltac:(lia)) as Y.
  pose proof (MonthFromDay_bounds d1) as M1.
  pose proof (MonthFromDay_bounds d2) as M2.
  pose proof (DateFromDay_bounds d1) as D1.
  pose proof (DateFromDay_bounds d2) as D2.
  pose proof (DaysInMonth_le_31 (YearFromDay d1) _ M1) as L1.
  destruct (Z.eq_dec (YearFromDay d1) (YearFromDay d2)) as [E | N]; [| lia].
  pose proof (DayWithinYear_bounds d1) as B1.
  pose proof (DayWithinYear_bounds d2) as B2.
  assert (W : DayWithinYear d1 < DayWithinYear d2)
    by (unfold DayWithinYear; rewrite E; lia).
  unfold DateFromDay, MonthFromDay. rewrite E in *.
  pose proof (monthDate_mono (InLeapYear (YearFromDay d2)) _ _
                (InLeapYear_cases _) (proj1 B1) W (proj2 B2)).
  lia.
Qed.

Lemma compare_digitChar x y :
  Ascii.compare (digitChar x) (digitChar y) = (x mod 10 ?= y mod 10).
Proof.
  unfold Ascii.compare. rewrite !N_of_digitChar.
  rewrite Z2N.inj_compare by lia. apply Z.add_compare_mono_l.
Qed.

Lemma compare_String_digitChar x y s1 s2 :
  String.compare (String (digitChar x) s1) (String (digitChar y) s2)
  = match x mod 10 ?= y mod 10 with
    | Eq => String.compare s1 s2
    | c => c
    end.
Proof.
  cbn [String.compare]. rewrite compare_digitChar.
  destruct (x mod 10 ?= y mod 10); reflexivity.
Qed.

Lemma compare_String_same c s1 s2 :
  String.compare (String c s1) (String c s2) = String.compare s1 s2.
Proof.
  cbn [String.compare]. unfold Ascii.compare. rewrite N.compare_refl. reflexivity.
Qed.

(** The strings of two numbers [YYYYMMDD] compare as the numbers. *)
Lemma compare_dateString y1 m1 d1 y2 m2 d2 :
  0 <= y1 <= 9999 -> 0 <= y2 <= 9999 ->
  0 <= m1 < 100 -> 0 <= m2 < 100 -> 0 <= d1 < 100 -> 0 <= d2 < 100 ->
  y1 * 10000 + m1 * 100 + d1 < y2 * 10000 + m2 * 100 + d2 ->
  String.compare
    (padStart 4 y1 (String "-" (padStart 2 m1 (String "-" (padStart 2 d1 "")))))
    (padStart 4 y2 (String "-" (padStart 2 m2 (String "-" (padStart 2 d2 "")))))
  = Lt.
Proof.
  intros Y1 Y2 M1 M2 D1 D2 K. cbn [padStart].
  repeat (first [ rewrite compare_String_same
                | rewrite compare_String_digitChar;
                  match goal with
                  | |- context [ ?a ?= ?b ] =>
                      destruct (Z.compare_spec a b);
                      [ | reflexivity | exfalso; lia ]
                  end ]).
  exfalso. lia.
Qed.

Lemma isoDateOfDay_lt d1 d2 :
  0 <= YearFromDay d1 <= 9999 -> 0 <= YearFromDay d2 <= 9999 ->
  d1 < d2 -> String.compare (isoDateOfDay d1) (isoDateOfDay d2) = Lt.
Proof.
  intros Y1 Y2 H. unfold isoDateOfDay, yearString.
  replace ((0 <=? YearFromDay d1) && (YearFromDay d1 <=? 9999)) with true
    by (symmetry; apply andb_true_intro; split; apply Z.leb_le; lia).
  replace ((0 <=? YearFromDay d2) && (YearFromDay d2 <=? 9999)) with true
    by (symmetry; apply andb_true_intro; split; apply Z.leb_le; lia).
  pose proof (MonthFromDay_bounds d1) as M1.
  pose proof (MonthFromDay_bounds d2) as M2.
  pose proof (DateFromDay_bounds d1) as D1.
  pose proof (DateFromDay_bounds d2) as D2.
  pose proof (DaysInMonth_le_31 (YearFromDay d1) _ M1) as L1.
  pose proof (DaysInMonth_le_31 (YearFromDay d2) _ M2) as L2.
  apply compare_dateString; try lia.
  apply (dateKey_mono d1 d2 H).
Qed.

Lemma isoDateOfDay_compare d1 d2 :
  0 <= YearFromDay d1 <= 9999 -> 0 <= YearFromDay d2 <= 9999 ->
  String.compare (isoDateOfDay d1) (isoDateOfDay d2) = (d1 ?= d2).
Proof.
  intros Y1 Y2. destruct (Z.compare_spec d1 d2) as [E | L | G].
  - subst d2.
    pose proof (String.compare_antisym (isoDateOfDay d1) (isoDateOfDay d1)) as A.
    destruct (String.compare (isoDateOfDay d1) (isoDateOfDay d1));
      cbn in A; try discriminate; reflexivity.
  - apply isoDateOfDay_lt; trivial.
  - rewrite String.compare_antisym, isoDateOfDay_lt; trivial.
Qed.

(* ================================================================== *)
(** * The order of strings and [sort] *)


Lemma Ascii_compare_Lt_trans a b c :
  Ascii.compare a b = Lt -> Ascii.compare b c = Lt -> Ascii.compare a c = Lt.
Proof.
  unfold Ascii.compare. rewrite !N.compare_lt_iff. apply N.lt_trans.
Qed.

Lemma String_compare_Lt_trans : forall a b c,
  String.compare a b = Lt -> String.compare b c = Lt -> String.compare a c = Lt.
Proof.
  induction a as [| x a IH]; intros [| y b] [| z c]; cbn [String.compare];
    try discriminate; try reflexivity.
  destruct (Ascii.compare x y) eqn:XY; try discriminate;
    destruct (Ascii.compare y z) eqn:YZ; try discriminate; intros H1 H2.
  - apply Ascii.compare_eq_iff in XY, YZ. subst.
    unfold Ascii.compare. rewrite N.compare_refl. eapply IH; eassumption.
  - apply Ascii.compare_eq_iff in XY. subst. rewrite YZ. reflexivity.
  - apply Ascii.compare_eq_iff in YZ. subst. rewrite XY. reflexivity.
  - rewrite (Ascii_compare_Lt_trans _ _ _ XY YZ). reflexivity.
Qed.

Lemma sle_iff a b : sle a b <-> String.compare a b <> Gt.
Proof.
  unfold sle, String.leb. destruct (String.compare a b); split;
    intros; try discriminate; trivial; congruence.
Qed.


Lemma sle_trans a b c : sle a b -> sle b c -> sle a c.
Proof.
  rewrite !sle_iff. intros AB BC.
  destruct (String.compare a b) eqn:E1; [| | congruence].
  - apply String.compare_eq_iff in E1. subst. exact BC.
  - destruct (String.compare b c) eqn:E2; [| | congruence].
    + apply String.compare_eq_iff in E2. subst. rewrite E1. discriminate.
    + rewrite (String_compare_Lt_trans _ _ _ E1 E2). discriminate.
Qed.

Lemma sle_total a b : sle a b \/ sle b a.
Proof. apply String.leb_total. Qed.

Lemma sle_antisym a b : sle a b -> sle b a -> a = b.
Proof. apply String.leb_antisym. Qed.

Lemma insertSorted_perm x l : Permutation (x :: l) (insertSorted x l).
Proof.
  induction l as [| y l IH]; cbn [insertSorted].
  - apply Permutation_refl.
  - destruct (x <=? y)%string.
    + apply Permutation_refl.
    + eapply Permutation_trans; [apply perm_swap |].
      apply perm_skip, IH.
Qed.

Lemma sort_perm l : Permutation l (sort l).
Proof.
  induction l as [| x l IH]; cbn [sort].
  - apply Permutation_refl.
  - eapply Permutation_trans; [apply perm_skip, IH | apply insertSorted_perm].
Qed.

Lemma insertSorted_sorted x l :
  StronglySorted sle l -> StronglySorted sle (insertSorted x l).
Proof.
  induction 1 as [| y l S IH F]; cbn [insertSorted].
  - constructor; constructor.
  - destruct (x <=? y)%string eqn:E.
    + constructor; [constructor; assumption |].
      constructor; [exact E |].
      eapply Forall_impl; [| exact F]. intros z YZ. eapply sle_trans; eassumption.
    + constructor; [exact IH |].
      assert (YX : sle y x).
      { destruct (sle_total x y) as [C | C]; [unfold sle in C; congruence | exact C]. }
      eapply Permutation_Forall; [apply insertSorted_perm |].
      constructor; assumption.
Qed.

Lemma sort_sorted l : StronglySorted sle (sort l).
Proof.
  induction l as [| x l IH]; cbn [sort].
  - constructor.
  - apply insertSorted_sorted, IH.
Qed.

(** Two sorted arrangements of the same strings are equal. *)
Lemma sorted_perm_eq : forall l1 l2,
  StronglySorted sle l1 -> StronglySorted sle l2 -> Permutation l1 l2 -> l1 = l2.
Proof.
  induction l1 as [| a l1 IH]; intros l2 S1 S2 P.
  - apply Permutation_nil in P. congruence.
  - destruct l2 as [| b l2].
    + apply Permutation_sym, Permutation_nil in P. discriminate.
    + inversion S1 as [| ? ? S1' F1]; inversion S2 as [| ? ? S2' F2]; subst.
      assert (E : a = b).
      { assert (Ia : In a (b :: l2))
          by (eapply Permutation_in; [exact P | left; reflexivity]).
        assert (Ib : In b (a :: l1))
          by (eapply Permutation_in; [apply Permutation_sym, P | left; reflexivity]).
        rewrite Forall_forall in F1, F2.
        destruct Ia as [-> | Ia]; trivial.
        destruct Ib as [-> | Ib]; trivial.
        apply sle_antisym; auto. }
      subst b. f_equal. apply IH; trivial.
      eapply Permutation_cons_inv; exact P.
Qed.

Lemma sort_Permutation l1 l2 : Permutation l1 l2 -> sort l1 = sort l2.
Proof.
  intros P. apply sorted_perm_eq; try apply sort_sorted.
  eapply Permutation_trans; [apply Permutation_sym, sort_perm |].
  eapply Permutation_trans; [exact P | apply sort_perm].
Qed.

(* ================================================================== *)
(** * The walk of the current streak *)

Lemma includes_In l x : includes l x = true <-> In x l.
Proof.
  unfold includes. rewrite existsb_exists. split.
  - intros [y [I E]]. apply String.eqb_eq in E. subst. exact I.
  - intros I. exists x. split; [exact I | apply String.eqb_refl].
Qed.

Lemma isHabitCompletedOnDate_In h s :
  isHabitCompletedOnDate h s = true <-> In s (datesOf h).
Proof.
  unfold isHabitCompletedOnDate, datesOf. destruct (completionDates h).
  - apply includes_In.
  - split; [discriminate | intros []].
Qed.

Lemma calculateTotalCompleted_datesOf h :
  calculateTotalCompleted h
  = List.length (filter (isDateWithinRange h) (datesOf h)).
Proof.
  unfold calculateTotalCompleted, datesOf.
  destruct (completionDates h); reflexivity.
Qed.

(** ** Steps of a Date in local time *)

Lemma setDate_plus_Some tz t n :
  setDate_plus tz (Some t) n
  = TimeClip (LocalTime tz t + n * msPerDay
              - offsetAtLocal tz (LocalTime tz t + n * msPerDay)).
Proof.
  cbn [setDate_plus]. unfold setDate, getDate, UTC, MakeDate, TimeWithinDay.
  cbv zeta. set (lt := LocalTime tz t).
  assert (E : MakeDay (YearFromDay (Day lt)) (MonthFromDay (Day lt))
                (DateFromDay (Day lt) + n) = Day lt + n).
  { pose proof (MakeDay_of_day (Day lt)) as D. unfold MakeDay in *. lia. }
  rewrite E.
  replace ((Day lt + n) * msPerDay + lt mod msPerDay) with (lt + n * msPerDay);
    [reflexivity |].
  unfold Day. rewrite msPerDay_eq. lia.
Qed.

Lemma steady_sub tz lo hi lo' hi' :
  steady tz lo hi -> lo <= lo' -> hi' <= hi -> steady tz lo' hi'.
Proof.
  intros [c [U L]] A B. exists c. split; intros t Ht; [apply U | apply L]; lia.
Qed.

Lemma steady_utcZone lo hi : steady utcZone lo hi.
Proof. exists 0. split; reflexivity. Qed.

(** Where the offset of the zone does not change, a step of [n] days in
    local time is a step of [n] days. *)
Lemma setDate_plus_steady tz lo hi t n :
  steady tz lo hi -> lo <= t <= hi -> lo <= t + n * msPerDay <= hi ->
  setDate_plus tz (Some t) n = TimeClip (t + n * msPerDay).
Proof.
  intros [c [U L]] B B'. rewrite setDate_plus_Some. unfold LocalTime.
  rewrite (U t B).
  replace (t + c + n * msPerDay) with (t + n * msPerDay + c) by lia.
  rewrite (L _ B'). f_equal. lia.
Qed.

Lemma stepDate_None tz days i : stepDate tz days None i = None.
Proof. induction i as [| i IH]; [reflexivity | exact IH]. Qed.

Lemma stepDate_last tz days : forall i date,
  stepDate tz days date (S i) = setDate_plus tz (stepDate tz days date i) days.
Proof.
  induction i as [| i IH]; intros date; [reflexivity |].
  change (stepDate tz days date (S (S i)))
    with (stepDate tz days (setDate_plus tz date days) (S i)).
  rewrite IH. reflexivity.
Qed.

Lemma stepDate_back_steady tz lo : forall i t,
  steady tz lo t -> Z.abs t <= maxTime -> lo <= t - Z.of_nat i * msPerDay ->
  stepDate tz (-1) (Some t) i = TimeClip (t - Z.of_nat i * msPerDay).
Proof.
  pose proof msPerDay_eq as M.
  induction i as [| i IH]; intros t St V L.
  - cbn [stepDate]. replace (t - Z.of_nat 0 * msPerDay) with t by lia.
    symmetry. apply TimeClip_valid, V.
  - cbn [stepDate].
    rewrite (setDate_plus_steady tz lo t t (-1) St) by lia.
    replace (t + -1 * msPerDay) with (t - msPerDay) by lia.
    unfold TimeClip at 1.
    destruct (Z.leb_spec (Z.abs (t - msPerDay)) maxTime) as [V' | V'].
    + rewrite IH; [f_equal; lia | | exact V' | lia].
      apply (steady_sub tz lo t); [exact St | lia | lia].
    + rewrite stepDate_None. unfold TimeClip.
      destruct (Z.leb_spec (Z.abs (t - Z.of_nat (S i) * msPerDay)) maxTime);
        [lia | reflexivity].
Qed.

Lemma stepDate_forward_steady tz hi : forall i t,
  steady tz t hi -> Z.abs t <= maxTime -> t + Z.of_nat i * msPerDay <= hi ->
  stepDate tz 1 (Some t) i = TimeClip (t + Z.of_nat i * msPerDay).
Proof.
  pose proof msPerDay_eq as M.
  induction i as [| i IH]; intros t St V L.
  - cbn [stepDate]. replace (t + Z.of_nat 0 * msPerDay) with t by lia.
    symmetry. apply TimeClip_valid, V.
  - cbn [stepDate].
    rewrite (setDate_plus_steady tz t hi t 1 St) by lia.
    replace (t + 1 * msPerDay) with (t + msPerDay) by lia.
    unfold TimeClip at 1.
    destruct (Z.leb_spec (Z.abs (t + msPerDay)) maxTime) as [V' | V'].
    + rewrite IH; [f_equal; lia | | exact V' | lia].
      apply (steady_sub tz t hi); [exact St | lia | lia].
    + rewrite stepDate_None. unfold TimeClip.
      destruct (Z.leb_spec (Z.abs (t + Z.of_nat (S i) * msPerDay)) maxTime);
        [lia | reflexivity].
Qed.

(** ** The loop of the current streak *)

Lemma streakWalk_add tz h : forall a b date streak,
  streakWalk (a + b) tz h date streak
  = match streakWalk a tz h date streak with
    | Continue date' streak' => streakWalk b tz h date' streak'
    | done => done
    end.
Proof.
  induction a as [| a IH]; intros b date streak; cbn [Nat.add streakWalk];
    [reflexivity |].
  destruct (streakStep tz h date streak); try reflexivity. apply IH.
Qed.

(** The loop of depth [depth] is the loop unrolled [2 ^ depth] times. *)
Lemma streakLoop_streakWalk tz h : forall depth date streak,
  streakLoop depth tz h date streak = streakWalk (2 ^ depth) tz h date streak.
Proof.
  induction depth as [| depth IH]; intros date streak; cbn [streakLoop].
  - change (2 ^ 0)%nat with 1%nat. cbn [streakWalk].
    destruct (streakStep tz h date streak); reflexivity.
  - replace (2 ^ S depth)%nat with (2 ^ depth + 2 ^ depth)%nat
      by (cbn [Nat.pow]; lia).
    rewrite streakWalk_add, IH.
    destruct (streakWalk (2 ^ depth) tz h date streak); try reflexivity.
    apply IH.
Qed.

Lemma walkFinds_S tz h date i :
  walkFinds tz h date (S i) = walkFinds tz h (setDate_plus tz date (-1)) i.
Proof. reflexivity. Qed.

Lemma streakStep_finds tz h date streak :
  walkFinds tz h date 0 = true ->
  streakStep tz h date streak = Continue (setDate_plus tz date (-1)) (S streak).
Proof.
  unfold walkFinds, streakStep. cbn [stepDate].
  destruct (getDateString date) as [s | |]; try discriminate.
  intros E. apply andb_true_iff in E. destruct E as [R C]. rewrite R, C.
  reflexivity.
Qed.

Lemma streakStep_stops tz h date streak :
  walkFinds tz h date 0 = false ->
  streakStep tz h date streak
  = match date with Some _ => Break streak | None => Throw end.
Proof.
  unfold walkFinds, streakStep. cbn [stepDate].
  destruct date as [t |]; cbn [getDateString]; [| reflexivity].
  destruct (isDateWithinRange h (isoDate t)); cbn [negb andb]; [| reflexivity].
  intros ->. reflexivity.
Qed.

(** A walk that finds [k] completed days in range and then none goes on
    for [k] passes and ends in the next. *)
Lemma streakWalk_run tz h : forall k fuel date streak,
  (k < fuel)%nat ->
  (forall i, (i < k)%nat -> walkFinds tz h date i = true) ->
  walkFinds tz h date k = false ->
  streakWalk fuel tz h date streak
  = match stepDate tz (-1) date k with
    | Some _ => Break (streak + k)
    | None => Throw
    end.
Proof.
  induction k as [| k IH]; intros fuel date streak F Run Stop;
    (destruct fuel as [| fuel]; [lia |]); cbn [streakWalk].
  - rewrite (streakStep_stops _ _ _ _ Stop). cbn [stepDate].
    rewrite Nat.add_0_r. destruct date; reflexivity.
  - rewrite (streakStep_finds _ _ _ _ (Run 0%nat ltac:(lia))).
    rewrite (IH fuel (setDate_plus tz date (-1)) (S streak)); try lia.
    + cbn [stepDate]. replace (S streak + k)%nat with (streak + S k)%nat by lia.
      reflexivity.
    + intros i Hi. rewrite <- walkFinds_S. apply Run. lia.
    + rewrite <- walkFinds_S. exact Stop.
Qed.

(** What the loop has seen when it ends, and when it goes on. *)
Lemma streakWalk_inv tz h : forall fuel date streak,
  match streakWalk fuel tz h date streak with
  | Break m =>
      exists k, (k < fuel)%nat /\ m = (streak + k)%nat
        /\ (forall i, (i < k)%nat -> walkFinds tz h date i = true)
        /\ walkFinds tz h date k = false
        /\ stepDate tz (-1) date k <> None
  | Throw =>
      exists k, (k < fuel)%nat
        /\ (forall i, (i < k)%nat -> walkFinds tz h date i = true)
        /\ stepDate tz (-1) date k = None
  | Continue _ _ =>
      forall i, (i < fuel)%nat -> walkFinds tz h date i = true
  end.
Proof.
  induction fuel as [| fuel IH]; intros date streak; cbn [streakWalk].
  { intros i Hi. lia. }
  destruct (walkFinds tz h date 0) eqn:W0.
  - rewrite (streakStep_finds _ _ _ _ W0).
    specialize (IH (setDate_plus tz date (-1)) (S streak)).
    destruct (streakWalk fuel tz h (setDate_plus tz date (-1)) (S streak))
      as [m | | d' s'].
    + destruct IH as [k [Hk [-> [Run [Stop V]]]]].
      exists (S k). split; [lia |]. split; [lia |].
      split; [| split; [exact Stop | exact V]].
      intros [| i] Hi; [exact W0 |]. rewrite walkFinds_S. apply Run. lia.
    + destruct IH as [k [Hk [Run V]]].
      exists (S k). split; [lia |]. split; [| exact V].
      intros [| i] Hi; [exact W0 |]. rewrite walkFinds_S. apply Run. lia.
    + intros [| i] Hi; [exact W0 |]. rewrite walkFinds_S. apply IH. lia.
  - rewrite (streakStep_stops _ _ _ _ W0). destruct date as [t |].
    + exists 0%nat. split; [lia |]. split; [lia |].
      split; [intros i Hi; lia |]. split; [exact W0 | discriminate].
    + exists 0%nat. split; [lia |]. split; [intros i Hi; lia | reflexivity].
Qed.

(** A loop that has ended does the same with more passes at hand. *)
Lemma streakWalk_more_fuel tz h fuel fuel' date streak :
  (fuel <= fuel')%nat ->
  (forall d s, streakWalk fuel tz h date streak <> Continue d s) ->
  streakWalk fuel' tz h date streak = streakWalk fuel tz h date streak.
Proof.
  intros L N. pose proof (streakWalk_inv tz h fuel date streak) as I.
  destruct (streakWalk fuel tz h date streak) as [m | | d s];
    [| | exfalso; exact (N d s eq_refl)].
  - destruct I as [k [Hk [-> [Run [Stop V]]]]].
    rewrite (streakWalk_run tz h k fuel' date streak) by (trivial; lia).
    destruct (stepDate tz (-1) date k); [reflexivity | contradiction].
  - destruct I as [k [Hk [Run V]]].
    assert (Stop : walkFinds tz h date k = false)
      by (unfold walkFinds; rewrite V; reflexivity).
    rewrite (streakWalk_run tz h k fuel' date streak) by (trivial; lia).
    rewrite V. reflexivity.
Qed.

Lemma walkBudget_pos : (0 < 2 ^ walkDepth)%nat.
Proof. apply Nat.neq_0_lt_0, Nat.pow_nonzero. discriminate. Qed.

(** Passes as many as there are days in the range of Dates are within the
    budget of the loop. *)
Lemma walkBudget_days k : Z.of_nat k <= 200000001 -> (k < 2 ^ walkDepth)%nat.
Proof.
  intros B. apply Nat2Z.inj_lt. rewrite Nat2Z.inj_pow.
  change (Z.of_nat 2 ^ Z.of_nat walkDepth) with 18446744073709551616. lia.
Qed.

Lemma calculateCurrentStreak_streakWalk tz h now :
  calculateCurrentStreak tz h now
  = match streakWalk (2 ^ walkDepth) tz h (Some (timeValue now)) 0 with
    | Break streak => Returned streak
    | Throw => RangeError
    | Continue _ _ => OutOfFuel
    end.
Proof. unfold calculateCurrentStreak. rewrite streakLoop_streakWalk. reflexivity. Qed.

(** On every host: the current streak is [k] exactly when the walk finds
    a completed day in range in each of its [k] first passes and none in
    the next. *)
Lemma calculateCurrentStreak_Returned tz h now k :
  calculateCurrentStreak tz h now = Returned k
  <-> (k < 2 ^ walkDepth)%nat
      /\ (forall i, (i < k)%nat -> walkFinds tz h (Some (timeValue now)) i = true)
      /\ walkFinds tz h (Some (timeValue now)) k = false
      /\ stepDate tz (-1) (Some (timeValue now)) k <> None.
Proof.
  rewrite calculateCurrentStreak_streakWalk. split.
  - intros E.
    pose proof (streakWalk_inv tz h (2 ^ walkDepth) (Some (timeValue now)) 0) as I.
    destruct (streakWalk (2 ^ walkDepth) tz h (Some (timeValue now)) 0)
      as [m | | d s]; try discriminate.
    inversion E; subst m. destruct I as [k' [Hk [-> I]]]. cbn [Nat.add] in *.
    auto.
  - intros [Hk [Run [Stop V]]].
    rewrite (streakWalk_run tz h k _ _ 0 Hk Run Stop).
    destruct (stepDate tz (-1) (Some (timeValue now)) k); [reflexivity | contradiction].
Qed.

Lemma calculateCurrentStreak_first tz h now :
  isDateWithinRange h (getTodayDateString now)
    && isHabitCompletedOnDate h (getTodayDateString now) = false ->
  calculateCurrentStreak tz h now = Returned 0%nat.
Proof.
  intros E. apply calculateCurrentStreak_Returned.
  split; [apply walkBudget_pos |]. split; [intros i Hi; lia |].
  split; [exact E | discriminate].
Qed.

(** ** The walk where the offset of the zone does not change *)

Lemma walkFinds_steady tz h lo t i :
  steady tz lo t -> Z.abs t <= maxTime -> lo <= t - Z.of_nat i * msPerDay ->
  walkFinds tz h (Some t) i
  = (Z.abs (t - Z.of_nat i * msPerDay) <=? maxTime)
    && (isDateWithinRange h (isoDate (t - Z.of_nat i * msPerDay))
        && isHabitCompletedOnDate h (isoDate (t - Z.of_nat i * msPerDay))).
Proof.
  intros St V L. unfold walkFinds.
  rewrite (stepDate_back_steady tz lo i t St V L). unfold TimeClip.
  destruct (Z.abs (t - Z.of_nat i * msPerDay) <=? maxTime); reflexivity.
Qed.

(** A bounded search for the first pass that finds nothing. *)
Lemma first_false (f : nat -> bool) : forall m,
  (exists k, (k <= m)%nat /\ (forall i, (i < k)%nat -> f i = true) /\ f k = false)
  \/ (forall i, (i <= m)%nat -> f i = true).
Proof.
  induction m as [| m IH].
  - destruct (f 0%nat) eqn:F0.
    + right. intros i Hi. replace i with 0%nat by lia. exact F0.
    + left. exists 0%nat. split; [lia |]. split; [intros i Hi; lia | exact F0].
  - destruct IH as [[k [Hk [Run Stop]]] | All].
    + left. exists k. split; [lia |]. auto.
    + destruct (f (S m)) eqn:Fm.
      * right. intros i Hi. destruct (Nat.eq_dec i (S m)) as [-> | Ne];
          [exact Fm | apply All; lia].
      * left. exists (S m). split; [lia |]. split; [| exact Fm].
        intros i Hi. apply All. lia.
Qed.

(** Where the offset of the zone does not change during as many days up to
    [t] as the habit has completed days, the walk from [t] ends: it finds
    that number of completed days at most, each on a day of its own. *)
Lemma walk_ends_steady tz h t :
  Z.abs t <= maxTime ->
  steady tz (t - Z.of_nat (List.length (filter (isDateWithinRange h) (datesOf h)))
                 * msPerDay) t ->
  exists k,
    (k <= List.length (filter (isDateWithinRange h) (datesOf h)))%nat
    /\ Z.of_nat k <= 200000001
    /\ (forall i, (i < k)%nat -> walkFinds tz h (Some t) i = true)
    /\ walkFinds tz h (Some t) k = false.
Proof.
  intros V St. pose proof msPerDay_eq as M.
  set (F := filter (isDateWithinRange h) (datesOf h)) in *.
  set (m := Nat.min (List.length F) (Z.to_nat 200000001)).
  assert (Hm : (m <= List.length F)%nat /\ Z.of_nat m <= 200000001)
    by (unfold m; lia).
  destruct (first_false (walkFinds tz h (Some t)) m) as [[k [Hk [Run Stop]]] | All].
  { exists k. split; [lia |]. split; [lia |]. auto. }
  exfalso.
  assert (W : forall i, (i <= m)%nat ->
            Z.abs (t - Z.of_nat i * msPerDay) <= maxTime
            /\ In (isoDate (t - Z.of_nat i * msPerDay)) F).
  { intros i Hi. specialize (All i Hi).
    rewrite (walkFinds_steady tz h _ t i St V) in All by lia.
    apply andb_true_iff in All. destruct All as [Vi RC].
    apply andb_true_iff in RC. destruct RC as [R C].
    split; [apply Z.leb_le, Vi |].
    apply filter_In. split; [apply isHabitCompletedOnDate_In, C | exact R]. }
  set (f := fun i : nat => isoDate (t - Z.of_nat i * msPerDay)).
  assert (I : incl (map f (seq 0 (S m))) F).
  { intros s Hs. apply in_map_iff in Hs. destruct Hs as [i [<- Hi]].
    apply in_seq in Hi. apply W. lia. }
  assert (N : NoDup (map f (seq 0 (S m)))).
  { apply NoDup_map_NoDup_ForallPairs; [| apply seq_NoDup].
    intros i j Hi Hj Eq. apply in_seq in Hi, Hj.
    destruct (W i ltac:(lia)) as [Vi _]. destruct (W j ltac:(lia)) as [Vj _].
    pose proof (isoDate_inj _ _ Vi Vj Eq) as D.
    rewrite !Day_minus_days in D. lia. }
  pose proof (NoDup_incl_length N I) as L.
  rewrite length_map, length_seq in L.
  assert (Em : Z.of_nat m = 200000001) by (unfold m in *; lia).
  destruct (W m ltac:(lia)) as [Vm _]. unfold maxTime in *. lia.
Qed.

(** The current streak on a host whose offset does not change during the
    days walked: the call returns or throws, and what it returns is the
    number of days up to today that are completed and in range. *)
Lemma calculateCurrentStreak_steady tz h now :
  steady tz (timeValue now
             - Z.of_nat (List.length (filter (isDateWithinRange h) (datesOf h)))
               * msPerDay) (timeValue now) ->
  exists k,
    (k <= List.length (filter (isDateWithinRange h) (datesOf h)))%nat
    /\ (forall i, (i < k)%nat ->
          Z.abs (timeValue now - Z.of_nat i * msPerDay) <= maxTime
          /\ isDateWithinRange h (dayBefore now i) = true
          /\ isHabitCompletedOnDate h (dayBefore now i) = true)
    /\ ((calculateCurrentStreak tz h now = Returned k
         /\ Z.abs (timeValue now - Z.of_nat k * msPerDay) <= maxTime
         /\ isDateWithinRange h (dayBefore now k)
              && isHabitCompletedOnDate h (dayBefore now k) = false)
        \/ (calculateCurrentStreak tz h now = RangeError
            /\ timeValue now - Z.of_nat k * msPerDay < - maxTime)).
Proof.
  intros St. pose proof (Instant_valid now) as V. pose proof msPerDay_eq as M.
  set (t := timeValue now) in *.
  destruct (walk_ends_steady tz h t V St) as [k [Hk [Bk [Run Stop]]]].
  exists k. split; [exact Hk |].
  assert (Run' : forall i, (i < k)%nat ->
            Z.abs (t - Z.of_nat i * msPerDay) <= maxTime
            /\ isDateWithinRange h (dayBefore now i) = true
            /\ isHabitCompletedOnDate h (dayBefore now i) = true).
  { intros i Hi. specialize (Run i Hi).
    rewrite (walkFinds_steady tz h _ t i St V) in Run by lia.
    apply andb_true_iff in Run. destruct Run as [Vi RC].
    apply andb_true_iff in RC. split; [apply Z.leb_le, Vi | exact RC]. }
  split; [exact Run' |].
  assert (E : calculateCurrentStreak tz h now
              = match stepDate tz (-1) (Some t) k with
                | Some _ => Returned k
                | None => RangeError
                end).
  { rewrite calculateCurrentStreak_streakWalk. fold t.
    rewrite (streakWalk_run tz h k _ _ 0 (walkBudget_days k Bk) Run Stop).
    destruct (stepDate tz (-1) (Some t) k); reflexivity. }
  rewrite E. rewrite (stepDate_back_steady tz _ k t St V) by lia.
  rewrite (walkFinds_steady tz h _ t k St V) in Stop by lia.
  unfold TimeClip.
  destruct (Z.leb_spec (Z.abs (t - Z.of_nat k * msPerDay)) maxTime) as [Vk | Vk].
  - left. cbn [andb] in Stop. auto.
  - right. split; [reflexivity | lia].
Qed.

(* ================================================================== *)
(** * The scan of the longest streak *)


Lemma runs_step x y l r rs :
  runs (y :: l) = (y :: r) :: rs ->
  runs (x :: y :: l)
  = if dayDiffIsOne x y then (x :: y :: r) :: rs else [x] :: (y :: r) :: rs.
Proof.
  intros E.
  change (runs (x :: y :: l))
    with (match runs (y :: l) with
          | (y' :: r') :: rs' =>
              if dayDiffIsOne x y' then (x :: y' :: r') :: rs'
              else [x] :: (y' :: r') :: rs'
          | _ => [[x]]
          end).
  rewrite E. reflexivity.
Qed.

Lemma runs_cons x l : exists r rs, runs (x :: l) = (x :: r) :: rs.
Proof.
  revert x. induction l as [| y l IH]; intros x.
  - exists [], []. reflexivity.
  - destruct (IH y) as [r [rs E]]. rewrite (runs_step x _ _ _ _ E).
    destruct (dayDiffIsOne x y); eauto.
Qed.

(** The loop computes the longest run: with a current run of [c] dates that
    ends at [prev] and a maximum [m] so far, it returns the larger of [m],
    of the first run of [prev :: rest] extended by that current run, and of
    the later runs. *)
Lemma longestLoop_runs : forall rest prev m c,
  (1 <= c <= m)%nat ->
  longestLoop prev rest m c
  = match runs (prev :: rest) with
    | r :: rs =>
        Nat.max m (Nat.max (c - 1 + List.length r)
                           (list_max (map (@List.length string) rs)))
    | [] => m
    end.
Proof.
  induction rest as [| x rest IH]; intros prev m c B.
  - cbn. lia.
  - cbn [longestLoop]. destruct (runs_cons x rest) as [r [rs E]].
    rewrite (runs_step prev _ _ _ _ E).
    destruct (dayDiffIsOne prev x); rewrite IH by lia; rewrite E;
      unfold list_max; cbn [List.length map fold_right]; lia.
Qed.

Lemma concat_runs l : List.concat (runs l) = l.
Proof.
  induction l as [| x l IH]; [reflexivity |].
  destruct l as [| y l]; [reflexivity |].
  destruct (runs_cons y l) as [r [rs E]].
  rewrite (runs_step x _ _ _ _ E). rewrite E in IH.
  destruct (dayDiffIsOne x y); cbn [List.concat app] in *; rewrite IH; reflexivity.
Qed.

Lemma consecutive_runs l : forallb consecutive (runs l) = true.
Proof.
  induction l as [| x l IH]; [reflexivity |].
  destruct l as [| y l]; [reflexivity |].
  destruct (runs_cons y l) as [r [rs E]].
  rewrite (runs_step x _ _ _ _ E). rewrite E in IH.
  destruct (dayDiffIsOne x y) eqn:D; cbn [forallb consecutive] in *;
    rewrite ?D; exact IH.
Qed.

Lemma sort_nonempty x l : sort (x :: l) <> [].
Proof.
  intros E. pose proof (sort_perm (x :: l)) as P. rewrite E in P.
  apply Permutation_sym, Permutation_nil in P. discriminate.
Qed.

(** [calculateLongestStreak] is the longest run of the sorted dates in
    range. *)
Lemma calculateLongestStreak_longestRun h :
  calculateLongestStreak h
  = longestRun (sort (filter (isDateWithinRange h) (datesOf h))).
Proof.
  unfold calculateLongestStreak, datesOf, longestRun.
  destruct (completionDates h) as [dates |]; [| reflexivity].
  destruct (filter (isDateWithinRange h) dates) as [| d ds] eqn:F; [reflexivity |].
  destruct (sort (d :: ds)) as [| first rest] eqn:S.
  - exfalso. exact (sort_nonempty _ _ S).
  - rewrite longestLoop_runs by lia.
    destruct (runs_cons first rest) as [r [rs E]]. rewrite E.
    unfold list_max. cbn [map fold_right List.length]. lia.
Qed.

(* ------------------------------------------------------------------ *)
(** ** Canonical dates under the scan *)

Lemma dayNum_isoDate t : Z.abs t <= maxTime -> dayNum (isoDate t) = Day t.
Proof.
  intros V. unfold dayNum. rewrite (getDateFromString_isoDate t V).
  apply Day_of_midnight.
Qed.

Lemma isCanonicalDate_dayNum s :
  isCanonicalDate s = true ->
  s = isoDateOfDay (dayNum s)
  /\ 0 <= YearFromDay (dayNum s) <= 9999
  /\ getDateFromString s = Some (dayNum s * msPerDay).
Proof.
  intros C. destruct (isCanonicalDate_inv s C) as [d [E [Y [V P]]]].
  assert (D : dayNum s = d) by (unfold dayNum; rewrite P; apply Day_of_midnight).
  rewrite D. auto.
Qed.






(* ================================================================== *)
(** * Doubles: signs and small integers *)

Lemma iter_pos_invariant {A} (P : A -> Prop) (f : A -> A) :
  (forall x, P x -> P (f x)) -> forall n x, P x -> P (iter_pos f n x).
Proof.
  intros Hf. induction n as [n IH | n IH |]; intros x Hx; cbn [iter_pos]; auto.
Qed.

Lemma shr_1_nonneg mrs : 0 <= shr_m mrs -> 0 <= shr_m (shr_1 mrs).
Proof.
  destruct mrs as [m r s]. cbn [shr_m].
  destruct m as [| [p | p |] | [p | p |]]; cbn; lia.
Qed.

Lemma shr_m_of_loc m l : shr_m (shr_record_of_loc m l) = m.
Proof. destruct l as [| []]; reflexivity. Qed.

Lemma shr_fexp_nonneg m e l :
  0 <= m -> 0 <= shr_m (fst (shr_fexp prec64 emax64 m e l)).
Proof.
  intros H. unfold shr_fexp, shr.
  destruct (fexp prec64 emax64 (Zdigits2 m + e) - e); cbn [fst];
    rewrite ?shr_m_of_loc; trivial.
  apply iter_pos_invariant; [apply shr_1_nonneg | rewrite shr_m_of_loc; exact H].
Qed.

Lemma round_nearest_even_nonneg m l : 0 <= m -> 0 <= round_nearest_even m l.
Proof.
  intros H. unfold round_nearest_even.
  destruct l as [| []]; try destruct (Z.even m); lia.
Qed.

(** Rounding a non-negative mantissa never yields NaN and keeps the sign. *)
Lemma binary_round_aux_signed s m e l :
  0 <= m -> signed s (binary_round_aux prec64 emax64 s m e l).
Proof.
  intros H. unfold binary_round_aux.
  pose proof (shr_fexp_nonneg m e l H) as H1.
  destruct (shr_fexp prec64 emax64 m e l) as [mrs' e']. cbn [fst] in H1.
  pose proof (shr_fexp_nonneg _ e' loc_Exact
                (round_nearest_even_nonneg _ (loc_of_shr_record mrs') H1)) as H2.
  destruct (shr_fexp prec64 emax64 _ e' loc_Exact) as [mrs'' e'']. cbn [fst] in H2.
  destruct (shr_m mrs''); [reflexivity | | lia].
  destruct (e'' <=? emax64 - prec64); reflexivity.
Qed.

Lemma digits2_pos_iter_xO m d :
  Zpos (digits2_pos (Pos.iter xO m d)) = Zpos (digits2_pos m) + Zpos d.
Proof.
  induction d as [| d IH] using Pos.peano_ind.
  - cbn. lia.
  - rewrite Pos.iter_succ. cbn [digits2_pos]. lia.
Qed.

Lemma binary_round_aux_exact s m e :
  Zpos (digits2_pos m) = 53 -> -1074 <= e <= 971 ->
  binary_round_aux prec64 emax64 s (Zpos m) e loc_Exact = S754_finite s m e.
Proof.
  intros D E. unfold binary_round_aux, shr_fexp, fexp, emin, prec64, emax64.
  cbn [Zdigits2 shr_record_of_loc]. rewrite D.
  replace (Z.max (53 + e - 53) (3 - 1024 - 53) - e) with 0 by lia.
  cbn [shr shr_m loc_of_shr_record round_nearest_even Zdigits2 shr_record_of_loc].
  rewrite D.
  replace (Z.max (53 + e - 53) (3 - 1024 - 53) - e) with 0 by lia.
  cbn [shr shr_m].
  replace (e <=? 1024 - 53) with true by (symmetry; apply Z.leb_le; lia).
  reflexivity.
Qed.

Lemma binary_round_small s m :
  Zpos (digits2_pos m) <= 53 ->
  exists m' e', binary_round prec64 emax64 s m 0 = S754_finite s m' e'.
Proof.
  intros D. unfold binary_round, shl_align, fexp, emin, prec64, emax64.
  destruct (Z.max (Z.pos (digits2_pos m) + 0 - 53) (3 - 1024 - 53) - 0)
    as [| p | p] eqn:X.
  - exists m, 0. apply binary_round_aux_exact; lia.
  - lia.
  - exists (Pos.iter xO m p),
      (Z.max (Z.pos (digits2_pos m) + 0 - 53) (3 - 1024 - 53)).
    apply binary_round_aux_exact; [rewrite digits2_pos_iter_xO |]; lia.
Qed.

Lemma digits2_pos_lower p : 2 ^ (Zpos (digits2_pos p) - 1) <= Zpos p.
Proof.
  induction p as [p IH | p IH |]; cbn [digits2_pos].
  - rewrite Pos2Z.inj_succ.
    replace (Z.succ (Z.pos (digits2_pos p)) - 1)
      with (Z.succ (Z.pos (digits2_pos p) - 1)) by lia.
    rewrite Z.pow_succ_r by lia. lia.
  - rewrite Pos2Z.inj_succ.
    replace (Z.succ (Z.pos (digits2_pos p)) - 1)
      with (Z.succ (Z.pos (digits2_pos p) - 1)) by lia.
    rewrite Z.pow_succ_r by lia. lia.
  - cbn. lia.
Qed.

Lemma digits2_pos_bound m : Zpos m < 2 ^ 53 -> Zpos (digits2_pos m) <= 53.
Proof.
  intros H. pose proof (digits2_pos_lower m) as G.
  destruct (Z_le_gt_dec (Zpos (digits2_pos m)) 53) as [L | L]; trivial.
  assert (2 ^ 53 <= 2 ^ (Zpos (digits2_pos m) - 1))
    by (apply Z.pow_le_mono_r; lia).
  lia.
Qed.

(** An integer of magnitude below 2^53, other than 0, is a finite double of
    its sign. *)
Lemma doubleOfZ_finite d :
  d <> 0 -> Z.abs d < 2 ^ 53 ->
  exists m e, doubleOfZ d = S754_finite (d <? 0) m e.
Proof.
  intros N B. unfold doubleOfZ, binary_normalize. destruct d as [| p | p].
  - congruence.
  - apply binary_round_small, digits2_pos_bound. lia.
  - apply binary_round_small, digits2_pos_bound. lia.
Qed.

(** A non-negative integer is a double that is not negative. *)
Lemma doubleOfZ_signed c : 0 <= c -> signed false (doubleOfZ c).
Proof.
  intros H. unfold doubleOfZ, binary_normalize. destruct c as [| p | p].
  - reflexivity.
  - unfold binary_round.
    destruct (shl_align p 0 (fexp prec64 emax64 (Z.pos (digits2_pos p) + 0)))
      as [mz ez].
    apply binary_round_aux_signed. lia.
  - lia.
Qed.

Lemma SFdiv_signed sx x sy my ey :
  signed sx x ->
  signed (xorb sx sy) (SFdiv prec64 emax64 x (S754_finite sy my ey)).
Proof.
  destruct x as [s | s | | s mx ex]; cbn [signed SFdiv]; intros H;
    try contradiction; subst; try reflexivity.
  unfold SFdiv_core_binary.
  match goal with
  | |- context [ Z.div_eucl ?a ?b ] =>
      pose proof (Z_div_mod a b ltac:(lia)) as Q;
      assert (A : 0 <= a)
  end.
  { destruct (ex - ey - _) as [| p | p]; try lia.
    rewrite Z.shiftl_mul_pow2 by lia.
    apply Z.mul_nonneg_nonneg; [lia | apply Z.pow_nonneg; lia]. }
  match goal with
  | |- context [ Z.div_eucl ?a ?b ] => destruct (Z.div_eucl a b) as [q r]
  end.
  apply binary_round_aux_signed. nia.
Qed.

Lemma SFmul_signed sx x sy my ey :
  signed sx x ->
  signed (xorb sx sy) (SFmul prec64 emax64 x (S754_finite sy my ey)).
Proof.
  destruct x as [s | s | | s mx ex]; cbn [signed SFmul]; intros H;
    try contradiction; subst; try reflexivity.
  apply binary_round_aux_signed. lia.
Qed.

Lemma roundHalfUp_nonneg m e : 0 <= roundHalfUp (Zpos m) e.
Proof.
  unfold roundHalfUp. destruct e as [| p | p].
  - lia.
  - apply Z.mul_nonneg_nonneg; [lia | apply Z.pow_nonneg; lia].
  - apply Z.div_pos.
    + assert (0 < 2 ^ Zpos p) by (apply Z.pow_pos_nonneg; lia). lia.
    + apply Z.pow_pos_nonneg; lia.
Qed.

Lemma Math_min_round_signed x :
  signed false x ->
  exists r, Math_min (Math_round x) (Int 100) = Int r /\ 0 <= r <= 100.
Proof.
  destruct x as [s | s | | s m e]; cbn [signed Math_round]; intros H;
    try contradiction; subst; cbn [Math_min].
  - exists 0. split; [reflexivity | lia].
  - exists 100. split; [reflexivity | lia].
  - pose proof (roundHalfUp_nonneg m e).
    eexists. split; [reflexivity | lia].
Qed.

(** The percentage of a non-negative count over a positive span is an
    integer from 0 to 100. *)
Lemma doublePercentage_range c d :
  0 <= c -> 0 < d < 2 ^ 53 ->
  exists r, doublePercentage c d = Int r /\ 0 <= r <= 100.
Proof.
  intros C D. unfold doublePercentage.
  destruct (doubleOfZ_finite d ltac:(lia) ltac:(lia)) as [m [e E]].
  destruct (doubleOfZ_finite 100 ltac:(lia) ltac:(lia)) as [m' [e' E']].
  rewrite E, E'. apply Math_min_round_signed.
  replace (d <? 0) with false by (symmetry; apply Z.ltb_ge; lia).
  change (100 <? 0) with false.
  exact (SFmul_signed false _ false m' e'
           (SFdiv_signed false _ false m e (doubleOfZ_signed c C))).
Qed.

(** Without a completed day the percentage is 0 over every span but 0. *)
Lemma doublePercentage_zero d :
  d <> 0 -> Z.abs d < 2 ^ 53 -> doublePercentage 0 d = Int 0.
Proof.
  intros N B. unfold doublePercentage.
  destruct (doubleOfZ_finite d N B) as [m [e E]].
  destruct (doubleOfZ_finite 100 ltac:(lia) ltac:(lia)) as [m' [e' E']].
  rewrite E, E'. reflexivity.
Qed.

Lemma digits2_pos_upper p : Zpos p < 2 ^ Zpos (digits2_pos p).
Proof.
  induction p as [p IH | p IH |]; cbn [digits2_pos].
  - rewrite Pos2Z.inj_succ, Z.pow_succ_r by lia. lia.
  - rewrite Pos2Z.inj_succ, Z.pow_succ_r by lia. lia.
  - cbn. lia.
Qed.

Lemma shr_1_half mrs : 0 <= shr_m mrs -> shr_m (shr_1 mrs) = shr_m mrs / 2.
Proof.
  destruct mrs as [m r s]. cbn [shr_m].
  destruct m as [| [p | p |] | [p | p |]]; cbn [shr_1 shr_m]; intros H; lia.
Qed.

Lemma iter_shr_1 p : forall mrs,
  0 <= shr_m mrs -> shr_m (iter_pos shr_1 p mrs) = shr_m mrs / 2 ^ Zpos p.
Proof.
  assert (P2 : forall q, 0 < 2 ^ Zpos q) by (intros; apply Z.pow_pos_nonneg; lia).
  induction p as [p IH | p IH |]; intros mrs H; cbn [iter_pos].
  - assert (H1 : 0 <= shr_m (shr_1 mrs)) by (rewrite shr_1_half by trivial; lia).
    assert (H2 : 0 <= shr_m (iter_pos shr_1 p (shr_1 mrs))).
    { rewrite IH by trivial. apply Z.div_pos; [lia | apply P2]. }
    rewrite IH, IH, shr_1_half by trivial.
    rewrite !Z.div_div by (try apply P2; lia).
    f_equal.
    replace (Zpos p~1) with (1 + (Zpos p + Zpos p)) by lia.
    rewrite !Z.pow_add_r by lia. lia.
  - assert (H2 : 0 <= shr_m (iter_pos shr_1 p mrs)).
    { rewrite IH by trivial. apply Z.div_pos; [lia | apply P2]. }
    rewrite IH, IH by trivial.
    rewrite !Z.div_div by (try apply P2; lia).
    f_equal.
    replace (Zpos p~0) with (Zpos p + Zpos p) by lia.
    rewrite Z.pow_add_r by lia. reflexivity.
  - rewrite shr_1_half by trivial. reflexivity.
Qed.

Lemma scaledLe_pos y m e : 0 < y -> scaledLe y m e -> 0 < m.
Proof.
  intros Y. unfold scaledLe. destruct e as [| p | p]; intros H.
  - lia.
  - assert (0 < 2 ^ Zpos p) by (apply Z.pow_pos_nonneg; lia). nia.
  - assert (0 < 2 ^ Zpos p) by (apply Z.pow_pos_nonneg; lia). nia.
Qed.

Lemma scaledLe_mono y m m' e : m <= m' -> scaledLe y m e -> scaledLe y m' e.
Proof.
  intros M. unfold scaledLe. destruct e as [| p | p]; intros H.
  - lia.
  - assert (0 < 2 ^ Zpos p) by (apply Z.pow_pos_nonneg; lia). nia.
  - lia.
Qed.

(** Shifting a mantissa to the exponent of the format keeps it at least as
    large as every integer below 2^53 that it was at least as large as. *)
Lemma shr_fexp_atLeast y m e l :
  0 < y < 2 ^ 53 -> scaledLe y m e ->
  scaledLe y (shr_m (fst (shr_fexp prec64 emax64 m e l)))
           (snd (shr_fexp prec64 emax64 m e l)).
Proof.
  intros Y H. pose proof (scaledLe_pos _ _ _ (proj1 Y) H) as M.
  unfold shr_fexp, shr.
  destruct (fexp prec64 emax64 (Zdigits2 m + e) - e) as [| k | k] eqn:S;
    cbn [fst snd]; rewrite ?shr_m_of_loc; trivial.
  rewrite iter_shr_1 by (rewrite shr_m_of_loc; lia). rewrite shr_m_of_loc.
  destruct m as [| p | p]; try lia. cbn [Zdigits2] in S.
  unfold fexp, emin, prec64, emax64 in S.
  pose proof (digits2_pos_lower p) as L.
  set (dg := Zpos (digits2_pos p)) in *.
  assert (K : 0 < 2 ^ Zpos k) by (apply Z.pow_pos_nonneg; lia).
  unfold scaledLe in *.
  destruct (e + Zpos k) as [| q | q] eqn:E.
  - rewrite Z.pow_0_r, Z.mul_1_r.
    apply Z.div_le_lower_bound; [lia |].
    destruct e as [| e' | e']; try lia.
    assert (e' = k) by lia. subst e'. lia.
  - (* the result is normal: its mantissa has 53 digits *)
    assert (Dk : Zpos k = dg - 53) by lia.
    assert (B : 2 ^ 52 <= Zpos p / 2 ^ Zpos k).
    { apply Z.div_le_lower_bound; [lia |].
      rewrite <- Z.pow_add_r by lia.
      replace (Zpos k + 52) with (dg - 1) by lia. exact L. }
    assert (Q : 2 <= 2 ^ Zpos q).
    { change 2 with (2 ^ 1) at 1. apply Z.pow_le_mono_r; lia. }
    change (2 ^ 53) with (2 ^ 52 * 2) in Y. nia.
  - destruct e as [| e' | e']; try lia.
    apply Z.div_le_lower_bound; [lia |].
    replace (Zpos e') with (Zpos k + Zpos q) in H by lia.
    rewrite Z.pow_add_r in H by lia. lia.
Qed.

Lemma round_nearest_even_ge m l : m <= round_nearest_even m l.
Proof.
  unfold round_nearest_even. destruct l as [| []]; try destruct (Z.even m); lia.
Qed.

(** Rounding to nearest never goes below an integer below 2^53 that the
    exact value is not below. *)
Lemma binary_round_aux_atLeast y m e l :
  0 < y < 2 ^ 53 -> scaledLe y m e ->
  atLeast y (binary_round_aux prec64 emax64 false m e l).
Proof.
  intros Y H. unfold binary_round_aux.
  pose proof (shr_fexp_atLeast y m e l Y H) as H1.
  destruct (shr_fexp prec64 emax64 m e l) as [mrs' e']. cbn [fst snd] in H1.
  apply (scaledLe_mono _ _ _ _
           (round_nearest_even_ge (shr_m mrs') (loc_of_shr_record mrs'))) in H1.
  pose proof (shr_fexp_atLeast y _ e' loc_Exact Y H1) as H2.
  destruct (shr_fexp prec64 emax64 _ e' loc_Exact) as [mrs'' e''].
  cbn [fst snd] in H2.
  pose proof (scaledLe_pos _ _ _ (proj1 Y) H2) as M.
  destruct (shr_m mrs''); try lia.
  destruct (e'' <=? emax64 - prec64); [exact H2 | exact I].
Qed.

Lemma Zpos_iter_xO m d : Zpos (Pos.iter xO m d) = Zpos m * 2 ^ Zpos d.
Proof.
  induction d as [| d IH] using Pos.peano_ind.
  - cbn [Pos.iter]. lia.
  - rewrite Pos.iter_succ, Pos2Z.inj_xO, IH, Pos2Z.inj_succ, Z.pow_succ_r by lia.
    lia.
Qed.

Lemma doubleOfZ_atLeast y c :
  0 < y < 2 ^ 53 -> y <= c -> atLeast y (doubleOfZ c).
Proof.
  intros Y C. unfold doubleOfZ, binary_normalize.
  destruct c as [| p | p]; try lia.
  unfold binary_round, shl_align.
  destruct (fexp prec64 emax64 (Zpos (digits2_pos p) + 0) - 0) as [| k | k] eqn:F;
    apply binary_round_aux_atLeast; trivial.
  - unfold scaledLe. lia.
  - unfold scaledLe. lia.
  - replace (fexp prec64 emax64 (Zpos (digits2_pos p) + 0)) with (Zneg k) by lia.
    unfold scaledLe. rewrite Zpos_iter_xO.
    assert (0 < 2 ^ Zpos k) by (apply Z.pow_pos_nonneg; lia). nia.
Qed.

(** A positive integer below 2^53 is the double that holds it exactly. *)
Lemma doubleOfZ_exact d :
  0 < d < 2 ^ 53 ->
  exists m e, doubleOfZ d = S754_finite false m e
              /\ e <= 0 /\ Zpos m = d * 2 ^ (- e).
Proof.
  intros D. unfold doubleOfZ, binary_normalize. destruct d as [| p | p]; try lia.
  pose proof (digits2_pos_bound p (proj2 D)) as G.
  unfold binary_round, shl_align, fexp, emin, prec64, emax64.
  destruct (Z.max (Z.pos (digits2_pos p) + 0 - 53) (3 - 1024 - 53) - 0)
    as [| k | k] eqn:X.
  - exists p, 0. split; [apply binary_round_aux_exact; lia |]. cbn. lia.
  - lia.
  - exists (Pos.iter xO p k),
      (Z.max (Z.pos (digits2_pos p) + 0 - 53) (3 - 1024 - 53)).
    split; [apply binary_round_aux_exact; [rewrite digits2_pos_iter_xO |]; lia |].
    split; [lia |].
    replace (- Z.max (Z.pos (digits2_pos p) + 0 - 53) (3 - 1024 - 53))
      with (Zpos k) by lia.
    apply Zpos_iter_xO.
Qed.

(** A quotient of a double by a smaller positive integer is at least 1. *)
Lemma SFdiv_atLeast d x my ey :
  0 < d < 2 ^ 53 -> atLeast d x -> ey <= 0 -> Zpos my = d * 2 ^ (- ey) ->
  atLeast 1 (SFdiv prec64 emax64 x (S754_finite false my ey)).
Proof.
  intros D X Ey My.
  destruct x as [s | [|] | | [|] mx ex]; cbn [atLeast] in X; try contradiction;
    cbn [SFdiv xorb]; [exact I |].
  unfold SFdiv_core_binary. cbn [Zdigits2].
  pose proof (digits2_pos_lower mx) as L1.
  pose proof (digits2_pos_upper my) as U2.
  set (d1 := Zpos (digits2_pos mx)) in *.
  set (d2 := Zpos (digits2_pos my)) in *.
  set (e' := Z.min (fexp prec64 emax64 (d1 + ex - (d2 + ey))) (ex - ey)).
  assert (E' : e' <= ex - ey) by (unfold e'; lia).
  assert (F' : e' <= Z.max (d1 + ex - (d2 + ey) - 53) (-1074))
    by (unfold e', fexp, emin, prec64, emax64; lia).
  set (s := ex - ey - e') in *.
  set (m' := match s with Z0 => Zpos mx | Zpos _ => Z.shiftl (Zpos mx) s
             | Zneg _ => 0 end).
  assert (M' : m' = Zpos mx * 2 ^ s).
  { unfold m'. destruct s as [| k | k] eqn:S; try lia.
    apply Z.shiftl_mul_pow2. lia. }
  clearbody m'.
  pose proof (Z_div_mod m' (Zpos my) ltac:(lia)) as Q.
  destruct (Z.div_eucl m' (Zpos my)) as [q r].
  apply binary_round_aux_atLeast; [split; [lia | reflexivity] |].
  assert (S0 : 0 <= s) by (unfold s; lia).
  assert (P2 : forall z, 0 <= z -> 0 < 2 ^ z) by (intros; apply Z.pow_pos_nonneg; lia).
  assert (G : forall K, Zpos my * K <= m' -> K <= q) by (intros K HK; nia).
  assert (Low : e' <= 0 -> Zpos my * 2 ^ (- e') <= m').
  { intros N. rewrite M', My. unfold scaledLe in X.
    destruct ex as [| px | px].
    - replace s with (- ey + - e') by (unfold s; lia).
      rewrite Z.pow_add_r by lia.
      pose proof (P2 (- ey) ltac:(lia)). pose proof (P2 (- e') ltac:(lia)). nia.
    - replace s with (Zpos px + (- ey + - e')) by (unfold s; lia).
      rewrite !Z.pow_add_r by lia.
      pose proof (P2 (- ey) ltac:(lia)). pose proof (P2 (- e') ltac:(lia)). nia.
    - assert (T : 2 ^ (- ey) * 2 ^ (- e') = 2 ^ s * 2 ^ Zpos px).
      { rewrite <- !Z.pow_add_r by lia. f_equal. unfold s. lia. }
      rewrite <- Z.mul_assoc, T. pose proof (P2 s S0). nia. }
  unfold scaledLe.
  destruct e' as [| k | k] eqn:Ee.
  - rewrite Z.pow_0_r, Z.mul_1_r. apply G.
    specialize (Low ltac:(lia)). cbn in Low. lia.
  - (* a quotient of 53 digits and more *)
    assert (Q1 : 1 <= q).
    { apply G. rewrite Z.mul_1_r, M'.
      assert (2 ^ d2 <= 2 ^ (d1 - 1 + s))
        by (apply Z.pow_le_mono_r; unfold s in *; lia).
      rewrite Z.pow_add_r in * by (unfold d1; lia).
      pose proof (P2 s S0). nia. }
    pose proof (P2 (Zpos k) ltac:(lia)). nia.
  - apply G. specialize (Low ltac:(lia)).
    replace (- Zneg k) with (Zpos k) in Low by lia. lia.
Qed.

(** Such a quotient times 100 is at least 100. *)
Lemma SFmul_atLeast x :
  atLeast 1 x -> atLeast 100 (SFmul prec64 emax64 x (doubleOfZ 100)).
Proof.
  intros X.
  change (doubleOfZ 100) with (S754_finite false 7036874417766400 (-46)).
  destruct x as [s | [|] | | [|] mx ex]; cbn [atLeast] in X; try contradiction;
    cbn [SFmul xorb]; [exact I |].
  apply binary_round_aux_atLeast; [split; [lia | reflexivity] |].
  assert (P2 : forall z, 0 <= z -> 0 < 2 ^ z) by (intros; apply Z.pow_pos_nonneg; lia).
  unfold scaledLe in *. rewrite Pos2Z.inj_mul.
  change (Zpos 7036874417766400) with (100 * 2 ^ 46).
  destruct (ex + -46) as [| k | k] eqn:E.
  - destruct ex as [| px | px]; lia.
  - destruct ex as [| px | px]; lia.
  - destruct ex as [| px | px].
    + replace (Zpos k) with 46 by lia. lia.
    + assert (T : 2 ^ 46 = 2 ^ Zpos k * 2 ^ Zpos px)
        by (rewrite <- Z.pow_add_r by lia; f_equal; lia).
      rewrite T.
      pose proof (P2 (Zpos k) ltac:(lia)). pose proof (P2 (Zpos px) ltac:(lia)).
      nia.
    + replace (Zpos k) with (46 + Zpos px) by lia.
      rewrite Z.pow_add_r by lia.
      pose proof (P2 46 ltac:(lia)). nia.
Qed.

Lemma roundHalfUp_atLeast y m e : scaledLe y m e -> y <= roundHalfUp m e.
Proof.
  unfold scaledLe, roundHalfUp. destruct e as [| p | p]; trivial.
  intros H. assert (0 < 2 ^ Zpos p) by (apply Z.pow_pos_nonneg; lia).
  rewrite Z.pow_add_r by lia. change (2 ^ 1) with 2.
  apply Z.div_le_lower_bound; lia.
Qed.

(** With at least as many completed days as the span has, the percentage
    is 100. *)
Lemma doublePercentage_full c d :
  0 < d < 2 ^ 53 -> d <= c -> doublePercentage c d = Int 100.
Proof.
  intros D C. unfold doublePercentage.
  destruct (doubleOfZ_exact d D) as [m [e [E [Ee Em]]]]. rewrite E.
  pose proof (SFmul_atLeast _
                (SFdiv_atLeast d _ m e D (doubleOfZ_atLeast d c D C) Ee Em)) as A.
  destruct (SFmul prec64 emax64 _ _) as [s | [|] | | [|] mx ex];
    cbn [atLeast] in A; try contradiction; cbn [Math_round Math_min].
  - reflexivity.
  - apply roundHalfUp_atLeast in A. f_equal. lia.
Qed.

Lemma separated_runs l : separated (runs l) = true.
Proof.
  induction l as [| x l IH]; [reflexivity |].
  destruct l as [| y l]; [reflexivity |].
  destruct (runs_cons y l) as [r [rs E]].
  rewrite (runs_step x _ _ _ _ E). rewrite E in IH.
  destruct (dayDiffIsOne x y) eqn:D.
  - cbn [separated] in *. destruct rs as [| [| z r'] rs']; exact IH.
  - cbn [separated List.last]. rewrite D. exact IH.
Qed.

(* ================================================================== *)
(** * Checks of the embedding on known values *)

Example isoDate_examples :
  isoDate 0 = "1970-01-01"
  /\ isoDate (-1) = "1969-12-31"
  /\ isoDate 951782400000 = "2000-02-29"
  /\ isoDate 1704283200000 = "2024-01-03"
  /\ isoDate 253402300799999 = "9999-12-31"
  /\ isoDate 253402300800000 = "+010000-01-01"
  /\ isoDate (-62167219200001) = "-000001-12-31"
  /\ isoDate maxTime = "+275760-09-13"
  /\ isoDate (- maxTime) = "-271821-04-20".
Proof. repeat split; vm_compute; reflexivity. Qed.

Example getDateFromString_examples :
  getDateFromString "1970-01-01" = Some 0
  /\ getDateFromString "2024-01-01" = Some 1704067200000
  /\ getDateFromString "2024-02-29" = Some 1709164800000
  /\ getDateFromString "2023-02-29" = None
  /\ getDateFromString "2024-13-01" = None
  /\ getDateFromString "2024-1-1" = None
  /\ getDateFromString "" = None
  /\ getDateFromString "+275760-09-13" = Some maxTime
  /\ getDateFromString "+275760-09-14" = None.
Proof. repeat split; vm_compute; reflexivity. Qed.

Example addDaysToDate_examples :
  addDaysToDate utcZone "2024-01-01" 21 = Returned "2024-01-22"
  /\ addDaysToDate utcZone "2024-03-01" (-1) = Returned "2024-02-29"
  /\ addDaysToDate utcZone "yesterday" 1 = RangeError
  /\ addDaysToDate newYork2024 "2024-01-01" 21 = Returned "2024-01-22"
  /\ addDaysToDate newYork2024 "2024-02-20" 21 = Returned "2024-03-11"
  /\ addDaysToDate newYork2024 "2024-11-03" 1 = Returned "2024-11-04"
  /\ addDaysToDate newYork2024 "2024-11-04" (-1) = Returned "2024-11-02".
Proof. repeat split; vm_compute; reflexivity. Qed.

(** Steps of one day in local time across the two changes of the offset
    in New York: 23 hours in March, 25 hours in November. *)
Example setDate_plus_examples :
  setDate_plus newYork2024 (Some 1710113400000) (-1) = Some 1710030600000
  /\ setDate_plus newYork2024 (Some 1710028800000) 1 = Some 1710111600000
  /\ setDate_plus newYork2024 (Some 1730592000000) 1 = Some 1730682000000
  /\ setDate_plus utcZone (Some 1710113400000) (-1) = Some 1710027000000.
Proof. repeat split; vm_compute; reflexivity. Qed.

(** Scenario A of the specification, read on its end date. *)
Example scenarioA_statistics :
  calculateLongestStreak scenarioA = 3%nat
  /\ calculateTotalCompleted scenarioA = 4%nat
  /\ calculateCompletionPercentage scenarioA = Int 40
  /\ calculateCurrentStreak utcZone scenarioA midnight_2024_01_10 = Returned 0%nat
  /\ calculateCurrentStreak newYork2024 scenarioA midnight_2024_01_10
     = Returned 0%nat
  /\ calculateCurrentStreak utcZone scenarioB noon_2024_01_03 = Returned 3%nat
  /\ calculateCurrentStreak newYork2024 scenarioB noon_2024_01_03 = Returned 3%nat
  /\ getHabitStatus scenarioA midnight_2024_01_10 = active.
Proof. repeat split; vm_compute; reflexivity. Qed.

(* ================================================================== *)
(** * Properties of the specification *)

(** ** Records without completion dates *)

(** C9. For a habit record whose [completionDates] field is missing or is
    not an array, [isHabitCompletedOnDate] returns false on every date, and
    [calculateLongestStreak] and [calculateTotalCompleted] return 0: the
    field is read as the empty set and no call throws; the current streak
    is returned as 0 as well. *)
Theorem missing_completionDates_defaults
  (tz : TimeZone) (h : Habit) (dateStr : string) (now : Instant) :
  completionDates h = None ->
  isHabitCompletedOnDate h dateStr = false
  /\ calculateLongestStreak h = 0%nat
  /\ calculateTotalCompleted h = 0%nat
  /\ calculateCurrentStreak tz h now = Returned 0%nat.
Proof.
  intros E. split; [| split; [| split]].
  - unfold isHabitCompletedOnDate. rewrite E. reflexivity.
  - unfold calculateLongestStreak. rewrite E. reflexivity.
  - unfold calculateTotalCompleted. rewrite E. reflexivity.
  - apply calculateCurrentStreak_first. unfold isHabitCompletedOnDate.
    rewrite E. apply andb_false_r.
Qed.

Lemma missing_completionDates_defaults_witness :
  isHabitCompletedOnDate legacyHabit "2024-01-05" = false
  /\ calculateLongestStreak legacyHabit = 0%nat
  /\ calculateTotalCompleted legacyHabit = 0%nat
  /\ calculateCurrentStreak newYork2024 legacyHabit midnight_2024_01_03
     = Returned 0%nat.
Proof.
  apply (missing_completionDates_defaults
           newYork2024 legacyHabit "2024-01-05" midnight_2024_01_03).
  reflexivity.
Defined.

(** ** Longest streak *)

Lemma longestRun_zero l : longestRun l = 0%nat <-> l = [].
Proof.
  split; [| intros ->; reflexivity].
  destruct l as [| x l]; [reflexivity |].
  unfold longestRun. destruct (runs_cons x l) as [r [rs E]]. rewrite E.
  unfold list_max. cbn [map fold_right List.length]. lia.
Qed.

(** C8. [calculateLongestStreak] filters [completionDates] to the dates in
    range, sorts them ascending and returns the length of the longest
    maximal run in which each date is exactly one day after the one before
    it (any other difference starts a new run of length 1).  It returns 0
    exactly when no completion date is in range, and at least 1 as soon as
    one is. *)
Theorem longest_streak_is_longest_run (h : Habit) :
  let datesInRange := filter (isDateWithinRange h) (datesOf h) in
  let sortedDates := sort datesInRange in
  Permutation datesInRange sortedDates
  /\ StronglySorted sle sortedDates
  /\ List.concat (runs sortedDates) = sortedDates
  /\ forallb consecutive (runs sortedDates) = true
  /\ separated (runs sortedDates) = true
  /\ calculateLongestStreak h = list_max (map (@List.length string) (runs sortedDates))
  /\ (calculateLongestStreak h = 0%nat <-> datesInRange = [])
  /\ ((1 <= calculateLongestStreak h)%nat <->
      exists d, In d (datesOf h) /\ isDateWithinRange h d = true)
  /\ calculateLongestStreak scenarioA = 3%nat.
Proof.
  intros datesInRange sortedDates.
  assert (Z0 : calculateLongestStreak h = 0%nat <-> datesInRange = []).
  { rewrite calculateLongestStreak_longestRun, longestRun_zero.
    fold datesInRange. split.
    - intros E. pose proof (sort_perm datesInRange) as P. rewrite E in P.
      apply Permutation_sym, Permutation_nil in P. exact P.
    - intros ->. reflexivity. }
  repeat split.
  - apply sort_perm.
  - apply sort_sorted.
  - apply concat_runs.
  - apply consecutive_runs.
  - apply separated_runs.
  - apply calculateLongestStreak_longestRun.
  - apply Z0.
  - apply Z0.
  - intros L. destruct datesInRange as [| d ds] eqn:F.
    + destruct Z0 as [_ Z1]. rewrite Z1 in L by reflexivity. lia.
    + exists d. apply filter_In. unfold datesInRange in F. rewrite F. left. reflexivity.
  - intros [d [I R]].
    assert (I' : In d datesInRange) by (apply filter_In; auto).
    destruct (Nat.eq_dec (calculateLongestStreak h) 0) as [E | N]; [| lia].
    apply Z0 in E. rewrite E in I'. destruct I'.
Qed.

(** ** Current streak *)

Lemma dayBefore_0 now : dayBefore now 0 = getTodayDateString now.
Proof.
  unfold dayBefore, getTodayDateString. f_equal. lia.
Qed.

(** C2. On a host whose zone changes its offset, the walk of
    [calculateCurrentStreak] is not a walk day by day.  In New York, at
    23:30 UTC of 2024-03-10 (19:30 local time, on the day daylight time
    began), for a habit of March 2024 with 2024-03-10 completed and no
    other day: [setDate(getDate() - 1)] goes back one local day, 23 hours
    that night, to 00:30 UTC of 2024-03-10, and [toISOString] prints
    2024-03-10 again.  The call returns 2, although the day before today,
    2024-03-09, is not completed and the habit has one completed day; on a
    host on UTC it returns 1. *)
Theorem current_streak_counts_a_day_twice :
  getTodayDateString evening_2024_03_10 = "2024-03-10"
  /\ dayBefore evening_2024_03_10 1 = "2024-03-09"
  /\ isDateWithinRange marchHabit "2024-03-09" = true
  /\ isHabitCompletedOnDate marchHabit "2024-03-09" = false
  /\ calculateTotalCompleted marchHabit = 1%nat
  /\ getDateString
       (setDate_plus newYork2024 (Some (timeValue evening_2024_03_10)) (-1))
     = Returned "2024-03-10"
  /\ calculateCurrentStreak newYork2024 marchHabit evening_2024_03_10
     = Returned 2%nat
  /\ calculateCurrentStreak utcZone marchHabit evening_2024_03_10
     = Returned 1%nat.
Proof. repeat split; vm_compute; reflexivity. Qed.

Lemma steady_newYork2024_winter lo hi :
  hi < 1710054000000 -> steady newYork2024 lo hi.
Proof.
  intros H. exists (-18000000). unfold newYork2024.
  cbn [offsetAtUTC offsetAtLocal]. split; intros t Ht.
  - replace (1710054000000 <=? t) with false
      by (symmetry; apply Z.leb_gt; lia).
    reflexivity.
  - replace (1710039600000 <=? t + -18000000) with false
      by (symmetry; apply Z.leb_gt; lia).
    reflexivity.
Qed.

(** X27. The current streak on a host whose offset does not change during
    the days walked, as many days up to now as the habit has completed
    days: the call returns or throws, never runs on; when the [k] days up
    to today are in range and completed and the day before them is not, it
    returns [k], and it returns no other count.  With the range 2024-01-01
    to 2024-01-10, the completions 2024-01-01, 2024-01-02, 2024-01-03 and
    today = 2024-01-03 it returns 3. *)
Theorem current_streak_walks_back_from_today
  (tz : TimeZone) (h : Habit) (now : Instant) :
  steady tz (timeValue now - Z.of_nat (calculateTotalCompleted h) * msPerDay)
            (timeValue now) ->
  calculateCurrentStreak tz h now <> OutOfFuel
  /\ (forall k,
        - maxTime <= timeValue now - Z.of_nat k * msPerDay ->
        (forall i, (i < k)%nat ->
           isDateWithinRange h (dayBefore now i) = true
           /\ isHabitCompletedOnDate h (dayBefore now i) = true) ->
        isDateWithinRange h (dayBefore now k)
          && isHabitCompletedOnDate h (dayBefore now k) = false ->
        calculateCurrentStreak tz h now = Returned k)
  /\ (forall k,
        calculateCurrentStreak tz h now = Returned k ->
        (forall i, (i < k)%nat ->
           isDateWithinRange h (dayBefore now i) = true
           /\ isHabitCompletedOnDate h (dayBefore now i) = true)
        /\ isDateWithinRange h (dayBefore now k)
             && isHabitCompletedOnDate h (dayBefore now k) = false)
  /\ (h = scenarioB -> getTodayDateString now = "2024-01-03" ->
      calculateCurrentStreak tz h now = Returned 3%nat).
Proof.
  rewrite calculateTotalCompleted_datesOf. intros St.
  pose proof (Instant_valid now) as Vn. pose proof msPerDay_eq as M.
  destruct (calculateCurrentStreak_steady tz h now St)
    as [k' [Hk' [Run' Res]]].
  assert (W : forall k,
     - maxTime <= timeValue now - Z.of_nat k * msPerDay ->
     (forall i, (i < k)%nat ->
        isDateWithinRange h (dayBefore now i) = true
        /\ isHabitCompletedOnDate h (dayBefore now i) = true) ->
     isDateWithinRange h (dayBefore now k)
       && isHabitCompletedOnDate h (dayBefore now k) = false ->
     calculateCurrentStreak tz h now = Returned k).
  { intros k V Run Stop.
    destruct (Nat.lt_trichotomy k k') as [L | [E | L]].
    - exfalso. destruct (Run' k L) as [_ [R C]]. rewrite R, C in Stop.
      discriminate.
    - subst k'. destruct Res as [[E _] | [_ B]]; [exact E | lia].
    - exfalso. destruct Res as [[_ [_ Stop']] | [_ B]]; [| lia].
      destruct (Run k' L) as [R C]. rewrite R, C in Stop'. discriminate. }
  split; [| split; [exact W | split]].
  - destruct Res as [[E _] | [E _]]; rewrite E; discriminate.
  - intros k E. destruct Res as [[E' [_ Stop']] | [E' _]];
      rewrite E' in E; [| discriminate].
    inversion E; subst k'. split; [| exact Stop'].
    intros i Hi. apply Run', Hi.
  - intros -> T.
    assert (D : Day (timeValue now) = 19725).
    { unfold getTodayDateString in T.
      change "2024-01-03" with (isoDate 1704240000000) in T.
      apply isoDate_inj in T; [| lia | unfold maxTime; lia ].
      rewrite T. reflexivity. }
    assert (B : forall i, dayBefore now i = isoDateOfDay (19725 - Z.of_nat i)).
    { intros i. unfold dayBefore, isoDate. rewrite Day_minus_days, D. reflexivity. }
    apply W.
    + unfold Day in D. unfold maxTime in *. lia.
    + intros i Hi. rewrite B.
      destruct i as [| [| [| i]]]; [| | | lia]; vm_compute; auto.
    + rewrite B. vm_compute. reflexivity.
Qed.

Lemma current_streak_walks_back_from_today_witness :
  calculateCurrentStreak newYork2024 scenarioB noon_2024_01_03 <> OutOfFuel
  /\ calculateCurrentStreak newYork2024 scenarioB noon_2024_01_03
     = Returned 3%nat.
Proof.
  destruct (current_streak_walks_back_from_today
              newYork2024 scenarioB noon_2024_01_03) as [T [_ [_ B]]].
  - apply steady_newYork2024_winter. vm_compute. reflexivity.
  - split; [exact T |]. apply B; reflexivity.
Defined.






(** ** Range validator *)

(** A date string reads as a midnight. *)
Lemma getDateFromString_midnight s t :
  getDateFromString s = Some t -> exists d, t = d * msPerDay.
Proof.
  unfold getDateFromString, Date_parse.
  destruct (readYear _) as [[y s1] |]; [| discriminate].
  destruct (readField s1) as [[m s2] |]; [| discriminate].
  destruct (readField s2) as [[dt s3] |]; [| discriminate].
  match goal with |- (if ?c then _ else _) = _ -> _ => destruct c end;
    [| discriminate].
  intros E. apply TimeClip_Some in E. destruct E as [-> _]. eauto.
Qed.

(** A day difference that is a number comes from two valid dates. *)
Lemma calculateDaysDifference_Int startStr endStr n :
  calculateDaysDifference startStr endStr = Int n ->
  exists ds de,
    getDateFromString startStr = Some (ds * msPerDay)
    /\ getDateFromString endStr = Some (de * msPerDay)
    /\ n = de - ds.
Proof.
  unfold calculateDaysDifference.
  destruct (getDateFromString startStr) as [ts |] eqn:Ps;
    destruct (getDateFromString endStr) as [te |] eqn:Pe;
    cbn [Date_sub floorDivMsPerDay]; try discriminate.
  destruct (getDateFromString_midnight _ _ Ps) as [ds ->].
  destruct (getDateFromString_midnight _ _ Pe) as [de ->].
  intros E. inversion E. exists ds, de. repeat split.
  rewrite msPerDay_eq. lia.
Qed.

(** C5. For every start/end pair whose day difference exceeds the maximum
    of 90 days, [validateDateRange] answers invalid with the message of
    the exceeded duration, which reports the day difference computed; the
    pair 2024-01-01, 2024-06-01 is rejected with a range of 152 days. *)
Theorem validateDateRange_duration_exceeded (startDateStr endDateStr : string) (n : Z) :
  calculateDaysDifference startDateStr endDateStr = Int n ->
  MAX_HABIT_DURATION_DAYS < n ->
  validateDateRange startDateStr endDateStr
  = {| valid := false;
       error := ("Maximum duration is 90 days. Your range is "
                 ++ Number_toString (Int n) ++ " days.")%string |}
  /\ validateDateRange "2024-01-01" "2024-06-01"
     = {| valid := false;
          error := "Maximum duration is 90 days. Your range is 152 days." |}.
Proof.
  intros D L. split; [| vm_compute; reflexivity].
  destruct (calculateDaysDifference_Int _ _ _ D) as [ds [de [Ps [Pe ->]]]].
  unfold validateDateRange. rewrite D, Ps, Pe. cbn [Date_le Number_gt].
  unfold MAX_HABIT_DURATION_DAYS in *. rewrite msPerDay_eq.
  replace (de * 86400000 <=? ds * 86400000) with false
    by (symmetry; apply Z.leb_gt; lia).
  replace (90 <? de - ds) with true by (symmetry; apply Z.ltb_lt; lia).
  reflexivity.
Qed.

Lemma validateDateRange_duration_exceeded_witness :
  validateDateRange "2024-01-01" "2024-04-01"
  = {| valid := false;
       error := ("Maximum duration is 90 days. Your range is "
                 ++ Number_toString (Int 91) ++ " days.")%string |}
  /\ validateDateRange "2024-01-01" "2024-06-01"
     = {| valid := false;
          error := "Maximum duration is 90 days. Your range is 152 days." |}.
Proof.
  apply (validateDateRange_duration_exceeded "2024-01-01" "2024-04-01" 91).
  - vm_compute. reflexivity.
  - reflexivity.
Defined.

(** C6. For every start/end pair whose end is not strictly after its
    start, that is with a day difference below 1, [validateDateRange]
    answers invalid with the message of the wrong order; so it does for
    2024-01-01 as both start and end. *)
Theorem validateDateRange_invalid_order (startDateStr endDateStr : string) (n : Z) :
  calculateDaysDifference startDateStr endDateStr = Int n ->
  n < 1 ->
  validateDateRange startDateStr endDateStr
  = {| valid := false; error := "End date must be after start date" |}
  /\ validateDateRange "2024-01-01" "2024-01-01"
     = {| valid := false; error := "End date must be after start date" |}.
Proof.
  intros D L. split; [| vm_compute; reflexivity].
  destruct (calculateDaysDifference_Int _ _ _ D) as [ds [de [Ps [Pe ->]]]].
  unfold validateDateRange. rewrite Ps, Pe. cbn [Date_le].
  rewrite msPerDay_eq.
  replace (de * 86400000 <=? ds * 86400000) with true
    by (symmetry; apply Z.leb_le; lia).
  reflexivity.
Qed.

Lemma validateDateRange_invalid_order_witness :
  validateDateRange "2024-01-10" "2024-01-01"
  = {| valid := false; error := "End date must be after start date" |}
  /\ validateDateRange "2024-01-01" "2024-01-01"
     = {| valid := false; error := "End date must be after start date" |}.
Proof.
  apply (validateDateRange_invalid_order "2024-01-10" "2024-01-01" (-9)).
  - vm_compute. reflexivity.
  - reflexivity.
Defined.

(** ** Status classifier *)

Lemma String_ltb_leb a b : (a <? b)%string = negb (b <=? a)%string.
Proof.
  unfold String.ltb, String.leb. rewrite (String.compare_antisym a b).
  destruct (String.compare b a); reflexivity.
Qed.


(** On a record whose endDate is before its startDate, which the validator
    does not admit, a day between the two is after the endDate and the
    status is not-started: the first test wins. *)
Example getHabitStatus_invertedHabit :
  getTodayDateString midnight_2024_01_15 = "2024-01-15"
  /\ (endDate invertedHabit <? getTodayDateString midnight_2024_01_15)%string = true
  /\ getHabitStatus invertedHabit midnight_2024_01_15 = not_started.
Proof. repeat split; reflexivity. Qed.



(** ** Completion percentage *)

Lemma calculateDaysDifference_canonical a b :
  isCanonicalDate a = true -> isCanonicalDate b = true ->
  calculateDaysDifference a b = Int (dayNum b - dayNum a)
  /\ Z.abs (dayNum a) <= 100000000 /\ Z.abs (dayNum b) <= 100000000.
Proof.
  intros Ca Cb.
  destruct (isCanonicalDate_dayNum a Ca) as [_ [_ Pa]].
  destruct (isCanonicalDate_dayNum b Cb) as [_ [_ Pb]].
  pose proof (Date_parse_valid _ _ Pa) as Va.
  pose proof (Date_parse_valid _ _ Pb) as Vb.
  unfold calculateDaysDifference. rewrite Pa, Pb.
  cbn [Date_sub floorDivMsPerDay]. unfold maxTime in *.
  rewrite msPerDay_eq in *. repeat split; try lia. f_equal. lia.
Qed.

(** Between canonical ends that are out of order no string is in range. *)
Lemma isDateWithinRange_order h s :
  isCanonicalDate (startDate h) = true -> isCanonicalDate (endDate h) = true ->
  isDateWithinRange h s = true -> dayNum (startDate h) <= dayNum (endDate h).
Proof.
  intros Cs Ce R. unfold isDateWithinRange in R.
  apply andb_true_iff in R. destruct R as [R1 R2].
  pose proof (sle_trans _ _ _ R1 R2) as T. apply sle_iff in T.
  destruct (isCanonicalDate_dayNum _ Cs) as [Es [Ys _]].
  destruct (isCanonicalDate_dayNum _ Ce) as [Ee [Ye _]].
  rewrite Es, Ee in T. rewrite (isoDateOfDay_compare _ _ Ys Ye) in T.
  destruct (Z.compare_spec (dayNum (startDate h)) (dayNum (endDate h)));
    [lia | lia | congruence].
Qed.


Lemma calculateTotalCompleted_out_of_order h :
  isCanonicalDate (startDate h) = true -> isCanonicalDate (endDate h) = true ->
  dayNum (endDate h) < dayNum (startDate h) ->
  calculateTotalCompleted h = 0%nat.
Proof.
  intros Cs Ce L. rewrite calculateTotalCompleted_datesOf.
  induction (datesOf h) as [| s l IH]; [reflexivity |].
  cbn [filter]. destruct (isDateWithinRange h s) eqn:R; [| exact IH].
  pose proof (isDateWithinRange_order h s Cs Ce R). lia.
Qed.

Lemma calculateCompletionPercentage_Int h n :
  calculateDaysDifference (startDate h) (endDate h) = Int n ->
  calculateCompletionPercentage h
  = if n + 1 =? 0 then Int 0
    else doublePercentage (Z.of_nat (calculateTotalCompleted h)) (n + 1).
Proof.
  intros D. unfold calculateCompletionPercentage. rewrite D.
  cbn [Number_strictEq]. destruct (n + 1 =? 0); reflexivity.
Qed.

(** C3. Twenty-three completed days of forty: [100 * 23 / 40] is 57.5 and
    rounds to 58, while [(23 / 40) * 100], as the code computes it, is
    57.49999999999999 in binary64, which [Math.round] makes 57.  The habit
    is one that the validator admits, with canonical dates and 23 distinct
    completion dates in range.  Forty-six days of eighty give 57 for 58 in
    the same way. *)
Theorem completion_percentage_misses_a_tie :
  validateDateRange (startDate fortyDayHabit) (endDate fortyDayHabit)
  = {| valid := true; error := "" |}
  /\ calculateDaysDifference (startDate fortyDayHabit) (endDate fortyDayHabit)
     = Int 39
  /\ calculateTotalCompleted fortyDayHabit = 23%nat
  /\ roundedPercentage 23 (39 + 1) = 58
  /\ calculateCompletionPercentage fortyDayHabit = Int 57
  /\ roundedPercentage 46 80 = 58
  /\ doublePercentage 46 80 = Int 57.
Proof. repeat split; vm_compute; reflexivity. Qed.

(** On a record whose startDate is no date the day difference is NaN and
    so is the percentage. *)
Example calculateCompletionPercentage_undatedHabit :
  calculateCompletionPercentage undatedHabit = NaN.
Proof. vm_compute. reflexivity. Qed.

(** The two ties on which the percentage is one short. *)
Lemma percentageExact_table :
  forallb (fun d =>
     forallb (fun c =>
        match doublePercentage (Z.of_nat c) (Z.of_nat d) with
        | Int r =>
            if ((c =? 23) && (d =? 40))%nat || ((c =? 46) && (d =? 80))%nat
            then r =? roundedPercentage (Z.of_nat c) (Z.of_nat d) - 1
            else r =? roundedPercentage (Z.of_nat c) (Z.of_nat d)
        | _ => false
        end)
       (seq 0 (S d)))
    (seq 1 91) = true.
Proof. vm_compute. reflexivity. Qed.

Lemma percentageExact_small c d :
  1 <= d <= 91 -> 0 <= c <= d ->
  ~ (c = 23 /\ d = 40) -> ~ (c = 46 /\ d = 80) ->
  doublePercentage c d = Int (roundedPercentage c d).
Proof.
  intros D C N1 N2. pose proof percentageExact_table as T.
  rewrite forallb_forall in T.
  specialize (T (Z.to_nat d)). rewrite in_seq in T.
  specialize (T ltac:(lia)). rewrite forallb_forall in T.
  specialize (T (Z.to_nat c)). rewrite in_seq in T.
  specialize (T ltac:(lia)). rewrite !Z2Nat.id in T by lia.
  destruct (doublePercentage c d) as [| | | r]; try discriminate.
  replace (((Z.to_nat c =? 23) && (Z.to_nat d =? 40))%nat
           || ((Z.to_nat c =? 46) && (Z.to_nat d =? 80))%nat) with false in T.
  - apply Z.eqb_eq in T. rewrite T. reflexivity.
  - symmetry. apply orb_false_iff. split; apply andb_false_iff.
    + destruct (Nat.eqb_spec (Z.to_nat c) 23) as [E1 | E1]; [| auto].
      right. apply Nat.eqb_neq. intros E2. apply N1. lia.
    + destruct (Nat.eqb_spec (Z.to_nat c) 46) as [E1 | E1]; [| auto].
      right. apply Nat.eqb_neq. intros E2. apply N2. lia.
Qed.

(** X28. For every habit whose startDate and endDate are canonical date
    strings, with [d = dayDifference(startDate, endDate) + 1] and [c] the
    number of completion dates in range: the percentage is an integer from
    0 to 100 however many duplicate or out-of-range dates are stored; it is
    0 when [d] is 0; it is 100 when [d >= 1] and [c >= d]; and for a span
    of 1 to 91 days with [c <= d] it is [round(100 * c / d)], halves
    rounded up, for every [c] and [d] but 23 of 40 and 46 of 80, where it
    is 57. *)
Theorem completion_percentage_in_range (h : Habit) :
  isCanonicalDate (startDate h) = true ->
  isCanonicalDate (endDate h) = true ->
  calculateDaysDifference (startDate h) (endDate h)
  = Int (dayNum (endDate h) - dayNum (startDate h))
  /\ (exists r, calculateCompletionPercentage h = Int r /\ 0 <= r <= 100)
  /\ (dayNum (endDate h) - dayNum (startDate h) + 1 = 0 ->
      calculateCompletionPercentage h = Int 0)
  /\ (1 <= dayNum (endDate h) - dayNum (startDate h) + 1
      <= Z.of_nat (calculateTotalCompleted h) ->
      calculateCompletionPercentage h = Int 100
      /\ roundedPercentage (Z.of_nat (calculateTotalCompleted h))
           (dayNum (endDate h) - dayNum (startDate h) + 1) = 100)
  /\ (1 <= dayNum (endDate h) - dayNum (startDate h) + 1 <= 91 ->
      Z.of_nat (calculateTotalCompleted h)
      <= dayNum (endDate h) - dayNum (startDate h) + 1 ->
      ~ (calculateTotalCompleted h = 23%nat
         /\ dayNum (endDate h) - dayNum (startDate h) + 1 = 40) ->
      ~ (calculateTotalCompleted h = 46%nat
         /\ dayNum (endDate h) - dayNum (startDate h) + 1 = 80) ->
      calculateCompletionPercentage h
      = Int (roundedPercentage (Z.of_nat (calculateTotalCompleted h))
               (dayNum (endDate h) - dayNum (startDate h) + 1)))
  /\ (calculateTotalCompleted h = 23%nat ->
      dayNum (endDate h) - dayNum (startDate h) + 1 = 40 ->
      calculateCompletionPercentage h = Int 57)
  /\ (calculateTotalCompleted h = 46%nat ->
      dayNum (endDate h) - dayNum (startDate h) + 1 = 80 ->
      calculateCompletionPercentage h = Int 57)
  /\ calculateCompletionPercentage scenarioA = Int 40.
Proof.
  intros Cs Ce.
  destruct (calculateDaysDifference_canonical _ _ Cs Ce) as [D [Bs Be]].
  set (n := dayNum (endDate h) - dayNum (startDate h)) in *.
  set (c := Z.of_nat (calculateTotalCompleted h)).
  pose proof (calculateCompletionPercentage_Int h n D) as P. fold c in P.
  assert (P2 : 2 ^ 53 = 9007199254740992) by reflexivity.
  split; [exact D |].
  split; [| split; [| split; [| split; [| split; [| split]]]]].
  - rewrite P. destruct (Z.eqb_spec (n + 1) 0) as [E | N].
    + exists 0. split; [reflexivity | lia].
    + destruct (Z_lt_le_dec 0 (n + 1)) as [Pos | Neg].
      * apply doublePercentage_range; unfold c; lia.
      * exists 0. split; [| lia].
        unfold c. rewrite (calculateTotalCompleted_out_of_order h Cs Ce)
          by (unfold n in *; lia).
        apply doublePercentage_zero; lia.
  - intros E. rewrite P, E. reflexivity.
  - intros B. rewrite P.
    destruct (Z.eqb_spec (n + 1) 0); [lia |]. split.
    + apply doublePercentage_full; lia.
    + unfold roundedPercentage. apply Z.min_r.
      apply Z.div_le_lower_bound; lia.
  - intros B C N1 N2. rewrite P.
    destruct (Z.eqb_spec (n + 1) 0); [lia |].
    apply percentageExact_small; trivial; unfold c; lia.
  - intros E1 E2. rewrite P. unfold c. rewrite E1, E2. reflexivity.
  - intros E1 E2. rewrite P. unfold c. rewrite E1, E2. reflexivity.
  - vm_compute. reflexivity.
Qed.

Lemma completion_percentage_in_range_witness :
  exists r, calculateCompletionPercentage fortyDayHabit = Int r /\ 0 <= r <= 100.
Proof.
  apply (completion_percentage_in_range fortyDayHabit);
    vm_compute; reflexivity.
Defined.

(** What the validator admits: canonical dates that pass are in order as
    strings, between 1 and 90 days apart. *)
Lemma validateDateRange_valid startDateStr endDateStr :
  isCanonicalDate startDateStr = true -> isCanonicalDate endDateStr = true ->
  valid (validateDateRange startDateStr endDateStr) = true ->
  (startDateStr <? endDateStr)%string = true
  /\ 1 <= dayNum endDateStr - dayNum startDateStr <= MAX_HABIT_DURATION_DAYS.
Proof.
  intros Cs Ce V.
  destruct (calculateDaysDifference_canonical _ _ Cs Ce) as [D _].
  destruct (isCanonicalDate_dayNum _ Cs) as [Es [Ys Ps]].
  destruct (isCanonicalDate_dayNum _ Ce) as [Ee [Ye Pe]].
  unfold validateDateRange in V. rewrite D, Ps, Pe in V.
  cbn [Date_le Number_gt] in V. rewrite msPerDay_eq in V.
  unfold MAX_HABIT_DURATION_DAYS in *.
  destruct (Z.leb_spec (dayNum endDateStr * 86400000)
                       (dayNum startDateStr * 86400000)); [discriminate |].
  destruct (Z.ltb_spec 90 (dayNum endDateStr - dayNum startDateStr));
    [discriminate |].
  split; [| lia].
  unfold String.ltb. rewrite Es, Ee, (isoDateOfDay_compare _ _ Ys Ye).
  replace (dayNum startDateStr ?= dayNum endDateStr) with Lt; [reflexivity |].
  symmetry. apply Z.compare_lt_iff. lia.
Qed.

(** ** Toggling *)

Lemma spliceFirst_split x : forall l,
  In x l ->
  exists l1 l2, l = l1 ++ x :: l2 /\ ~ In x l1 /\ spliceFirst x l = l1 ++ l2.
Proof.
  induction l as [| y l IH]; intros I; [destruct I |].
  cbn [spliceFirst]. destruct (String.eqb_spec y x) as [E | N].
  - subst y. exists [], l. repeat split. intros [].
  - destruct I as [E | I]; [contradiction |].
    destruct (IH I) as [l1 [l2 [E1 [N1 E2]]]].
    exists (y :: l1), l2. subst l. repeat split.
    + intros [E | I']; [contradiction | exact (N1 I')].
    + cbn [app]. rewrite E2. reflexivity.
Qed.

Lemma spliceFirst_not_In x l : ~ In x l -> spliceFirst x (l ++ [x]) = l.
Proof.
  induction l as [| y l IH]; intros N; cbn [app spliceFirst].
  - rewrite String.eqb_refl. reflexivity.
  - destruct (String.eqb_spec y x) as [E | _].
    + exfalso. apply N. left. exact E.
    + rewrite IH; [reflexivity |]. intros I. apply N. right. exact I.
Qed.

Lemma count_occ_spliceFirst x l :
  In x l ->
  S (count_occ string_dec (spliceFirst x l) x) = count_occ string_dec l x.
Proof.
  intros I. destruct (spliceFirst_split x l I) as [l1 [l2 [E1 [N1 E2]]]].
  rewrite E2, E1, !count_occ_app. cbn [count_occ].
  destruct (string_dec x x); [lia | contradiction].
Qed.

Lemma datesOf_toggleDate h d :
  datesOf (toggleDate h d)
  = if includes (datesOf h) d then spliceFirst d (datesOf h)
    else datesOf h ++ [d].
Proof. reflexivity. Qed.

(** Toggling a date that is stored at most once, twice, leaves the same
    dates up to their order. *)
Lemma toggleDate_twice_Permutation h d :
  (count_occ string_dec (datesOf h) d <= 1)%nat ->
  Permutation (datesOf h) (datesOf (toggleDate (toggleDate h d) d)).
Proof.
  intros C. rewrite !datesOf_toggleDate.
  destruct (includes (datesOf h) d) eqn:I.
  - apply includes_In in I.
    pose proof (count_occ_spliceFirst d _ I) as S.
    assert (N : ~ In d (spliceFirst d (datesOf h))).
    { apply (count_occ_not_In string_dec). lia. }
    replace (includes (spliceFirst d (datesOf h)) d) with false.
    + destruct (spliceFirst_split d _ I) as [l1 [l2 [E1 [_ E2]]]].
      rewrite E2. rewrite E1 at 1.
      rewrite <- app_assoc. apply Permutation_app_head.
      change (d :: l2) with ([d] ++ l2). apply Permutation_app_comm.
    + symmetry. apply not_true_is_false. intros T. apply includes_In in T.
      exact (N T).
  - assert (N : ~ In d (datesOf h)).
    { intros T. apply includes_In in T. congruence. }
    replace (includes (datesOf h ++ [d]) d) with true.
    + rewrite (spliceFirst_not_In d _ N). apply Permutation_refl.
    + symmetry. apply includes_In, in_or_app. right. left. reflexivity.
Qed.

Lemma Permutation_filter_string (f : string -> bool) l l' :
  Permutation l l' -> Permutation (filter f l) (filter f l').
Proof.
  induction 1 as [| x l l' P IH | x y l | l l' l'' P1 IH1 P2 IH2];
    cbn [filter].
  - apply Permutation_refl.
  - destruct (f x); [apply perm_skip |]; exact IH.
  - destruct (f x), (f y); try apply Permutation_refl. apply perm_swap.
  - eapply Permutation_trans; eassumption.
Qed.

(** The loop depends on the habit through its range and through the
    completion of the dates in range only. *)
Lemma streakLoop_ext tz h h' :
  (forall s, isDateWithinRange h' s = isDateWithinRange h s) ->
  (forall s, isDateWithinRange h s = true ->
             isHabitCompletedOnDate h' s = isHabitCompletedOnDate h s) ->
  forall depth date acc,
    streakLoop depth tz h' date acc = streakLoop depth tz h date acc.
Proof.
  intros R C. induction depth as [| depth IH]; intros date acc; cbn [streakLoop].
  - unfold streakStep. destruct (getDateString date) as [s | |]; trivial.
    rewrite R. destruct (isDateWithinRange h s) eqn:Rs; cbn [negb]; trivial.
    rewrite (C s Rs). reflexivity.
  - rewrite IH. destruct (streakLoop depth tz h date acc); trivial.
Qed.

Lemma calculateCurrentStreak_ext tz h h' now :
  (forall s, isDateWithinRange h' s = isDateWithinRange h s) ->
  (forall s, isDateWithinRange h s = true ->
             isHabitCompletedOnDate h' s = isHabitCompletedOnDate h s) ->
  calculateCurrentStreak tz h' now = calculateCurrentStreak tz h now.
Proof.
  intros R C. unfold calculateCurrentStreak.
  rewrite (streakLoop_ext tz h h' R C). reflexivity.
Qed.

(** The statistics depend on the completion dates as a multiset only. *)
Lemma sameStatistics_Permutation h h' :
  id h' = id h -> startDate h' = startDate h -> endDate h' = endDate h ->
  Permutation (datesOf h) (datesOf h') ->
  sameStatistics h h'.
Proof.
  intros Ei Es Ee P.
  assert (R : forall s, isDateWithinRange h' s = isDateWithinRange h s)
    by (intros s; unfold isDateWithinRange; rewrite Es, Ee; reflexivity).
  assert (C : forall s, isHabitCompletedOnDate h' s = isHabitCompletedOnDate h s).
  { intros s. apply eq_true_iff_eq. rewrite !isHabitCompletedOnDate_In.
    split; intros I; [apply Permutation_sym in P |]; eapply Permutation_in; eassumption. }
  assert (F : Permutation (filter (isDateWithinRange h) (datesOf h))
                (filter (isDateWithinRange h') (datesOf h'))).
  { rewrite (filter_ext _ _ R). apply Permutation_filter_string, P. }
  assert (T : calculateTotalCompleted h' = calculateTotalCompleted h).
  { rewrite !calculateTotalCompleted_datesOf. symmetry.
    apply Permutation_length, F. }
  unfold sameStatistics. repeat split; trivial.
  - intros tz now. apply calculateCurrentStreak_ext; [exact R |].
    intros s _. apply C.
  - rewrite !calculateLongestStreak_longestRun. f_equal. symmetry.
    apply sort_Permutation, F.
  - unfold calculateCompletionPercentage. rewrite Es, Ee, T. reflexivity.
Qed.

Lemma sameStatistics_refl h : sameStatistics h h.
Proof.
  apply sameStatistics_Permutation;
    first [reflexivity | apply Permutation_refl].
Qed.

Lemma toggleDate_twice_sameStatistics h d :
  (count_occ string_dec (datesOf h) d <= 1)%nat ->
  sameStatistics h (toggleDate (toggleDate h d) d).
Proof.
  intros C. apply sameStatistics_Permutation; try reflexivity.
  apply toggleDate_twice_Permutation, C.
Qed.

(** C4, as the specification states it, fails on a date that is stored
    twice: each toggle removes one occurrence, so after two toggles the
    date, a member before, is none, and the total goes from 2 to 0. *)
Lemma toggle_twice_drops_duplicated_date :
  toggleHabitCompletion "1" "2024-01-02"
    (toggleHabitCompletion "1" "2024-01-02" [twiceHabit])
  = [ {| id := "1"; name := "Gym";
         startDate := "2024-01-01"; endDate := "2024-01-10";
         createdAt := "2024-01-01T08:00:00.000Z";
         completionDates := Some [] |} ]
  /\ isHabitCompletedOnDate twiceHabit "2024-01-02" = true
  /\ calculateTotalCompleted twiceHabit = 2%nat
  /\ ~ Forall2 sameStatistics [twiceHabit]
         (toggleHabitCompletion "1" "2024-01-02"
            (toggleHabitCompletion "1" "2024-01-02" [twiceHabit])).
Proof.
  repeat split; try reflexivity.
  intros F. inversion F as [| ? ? ? ? S _]; subst.
  destruct S as [_ [_ [_ [M _]]]]. specialize (M "2024-01-02").
  vm_compute in M. discriminate.
Qed.

(** C4, amended.  For every store, habit id and date string that the
    habit found holds at most once in its completion dates, two calls of
    [toggleHabitCompletion] with that id and date leave every habit of the
    store with the membership of every date and with the current streak,
    longest streak, total and percentage it had. *)
Theorem toggle_twice_restores_statistics
  (habits : list Habit) (habitId dateStr : string) :
  (forall h, findHabit habitId habits = Some h ->
             (count_occ string_dec (datesOf h) dateStr <= 1)%nat) ->
  Forall2 sameStatistics habits
    (toggleHabitCompletion habitId dateStr
       (toggleHabitCompletion habitId dateStr habits)).
Proof.
  induction habits as [| h rest IH]; intros C; cbn [toggleHabitCompletion].
  - constructor.
  - unfold findHabit in C. cbn [find] in C.
    destruct (id h =? habitId)%string eqn:E.
    + cbn [toggleHabitCompletion].
      change (id (toggleDate h dateStr)) with (id h). rewrite E.
      constructor.
      * apply toggleDate_twice_sameStatistics, C. reflexivity.
      * clear. induction rest; constructor; [apply sameStatistics_refl | assumption].
    + cbn [toggleHabitCompletion]. rewrite E. constructor.
      * apply sameStatistics_refl.
      * apply IH. exact C.
Qed.

Lemma toggle_twice_restores_statistics_witness :
  Forall2 sameStatistics [legacyHabit; scenarioA]
    (toggleHabitCompletion "1" "2024-01-05"
       (toggleHabitCompletion "1" "2024-01-05" [legacyHabit; scenarioA])).
Proof.
  apply (toggle_twice_restores_statistics [legacyHabit; scenarioA] "1" "2024-01-05").
  intros h F. vm_compute in F. inversion F. subst h. vm_compute. lia.
Defined.

(** C10. When the habit found holds [dateStr] more than once, one call of
    [toggleHabitCompletion] removes its first occurrence and nothing else,
    so the date is still a member afterwards: one toggle does not flip the
    membership of a duplicated date. *)
Theorem toggle_removes_first_occurrence_only
  (habits : list Habit) (habitId dateStr : string) (h : Habit) (l : list string) :
  findHabit habitId habits = Some h ->
  completionDates h = Some l ->
  (2 <= count_occ string_dec l dateStr)%nat ->
  exists h' l1 l2,
    findHabit habitId (toggleHabitCompletion habitId dateStr habits) = Some h'
    /\ l = l1 ++ dateStr :: l2 /\ ~ In dateStr l1
    /\ completionDates h' = Some (l1 ++ l2)
    /\ S (count_occ string_dec (l1 ++ l2) dateStr) = count_occ string_dec l dateStr
    /\ isHabitCompletedOnDate h dateStr = true
    /\ isHabitCompletedOnDate h' dateStr = true.
Proof.
  intros F L C.
  assert (I : In dateStr l) by (apply (count_occ_In string_dec); lia).
  destruct (spliceFirst_split dateStr l I) as [l1 [l2 [E1 [N1 E2]]]].
  pose proof (count_occ_spliceFirst dateStr l I) as S1. rewrite E2 in S1.
  assert (T : toggleDate h dateStr
              = {| id := id h; name := name h; startDate := startDate h;
                   endDate := endDate h; createdAt := createdAt h;
                   completionDates := Some (l1 ++ l2) |}).
  { unfold toggleDate. rewrite L.
    rewrite (proj2 (includes_In l dateStr) I), E2. reflexivity. }
  exists (toggleDate h dateStr), l1, l2.
  assert (F' : findHabit habitId (toggleHabitCompletion habitId dateStr habits)
               = Some (toggleDate h dateStr)).
  { clear -F. unfold findHabit in *.
    induction habits as [| h0 rest IH]; [discriminate |].
    cbn [find toggleHabitCompletion] in *.
    destruct (id h0 =? habitId)%string eqn:E.
    - inversion F; subst. cbn [find].
      change (id (toggleDate h dateStr)) with (id h). rewrite E. reflexivity.
    - cbn [find]. rewrite E. apply IH, F. }
  repeat split; trivial.
  - rewrite T. reflexivity.
  - unfold isHabitCompletedOnDate. rewrite L. apply includes_In, I.
  - rewrite T. unfold isHabitCompletedOnDate. cbn [completionDates].
    apply includes_In, (count_occ_In string_dec). lia.
Qed.

Lemma toggle_removes_first_occurrence_only_witness :
  exists h' l1 l2,
    findHabit "1" (toggleHabitCompletion "1" "2024-01-02" [duplicatedHabit])
    = Some h'
    /\ ["2024-01-01"; "2024-01-02"; "2024-01-02"; "2024-01-03"]
       = l1 ++ "2024-01-02" :: l2
    /\ ~ In "2024-01-02" l1
    /\ completionDates h' = Some (l1 ++ l2)
    /\ S (count_occ string_dec (l1 ++ l2) "2024-01-02")
       = count_occ string_dec
           ["2024-01-01"; "2024-01-02"; "2024-01-02"; "2024-01-03"] "2024-01-02"
    /\ isHabitCompletedOnDate duplicatedHabit "2024-01-02" = true
    /\ isHabitCompletedOnDate h' "2024-01-02" = true.
Proof.
  apply (toggle_removes_first_occurrence_only
           [duplicatedHabit] "1" "2024-01-02" duplicatedHabit).
  - reflexivity.
  - reflexivity.
  - vm_compute. lia.
Defined.

(* ================================================================== *)
(** * Further properties of the date utilities *)

Lemma calculateDaysDifference_NaN a b :
  calculateDaysDifference a b = NaN
  <-> getDateFromString a = None \/ getDateFromString b = None.
Proof.
  unfold calculateDaysDifference.
  destruct (getDateFromString a), (getDateFromString b);
    cbn [Date_sub floorDivMsPerDay]; split; auto; try discriminate;
    intros [H | H]; discriminate.
Qed.

Lemma calculateDaysDifference_cases a b :
  calculateDaysDifference a b = NaN
  \/ exists n, calculateDaysDifference a b = Int n.
Proof.
  unfold calculateDaysDifference.
  destruct (getDateFromString a), (getDateFromString b);
    cbn [Date_sub floorDivMsPerDay]; eauto.
Qed.

Lemma canonical_compare a b :
  isCanonicalDate a = true -> isCanonicalDate b = true ->
  String.compare a b = (dayNum a ?= dayNum b).
Proof.
  intros Ca Cb.
  destruct (isCanonicalDate_dayNum a Ca) as [Ea [Ya _]].
  destruct (isCanonicalDate_dayNum b Cb) as [Eb [Yb _]].
  rewrite Ea at 1. rewrite Eb at 1. apply isoDateOfDay_compare; assumption.
Qed.

Lemma canonical_leb a b :
  isCanonicalDate a = true -> isCanonicalDate b = true ->
  (a <=? b)%string = (dayNum a <=? dayNum b).
Proof.
  intros Ca Cb. unfold String.leb, Z.leb. rewrite (canonical_compare a b Ca Cb).
  reflexivity.
Qed.

Lemma canonical_dayNum_inj a b :
  isCanonicalDate a = true -> isCanonicalDate b = true ->
  dayNum a = dayNum b -> a = b.
Proof.
  intros Ca Cb E.
  destruct (isCanonicalDate_dayNum a Ca) as [Ea _].
  destruct (isCanonicalDate_dayNum b Cb) as [Eb _].
  rewrite Ea, Eb, E. reflexivity.
Qed.

(** X1. Printing and reading a date are inverse up to the time of day:
    the string that [getDateString] returns for a valid Date is read by
    [getDateFromString] as the midnight of the same day, prints as itself
    again, and is the string of exactly the Dates of that day. *)
Theorem date_string_round_trip (t : Z) (s : string) :
  Z.abs t <= maxTime ->
  getDateString (Some t) = Returned s ->
  getDateFromString s = Some (Day t * msPerDay)
  /\ getDateString (getDateFromString s) = Returned s
  /\ (forall u, Z.abs u <= maxTime ->
        (getDateString (Some u) = Returned s <-> Day u = Day t)).
Proof.
  intros V E. cbn [getDateString] in E. inversion E as [Es]. clear E.
  pose proof (getDateFromString_isoDate t V) as P.
  split; [exact P |]. split.
  - rewrite P. cbn [getDateString]. unfold isoDate. rewrite Day_of_midnight.
    reflexivity.
  - intros u Vu. cbn [getDateString]. split.
    + intros Eu. inversion Eu as [Eu']. apply isoDate_inj; assumption.
    + intros D. unfold isoDate. rewrite D. reflexivity.
Qed.

Lemma date_string_round_trip_witness :
  getDateFromString "2024-01-03" = Some (Day 1704283200000 * msPerDay)
  /\ getDateString (getDateFromString "2024-01-03") = Returned "2024-01-03"
  /\ (forall u, Z.abs u <= maxTime ->
        (getDateString (Some u) = Returned "2024-01-03"
         <-> Day u = Day 1704283200000)).
Proof.
  apply (date_string_round_trip 1704283200000 "2024-01-03").
  - vm_compute. discriminate.
  - vm_compute. reflexivity.
Defined.

(** X2. On canonical date strings the comparison of strings is the
    comparison of days: a date is within the range of a habit, by
    [isDateWithinRange], exactly when it is no day before the start and no
    day after the end, by [calculateDaysDifference]; and two canonical
    strings are in string order exactly as their day difference says. *)
Theorem range_test_is_chronological (h : Habit) (dateStr : string) :
  isCanonicalDate (startDate h) = true ->
  isCanonicalDate (endDate h) = true ->
  isCanonicalDate dateStr = true ->
  exists n m,
    calculateDaysDifference (startDate h) dateStr = Int n
    /\ calculateDaysDifference dateStr (endDate h) = Int m
    /\ (isDateWithinRange h dateStr = true <-> 0 <= n /\ 0 <= m)
    /\ ((startDate h <? dateStr)%string = true <-> 0 < n)
    /\ (startDate h = dateStr <-> n = 0).
Proof.
  intros Cs Ce Cd.
  destruct (calculateDaysDifference_canonical _ _ Cs Cd) as [D1 _].
  destruct (calculateDaysDifference_canonical _ _ Cd Ce) as [D2 _].
  exists (dayNum dateStr - dayNum (startDate h)),
         (dayNum (endDate h) - dayNum dateStr).
  split; [exact D1 |]. split; [exact D2 |]. split; [| split].
  - unfold isDateWithinRange.
    rewrite (canonical_leb _ _ Cs Cd), (canonical_leb _ _ Cd Ce).
    rewrite andb_true_iff, !Z.leb_le. lia.
  - unfold String.ltb. rewrite (canonical_compare _ _ Cs Cd).
    destruct (Z.compare_spec (dayNum (startDate h)) (dayNum dateStr));
      split; intros; try discriminate; try reflexivity; lia.
  - split.
    + intros <-. lia.
    + intros E. apply canonical_dayNum_inj; trivial. lia.
Qed.

Lemma range_test_is_chronological_witness :
  exists n m,
    calculateDaysDifference (startDate scenarioA) "2024-01-05" = Int n
    /\ calculateDaysDifference "2024-01-05" (endDate scenarioA) = Int m
    /\ (isDateWithinRange scenarioA "2024-01-05" = true <-> 0 <= n /\ 0 <= m)
    /\ ((startDate scenarioA <? "2024-01-05")%string = true <-> 0 < n)
    /\ (startDate scenarioA = "2024-01-05" <-> n = 0).
Proof.
  apply (range_test_is_chronological scenarioA "2024-01-05");
    vm_compute; reflexivity.
Defined.

(** X3. Day differences add up and change sign with the order of their
    arguments: when a to b is n days and b to c is m days, then a to c is
    n + m days, b to a is -n days and a to a is 0 days. *)
Theorem day_differences_add_up (a b c : string) (n m : Z) :
  calculateDaysDifference a b = Int n ->
  calculateDaysDifference b c = Int m ->
  calculateDaysDifference a c = Int (n + m)
  /\ calculateDaysDifference b a = Int (- n)
  /\ calculateDaysDifference a a = Int 0.
Proof.
  intros D1 D2.
  destruct (calculateDaysDifference_Int _ _ _ D1) as [da [db [Pa [Pb ->]]]].
  destruct (calculateDaysDifference_Int _ _ _ D2) as [db' [dc [Pb' [Pc ->]]]].
  rewrite Pb in Pb'. inversion Pb' as [Q].
  assert (db' = db) by (rewrite msPerDay_eq in Q; lia). subst db'.
  unfold calculateDaysDifference. rewrite Pa, Pb, Pc.
  cbn [Date_sub floorDivMsPerDay]. rewrite msPerDay_eq.
  repeat split; f_equal; lia.
Qed.

Lemma day_differences_add_up_witness :
  calculateDaysDifference "2024-01-01" "2024-06-01" = Int (31 + 121)
  /\ calculateDaysDifference "2024-02-01" "2024-01-01" = Int (- 31)
  /\ calculateDaysDifference "2024-01-01" "2024-01-01" = Int 0.
Proof.
  apply (day_differences_add_up "2024-01-01" "2024-02-01" "2024-06-01" 31 121);
    vm_compute; reflexivity.
Defined.

(** What [addDaysToDate] returns on any host: the date of the instant that
    is [n] days later in local time. *)
Lemma addDaysToDate_inv tz dateStr n r :
  addDaysToDate tz dateStr n = Returned r ->
  exists t u,
    getDateFromString dateStr = Some t
    /\ u = t + n * msPerDay
           + (offsetAtUTC tz t
              - offsetAtLocal tz (t + offsetAtUTC tz t + n * msPerDay))
    /\ Z.abs u <= maxTime
    /\ r = isoDate u.
Proof.
  unfold addDaysToDate. destruct (getDateFromString dateStr) as [t |];
    [| discriminate].
  rewrite setDate_plus_Some. unfold LocalTime.
  destruct (TimeClip _) as [u |] eqn:T; cbn [getDateString]; [| discriminate].
  intros E. inversion E; subst r. apply TimeClip_Some in T. destruct T as [-> V].
  exists t. eexists. split; [reflexivity |]. split; [reflexivity |].
  split; [| f_equal]; lia.
Qed.

(** A date moved where the offset of the zone does not change. *)
Lemma addDaysToDate_steady tz dateStr t n :
  getDateFromString dateStr = Some t ->
  Z.abs (t + n * msPerDay) <= maxTime ->
  steady tz (Z.min t (t + n * msPerDay)) (Z.max t (t + n * msPerDay)) ->
  addDaysToDate tz dateStr n = Returned (isoDate (t + n * msPerDay))
  /\ calculateDaysDifference dateStr (isoDate (t + n * msPerDay)) = Int n.
Proof.
  intros P V St. pose proof msPerDay_eq as M.
  destruct (getDateFromString_midnight _ _ P) as [d ->].
  split.
  - unfold addDaysToDate. rewrite P.
    rewrite (setDate_plus_steady tz _ _ _ n St) by lia.
    rewrite (TimeClip_valid _ V). reflexivity.
  - unfold calculateDaysDifference.
    rewrite P, (getDateFromString_isoDate _ V).
    cbn [Date_sub floorDivMsPerDay]. f_equal. unfold Day. rewrite M. lia.
Qed.

(** A date moved on a host whose offsets differ by a day at most: the
    result is off by one day at most. *)
Lemma addDaysToDate_shift tz dateStr n r :
  shiftWithin tz msPerDay ->
  addDaysToDate tz dateStr n = Returned r ->
  exists m, calculateDaysDifference dateStr r = Int m /\ n - 1 <= m <= n + 1.
Proof.
  intros Sh A. pose proof msPerDay_eq as M.
  destruct (addDaysToDate_inv _ _ _ _ A) as [t [u [P [Eu [V ->]]]]].
  destruct (getDateFromString_midnight _ _ P) as [d ->].
  specialize (Sh (d * msPerDay)
                 (d * msPerDay + offsetAtUTC tz (d * msPerDay) + n * msPerDay)).
  exists (Day u - d). split.
  - unfold calculateDaysDifference.
    rewrite P, (getDateFromString_isoDate _ V).
    cbn [Date_sub floorDivMsPerDay]. f_equal. rewrite M. lia.
  - unfold Day. rewrite M in *. lia.
Qed.

Lemma shiftWithin_newYork2024 : shiftWithin newYork2024 msPerDay.
Proof.
  intros t u. unfold newYork2024. cbn [offsetAtUTC offsetAtLocal].
  rewrite msPerDay_eq.
  destruct ((1710054000000 <=? t) && (t <? 1730613600000));
    destruct ((1710039600000 <=? u) && (u <? 1730599200000)); lia.
Qed.

Lemma shiftWithin_steady tz lo hi t u :
  steady tz lo hi -> lo <= t <= hi -> lo <= u <= hi ->
  offsetAtUTC tz t = offsetAtLocal tz (u + offsetAtUTC tz t).
Proof.
  intros [c [U L]] Ht Hu. rewrite (U t Ht). symmetry. apply L, Hu.
Qed.

(** X4. [addDaysToDate] moves a date string by the number of days asked,
    on a host whose offset does not change between the date and the moved
    date: when the string is a date and the moved date is one a Date can
    hold, the result is [n] days from the argument by
    [calculateDaysDifference], and moving it back by [n] days gives the day
    of the argument again. *)
Theorem addDaysToDate_moves_by_days
  (tz : TimeZone) (dateStr : string) (t n : Z) :
  getDateFromString dateStr = Some t ->
  Z.abs (t + n * msPerDay) <= maxTime ->
  steady tz (Z.min t (t + n * msPerDay)) (Z.max t (t + n * msPerDay)) ->
  exists r,
    addDaysToDate tz dateStr n = Returned r
    /\ calculateDaysDifference dateStr r = Int n
    /\ addDaysToDate tz r (- n) = Returned (isoDate t).
Proof.
  intros P V St. pose proof msPerDay_eq as M.
  pose proof (Date_parse_valid _ _ P) as Vt.
  destruct (getDateFromString_midnight _ _ P) as [d ->].
  exists (isoDate (d * msPerDay + n * msPerDay)).
  assert (R : getDateFromString (isoDate (d * msPerDay + n * msPerDay))
              = Some ((d + n) * msPerDay)).
  { rewrite (getDateFromString_isoDate _ V). f_equal.
    unfold Day. rewrite M. lia. }
  split; [| split].
  - unfold addDaysToDate. rewrite P.
    rewrite (setDate_plus_steady tz _ _ _ n St) by lia.
    rewrite (TimeClip_valid _ V). reflexivity.
  - unfold calculateDaysDifference. rewrite P, R.
    cbn [Date_sub floorDivMsPerDay]. f_equal. rewrite M. lia.
  - unfold addDaysToDate. rewrite R.
    rewrite (setDate_plus_steady tz _ _ _ (- n) St) by lia.
    replace ((d + n) * msPerDay + - n * msPerDay) with (d * msPerDay) by lia.
    rewrite (TimeClip_valid _ Vt). reflexivity.
Qed.

Lemma addDaysToDate_moves_by_days_witness :
  exists r,
    addDaysToDate newYork2024 "2024-01-20" 21 = Returned r
    /\ calculateDaysDifference "2024-01-20" r = Int 21
    /\ addDaysToDate newYork2024 r (- 21) = Returned (isoDate 1705708800000).
Proof.
  apply (addDaysToDate_moves_by_days newYork2024 "2024-01-20" 1705708800000 21).
  - vm_compute. reflexivity.
  - vm_compute. discriminate.
  - apply steady_newYork2024_winter. vm_compute. reflexivity.
Defined.

(** X5. [addDaysToDate] on a host whose zone changes its offset, by a day
    at most.  It throws when the string is no date; for a date it returns
    when the date [n] days on is a day and more within what a Date can
    hold, and throws when it is a day and more beyond; and what it returns
    is [m] days from its argument for [m] one of [n - 1], [n] and [n + 1]:
    the day that a host on UTC returns for [m]. *)
Theorem addDaysToDate_within_a_day
  (tz : TimeZone) (dateStr : string) (n : Z) :
  shiftWithin tz msPerDay ->
  (getDateFromString dateStr = None ->
   addDaysToDate tz dateStr n = RangeError)
  /\ (forall t, getDateFromString dateStr = Some t ->
        (Z.abs (t + n * msPerDay) <= maxTime - msPerDay ->
         exists r, addDaysToDate tz dateStr n = Returned r)
        /\ (maxTime + msPerDay < Z.abs (t + n * msPerDay) ->
            addDaysToDate tz dateStr n = RangeError))
  /\ (forall r, addDaysToDate tz dateStr n = Returned r ->
        exists m,
          calculateDaysDifference dateStr r = Int m
          /\ n - 1 <= m <= n + 1
          /\ addDaysToDate utcZone dateStr m = Returned r).
Proof.
  intros Sh. pose proof msPerDay_eq as M.
  assert (X : maxTime = 8640000000000000) by reflexivity.
  split; [| split].
  - intros P. unfold addDaysToDate. rewrite P. reflexivity.
  - intros t P.
    specialize (Sh t (t + offsetAtUTC tz t + n * msPerDay)).
    unfold addDaysToDate. rewrite P, setDate_plus_Some. unfold LocalTime.
    split; intros B.
    + rewrite TimeClip_valid by lia. eexists. reflexivity.
    + unfold TimeClip.
      match goal with
      | |- context [ ?a <=? ?b ] => destruct (Z.leb_spec a b) as [L | L]
      end; [lia | reflexivity].
  - intros r A.
    destruct (addDaysToDate_inv _ _ _ _ A) as [t [u [P [Eu [V ->]]]]].
    destruct (getDateFromString_midnight _ _ P) as [d ->].
    specialize (Sh (d * msPerDay)
                   (d * msPerDay + offsetAtUTC tz (d * msPerDay) + n * msPerDay)).
    exists (Day u - d).
    assert (Vd : Z.abs (d * msPerDay + (Day u - d) * msPerDay) <= maxTime)
      by (unfold Day; lia).
    destruct (addDaysToDate_steady utcZone _ _ (Day u - d) P Vd
                (steady_utcZone _ _)) as [R D].
    assert (Ed : isoDate (d * msPerDay + (Day u - d) * msPerDay) = isoDate u).
    { unfold isoDate. f_equal. unfold Day. lia. }
    rewrite Ed in R, D.
    split; [exact D |]. split; [| exact R].
    unfold Day. lia.
Qed.

Lemma addDaysToDate_within_a_day_witness :
  exists m, calculateDaysDifference "2024-02-20" "2024-03-11" = Int m
            /\ 21 - 1 <= m <= 21 + 1
            /\ addDaysToDate utcZone "2024-02-20" m = Returned "2024-03-11".
Proof.
  apply (proj2 (proj2 (addDaysToDate_within_a_day newYork2024 "2024-02-20" 21
                         shiftWithin_newYork2024))).
  vm_compute. reflexivity.
Defined.

(** The range from today to the day that [addDaysToDate] returns for 21
    days later passes the validator, on a host whose offsets differ by a
    day at most. *)
Lemma default_range tz now endDate :
  shiftWithin tz msPerDay ->
  addDaysToDate tz (getTodayDateString now) 21 = Returned endDate ->
  exists n,
    calculateDaysDifference (getTodayDateString now) endDate = Int n
    /\ 20 <= n <= 22
    /\ validateDateRange (getTodayDateString now) endDate
       = {| valid := true; error := "" |}.
Proof.
  intros Sh A. pose proof msPerDay_eq as M.
  destruct (addDaysToDate_shift _ _ _ _ Sh A) as [n [D B]].
  exists n. split; [exact D |]. split; [exact B |].
  destruct (calculateDaysDifference_Int _ _ _ D) as [ds [de [Ps [Pe Q]]]].
  unfold validateDateRange. rewrite D, Ps, Pe. cbn [Date_le Number_gt].
  rewrite M. replace (de * 86400000 <=? ds * 86400000) with false
    by (symmetry; apply Z.leb_gt; lia).
  unfold MAX_HABIT_DURATION_DAYS.
  replace (90 <? n) with false by (symmetry; apply Z.ltb_ge; lia).
  reflexivity.
Qed.

(** X6. The date range that the form and the migration propose, from today
    to what [addDaysToDate] returns for 21 days later, is one that
    [validateDateRange] accepts, on any host whose offsets differ by a day
    at most and on any day but the last 22 that a Date can hold: the end is
    returned, it is 20, 21 or 22 days after today, 21 where the offset does
    not change in between, and the pair is valid. *)
Theorem default_range_is_valid (tz : TimeZone) (now : Instant) :
  shiftWithin tz msPerDay ->
  timeValue now + 22 * msPerDay <= maxTime ->
  exists endDate n,
    addDaysToDate tz (getTodayDateString now) 21 = Returned endDate
    /\ calculateDaysDifference (getTodayDateString now) endDate = Int n
    /\ 20 <= n <= 22
    /\ (steady tz (Day (timeValue now) * msPerDay)
                  (Day (timeValue now) * msPerDay + 21 * msPerDay) ->
        n = 21)
    /\ validateDateRange (getTodayDateString now) endDate
       = {| valid := true; error := "" |}.
Proof.
  intros Sh V. pose proof (Instant_valid now) as Vn. pose proof msPerDay_eq as M.
  set (t := timeValue now) in *.
  assert (P : getDateFromString (getTodayDateString now) = Some (Day t * msPerDay))
    by (apply getDateFromString_isoDate, Vn).
  set (T := Day t * msPerDay) in *.
  pose proof (Sh T (T + offsetAtUTC tz T + 21 * msPerDay)) as B.
  assert (A : exists e, addDaysToDate tz (getTodayDateString now) 21 = Returned e).
  { unfold addDaysToDate. rewrite P, setDate_plus_Some. unfold LocalTime.
    rewrite TimeClip_valid; [eexists; reflexivity |].
    unfold T, Day, maxTime in *. rewrite M in *. lia. }
  destruct A as [e A].
  destruct (default_range tz now e Sh A) as [n [D [Bn Va]]].
  exists e, n. split; [exact A |]. split; [exact D |]. split; [exact Bn |].
  split; [| exact Va].
  intros St.
  assert (V' : Z.abs (T + 21 * msPerDay) <= maxTime)
    by (unfold T, Day, maxTime in *; rewrite M in *; lia).
  assert (St' : steady tz (Z.min T (T + 21 * msPerDay))
                          (Z.max T (T + 21 * msPerDay)))
    by (apply (steady_sub tz _ _ _ _ St); lia).
  destruct (addDaysToDate_steady tz _ T 21 P V' St') as [A' D'].
  rewrite A in A'. assert (Ee : e = isoDate (T + 21 * msPerDay)) by congruence.
  subst e. rewrite D in D'. congruence.
Qed.

Lemma default_range_is_valid_witness :
  exists endDate n,
    addDaysToDate newYork2024 (getTodayDateString noon_2024_01_03) 21
    = Returned endDate
    /\ calculateDaysDifference (getTodayDateString noon_2024_01_03) endDate
       = Int n
    /\ 20 <= n <= 22
    /\ (steady newYork2024 (Day (timeValue noon_2024_01_03) * msPerDay)
          (Day (timeValue noon_2024_01_03) * msPerDay + 21 * msPerDay) ->
        n = 21)
    /\ validateDateRange (getTodayDateString noon_2024_01_03) endDate
       = {| valid := true; error := "" |}.
Proof.
  apply (default_range_is_valid newYork2024 noon_2024_01_03).
  - apply shiftWithin_newYork2024.
  - vm_compute. discriminate.
Defined.

(** X7. [validateDateRange] accepts a pair exactly when its day difference
    is from 1 to 90 or is no number at all: a pair of which one string is
    not a date is not rejected.  The error message is empty exactly for the
    pairs accepted. *)
Theorem validateDateRange_accepts (startDateStr endDateStr : string) :
  (valid (validateDateRange startDateStr endDateStr) = true
   <-> calculateDaysDifference startDateStr endDateStr = NaN
       \/ exists n, calculateDaysDifference startDateStr endDateStr = Int n
                    /\ 1 <= n <= MAX_HABIT_DURATION_DAYS)
  /\ (valid (validateDateRange startDateStr endDateStr) = true
      <-> error (validateDateRange startDateStr endDateStr) = "").
Proof.
  unfold validateDateRange, MAX_HABIT_DURATION_DAYS.
  destruct (calculateDaysDifference_cases startDateStr endDateStr) as [E | [n E]].
  - rewrite E. apply calculateDaysDifference_NaN in E.
    assert (L : Date_le (getDateFromString endDateStr)
                  (getDateFromString startDateStr) = false).
    { destruct E as [E | E]; rewrite E; [| reflexivity].
      destruct (getDateFromString endDateStr); reflexivity. }
    rewrite L. cbn. split; split; auto.
  - rewrite E.
    destruct (calculateDaysDifference_Int _ _ _ E) as [ds [de [Ps [Pe ->]]]].
    rewrite Ps, Pe. cbn [Date_le Number_gt]. rewrite msPerDay_eq.
    destruct (Z.leb_spec (de * 86400000) (ds * 86400000)) as [L1 | L1].
    + cbn. split; split; try discriminate.
      intros [H | [m [H B]]]; [discriminate |]. inversion H. lia.
    + destruct (Z.ltb_spec 90 (de - ds)) as [L2 | L2].
      * cbn [valid error]. split; split; try discriminate.
        intros [H' | [m [H' B]]]; [discriminate |]. inversion H'. lia.
      * cbn. split; split; auto. intros _. right. exists (de - ds).
        split; [reflexivity | lia].
Qed.

(* ================================================================== *)
(** * Further properties of the store operations *)

Lemma In_spliceFirst_other x y l : y <> x -> (In y (spliceFirst x l) <-> In y l).
Proof.
  intros N. induction l as [| z l IH]; cbn [spliceFirst]; [tauto |].
  destruct (String.eqb_spec z x) as [E | E].
  - subst z. cbn [In]. split; [auto |]. intros [C | C]; [congruence | exact C].
  - cbn [In]. rewrite IH. tauto.
Qed.

Lemma NoDup_spliceFirst x l : NoDup l -> NoDup (spliceFirst x l).
Proof.
  induction 1 as [| z l NI N IH]; cbn [spliceFirst]; [constructor |].
  destruct (String.eqb_spec z x) as [E | E]; [exact N |].
  constructor; [| exact IH].
  intros I. apply NI. apply (In_spliceFirst_other x z l E). exact I.
Qed.

Lemma NoDup_datesOf_toggleDate h d : NoDup (datesOf h) -> NoDup (datesOf (toggleDate h d)).
Proof.
  intros N. rewrite datesOf_toggleDate.
  destruct (includes (datesOf h) d) eqn:I.
  - apply NoDup_spliceFirst, N.
  - apply NoDup_app; [exact N | repeat constructor; intros [] |].
    intros x Ix [<- | []]. apply includes_In in Ix. congruence.
Qed.

(** Where [toggleHabitCompletion] acts: on the first habit with the id. *)
Lemma toggleHabitCompletion_found habitId dateStr : forall habits h,
  findHabit habitId habits = Some h ->
  exists before after,
    habits = before ++ h :: after
    /\ (forall x, In x before -> id x <> habitId)
    /\ id h = habitId
    /\ toggleHabitCompletion habitId dateStr habits
       = before ++ toggleDate h dateStr :: after.
Proof.
  unfold findHabit. induction habits as [| x rest IH]; intros h F;
    cbn [find] in F; [discriminate |].
  cbn [toggleHabitCompletion].
  destruct (String.eqb_spec (id x) habitId) as [E | E].
  - inversion F; subst x. exists [], rest. repeat split; trivial. intros ? [].
  - destruct (IH h F) as [before [after [E1 [N [Ei T]]]]].
    exists (x :: before), after. subst rest. repeat split; trivial.
    + intros y [<- | I]; auto.
    + cbn [app]. rewrite T. reflexivity.
Qed.

Lemma toggleHabitCompletion_not_found habitId dateStr : forall habits,
  findHabit habitId habits = None ->
  toggleHabitCompletion habitId dateStr habits = habits.
Proof.
  unfold findHabit. induction habits as [| x rest IH]; intros F; [reflexivity |].
  cbn [find] in F. cbn [toggleHabitCompletion].
  destruct (id x =? habitId)%string; [discriminate |].
  rewrite (IH F). reflexivity.
Qed.

Lemma findHabit_app_first habitId before h after :
  (forall x, In x before -> id x <> habitId) -> id h = habitId ->
  findHabit habitId (before ++ h :: after) = Some h.
Proof.
  intros N E. unfold findHabit. induction before as [| x before IH]; cbn [app find].
  - rewrite (proj2 (String.eqb_eq _ _) E). reflexivity.
  - rewrite (proj2 (String.eqb_neq _ _) (N x (or_introl eq_refl))).
    apply IH. intros y I. apply N. right. exact I.
Qed.

(** X8. [toggleHabitCompletion] changes one record at most: without a
    habit of the given id the store is what it was; otherwise the first
    habit with the id gets a new [completionDates] array and nothing else
    in the store changes, neither the other habits, nor their order, nor
    any other field of the habit. *)
Theorem toggle_changes_first_match_only
  (habits : list Habit) (habitId dateStr : string) :
  (findHabit habitId habits = None ->
   toggleHabitCompletion habitId dateStr habits = habits)
  /\ (forall h, findHabit habitId habits = Some h ->
        exists before after h',
          habits = before ++ h :: after
          /\ (forall x, In x before -> id x <> habitId)
          /\ toggleHabitCompletion habitId dateStr habits
             = before ++ h' :: after
          /\ id h' = id h /\ name h' = name h
          /\ startDate h' = startDate h /\ endDate h' = endDate h
          /\ createdAt h' = createdAt h
          /\ completionDates h' <> None)
  /\ List.length (toggleHabitCompletion habitId dateStr habits)
     = List.length habits
  /\ map id (toggleHabitCompletion habitId dateStr habits) = map id habits.
Proof.
  split; [apply toggleHabitCompletion_not_found |]. split.
  - intros h F.
    destruct (toggleHabitCompletion_found habitId dateStr habits h F)
      as [before [after [E [N [Ei T]]]]].
    exists before, after, (toggleDate h dateStr).
    repeat split; trivial. discriminate.
  - destruct (findHabit habitId habits) as [h |] eqn:F.
    + destruct (toggleHabitCompletion_found habitId dateStr habits h F)
        as [before [after [E [N [Ei T]]]]].
      rewrite T, E, !length_app, !map_app. cbn [List.length map]. auto.
    + rewrite (toggleHabitCompletion_not_found _ _ _ F). auto.
Qed.

(** X9. A toggle flips the membership of a date that the habit holds at
    most once, and of no other date: afterwards the date is completed
    exactly when it was not before, and every other date is completed
    exactly when it was. *)
Theorem toggle_flips_membership
  (habits : list Habit) (habitId dateStr : string) (h : Habit) :
  findHabit habitId habits = Some h ->
  (count_occ string_dec (datesOf h) dateStr <= 1)%nat ->
  exists h',
    findHabit habitId (toggleHabitCompletion habitId dateStr habits) = Some h'
    /\ isHabitCompletedOnDate h' dateStr = negb (isHabitCompletedOnDate h dateStr)
    /\ (forall other, other <> dateStr ->
          isHabitCompletedOnDate h' other = isHabitCompletedOnDate h other).
Proof.
  intros F C.
  destruct (toggleHabitCompletion_found habitId dateStr habits h F)
    as [before [after [E [N [Ei T]]]]].
  exists (toggleDate h dateStr). split; [| split].
  - rewrite T. apply findHabit_app_first; trivial.
  - apply eq_true_iff_eq. rewrite negb_true_iff, <- not_true_iff_false.
    rewrite !isHabitCompletedOnDate_In, datesOf_toggleDate.
    destruct (includes (datesOf h) dateStr) eqn:I.
    + apply includes_In in I.
      pose proof (count_occ_spliceFirst dateStr _ I) as S1.
      split; [| tauto]. intros I'. exfalso.
      apply (count_occ_In string_dec) in I'. lia.
    + split; [intros _ I'; apply includes_In in I'; congruence |].
      intros _. apply in_or_app. right. left. reflexivity.
  - intros other O. apply eq_true_iff_eq.
    rewrite !isHabitCompletedOnDate_In, datesOf_toggleDate.
    destruct (includes (datesOf h) dateStr).
    + apply In_spliceFirst_other, O.
    + rewrite in_app_iff. cbn [In]. split; [| tauto].
      intros [I | [E' | []]]; [exact I | congruence].
Qed.

Lemma toggle_flips_membership_witness :
  exists h',
    findHabit "1" (toggleHabitCompletion "1" "2024-01-05" [legacyHabit; scenarioA])
    = Some h'
    /\ isHabitCompletedOnDate h' "2024-01-05"
       = negb (isHabitCompletedOnDate scenarioA "2024-01-05")
    /\ (forall other, other <> "2024-01-05" ->
          isHabitCompletedOnDate h' other
          = isHabitCompletedOnDate scenarioA other).
Proof.
  apply (toggle_flips_membership [legacyHabit; scenarioA] "1" "2024-01-05" scenarioA).
  - reflexivity.
  - vm_compute. lia.
Defined.

(** X10. [toggleHabitCompletion] never stores a date twice: when no habit
    of the store holds a completion date more than once, none does after
    the toggle. *)
Theorem toggle_keeps_dates_distinct
  (habits : list Habit) (habitId dateStr : string) :
  Forall (fun h => NoDup (datesOf h)) habits ->
  Forall (fun h => NoDup (datesOf h))
         (toggleHabitCompletion habitId dateStr habits).
Proof.
  induction 1 as [| h rest N F IH]; cbn [toggleHabitCompletion]; [constructor |].
  destruct (id h =? habitId)%string; constructor; trivial.
  apply NoDup_datesOf_toggleDate, N.
Qed.

Lemma toggle_keeps_dates_distinct_witness :
  Forall (fun h => NoDup (datesOf h))
         (toggleHabitCompletion "1" "2024-01-02" [legacyHabit; scenarioB]).
Proof.
  apply (toggle_keeps_dates_distinct [legacyHabit; scenarioB] "1" "2024-01-02").
  repeat constructor; cbn [In]; intros H;
    repeat (destruct H as [H | H]; [discriminate |]); exact H.
Defined.

(** X11. [deleteHabit] removes every habit that has the given id, not only
    the first one that a toggle would find, and keeps all others in their
    order: no habit of the id can be found afterwards, the habits of other
    ids are found as before, a store without the id is unchanged, and
    deleting twice is deleting once. *)
Theorem deleteHabit_removes_every_match (habits : list Habit) (habitId : string) :
  findHabit habitId (deleteHabit habitId habits) = None
  /\ (forall h, In h (deleteHabit habitId habits)
                <-> In h habits /\ id h <> habitId)
  /\ (forall other, other <> habitId ->
        findHabit other (deleteHabit habitId habits) = findHabit other habits)
  /\ (findHabit habitId habits = None <-> deleteHabit habitId habits = habits)
  /\ deleteHabit habitId (deleteHabit habitId habits) = deleteHabit habitId habits.
Proof.
  unfold deleteHabit, findHabit.
  assert (A : forall h, In h (filter (fun h => negb (id h =? habitId)%string) habits)
                        <-> In h habits /\ id h <> habitId).
  { intros h. rewrite filter_In, negb_true_iff, String.eqb_neq. tauto. }
  split; [| split; [exact A | split; [| split]]].
  - destruct (find _ (filter _ habits)) as [h |] eqn:F; [| reflexivity].
    apply find_some in F. destruct F as [I E]. apply A in I.
    apply String.eqb_eq in E. tauto.
  - intros other O. induction habits as [| x rest IH]; [reflexivity |].
    cbn [filter find]. destruct (String.eqb_spec (id x) habitId) as [E | E];
      cbn [negb find].
    + destruct (String.eqb_spec (id x) other); [congruence |].
      apply IH. intros h. rewrite filter_In, negb_true_iff, String.eqb_neq. tauto.
    + destruct (id x =? other)%string; [reflexivity |].
      apply IH. intros h. rewrite filter_In, negb_true_iff, String.eqb_neq. tauto.
  - clear A. induction habits as [| x rest IH]; [tauto |].
    cbn [filter find]. destruct (String.eqb_spec (id x) habitId) as [E | E];
      cbn [negb].
    + split; [discriminate |]. intros Eq. exfalso.
      assert (L : (List.length (filter (fun h => negb (id h =? habitId)%string) rest)
                   <= List.length rest)%nat) by apply filter_length_le.
      rewrite Eq in L. cbn [List.length] in L. lia.
    + rewrite IH. split; [intros ->; reflexivity | intros Eq; inversion Eq; congruence].
  - clear A. induction habits as [| x rest IH]; [reflexivity |].
    cbn [filter]. destruct (negb (id x =? habitId)%string) eqn:E; [| exact IH].
    cbn [filter]. rewrite E, IH. reflexivity.
Qed.

(* ================================================================== *)
(** * The days to display *)

Lemma daysLoop_length tz : forall n date acc days,
  daysLoop n tz date acc = Returned days ->
  List.length days = (List.length acc + n)%nat.
Proof.
  induction n as [| n IH]; intros date acc days E; cbn [daysLoop] in E.
  - inversion E; subst. lia.
  - destruct (getDateString date) as [s | |]; try discriminate.
    rewrite (IH _ _ _ E), length_app. cbn [List.length]. lia.
Qed.

(** The loop where the offset of the zone does not change from [t] to the
    last day that is read. *)
Lemma daysLoop_spec tz hi : forall n t acc,
  steady tz t hi ->
  (forall i, (i < n)%nat -> Z.abs (t + Z.of_nat i * msPerDay) <= maxTime) ->
  t + Z.of_nat n * msPerDay - msPerDay <= hi ->
  daysLoop n tz (TimeClip t) acc
  = Returned (acc ++ map (fun i => isoDate (t + Z.of_nat i * msPerDay)) (seq 0 n)).
Proof.
  pose proof msPerDay_eq as M.
  induction n as [| n IH]; intros t acc St V L; cbn [daysLoop].
  - cbn [seq map]. rewrite app_nil_r. reflexivity.
  - rewrite TimeClip_valid
      by (specialize (V 0%nat ltac:(lia)); replace (t + Z.of_nat 0 * msPerDay) with t in V by lia; exact V).
    cbn [getDateString].
    assert (T0 : t + Z.of_nat 0 * msPerDay = t) by lia.
    destruct n as [| n].
    + cbn [daysLoop seq map]. rewrite T0. reflexivity.
    + rewrite (setDate_plus_steady tz t hi t 1 St) by lia.
      rewrite IH.
      * f_equal. rewrite <- app_assoc. f_equal.
        change (seq 0 (S (S n))) with (0%nat :: seq 1 (S n)).
        cbn [map app]. rewrite T0. f_equal.
        rewrite <- seq_shift, map_map. apply map_ext. intros i. f_equal. lia.
      * apply (steady_sub tz t hi); [exact St | lia | lia].
      * intros i Hi. specialize (V (S i) ltac:(lia)).
        replace (t + 1 * msPerDay + Z.of_nat i * msPerDay)
          with (t + Z.of_nat (S i) * msPerDay) by lia.
        exact V.
      * lia.
Qed.

(** The days to display of a habit whose two dates read as the days [ds]
    and [de], on a host whose offset does not change between them. *)
Lemma getDaysToDisplay_days tz h ds de :
  getDateFromString (startDate h) = Some (ds * msPerDay) ->
  getDateFromString (endDate h) = Some (de * msPerDay) ->
  steady tz (ds * msPerDay) (de * msPerDay) ->
  getDaysToDisplay tz h
  = Returned (map (fun i => isoDateOfDay (ds + Z.of_nat i))
                  (seq 0 (Z.to_nat (de - ds + 1)))).
Proof.
  intros Ps Pe St. pose proof msPerDay_eq as M.
  pose proof (Date_parse_valid _ _ Ps) as Vs.
  pose proof (Date_parse_valid _ _ Pe) as Ve.
  unfold getDaysToDisplay, calculateDaysDifference. rewrite Ps, Pe.
  cbn [Date_sub floorDivMsPerDay].
  replace ((de * msPerDay - ds * msPerDay) / msPerDay + 1) with (de - ds + 1)
    by (rewrite M; lia).
  destruct (Z.to_nat (de - ds + 1)) as [| n] eqn:N; [reflexivity |].
  rewrite <- N, <- (TimeClip_valid _ Vs), (daysLoop_spec tz (de * msPerDay)).
  - cbn [app]. f_equal. apply map_ext. intros i. unfold isoDate. f_equal.
    unfold Day. rewrite M. lia.
  - exact St.
  - intros i Hi. unfold maxTime in *. rewrite M in *. lia.
  - rewrite M. lia.
Qed.

Lemma canonical_year_bounds d :
  0 <= YearFromDay d <= 9999 -> -719528 <= d <= 2932896.
Proof.
  intros Y. pose proof (YearFromDay_spec d) as [L U].
  pose proof (DayFromYear_mono 0 (YearFromDay d) ltac:(lia)) as M1.
  pose proof (DayFromYear_mono (YearFromDay d + 1) 10000 ltac:(lia)) as M2.
  change (DayFromYear 0) with (-719528) in M1.
  change (DayFromYear 10000) with 2932897 in M2. lia.
Qed.

Lemma isCanonicalDate_isoDateOfDay d :
  0 <= YearFromDay d <= 9999 ->
  isCanonicalDate (isoDateOfDay d) = true /\ dayNum (isoDateOfDay d) = d.
Proof.
  intros Y. pose proof (canonical_year_bounds d Y) as B.
  pose proof msPerDay_eq as M.
  assert (P : getDateFromString (isoDateOfDay d) = Some (d * msPerDay)).
  { rewrite getDateFromString_isoDateOfDay by lia.
    apply TimeClip_valid. unfold maxTime. rewrite M. lia. }
  unfold isCanonicalDate, dayNum. rewrite P. unfold isoDate.
  rewrite Day_of_midnight, String.eqb_refl, length_isoDateOfDay.
  replace ((0 <=? YearFromDay d) && (YearFromDay d <=? 9999)) with true
    by (symmetry; apply andb_true_intro; split; apply Z.leb_le; lia).
  auto.
Qed.

Lemma isCanonicalDate_between a b d :
  isCanonicalDate a = true -> isCanonicalDate b = true ->
  dayNum a <= d <= dayNum b -> 0 <= YearFromDay d <= 9999.
Proof.
  intros Ca Cb B.
  destruct (isCanonicalDate_dayNum a Ca) as [_ [Ya _]].
  destruct (isCanonicalDate_dayNum b Cb) as [_ [Yb _]].
  pose proof (YearFromDay_mono (dayNum a) d ltac:(lia)).
  pose proof (YearFromDay_mono d (dayNum b) ltac:(lia)). lia.
Qed.

(** X12. [getDaysToDisplay] on any host returns no day when a date of
    the habit does not parse, and whenever it returns, it returns one
    string per day of the inclusive span (none when the end is before the
    start).  On a host whose offset does not change between the two dates
    it returns, without throwing, and the string at index [i] is [i] days
    after the start. *)
Theorem getDaysToDisplay_returns (tz : TimeZone) (h : Habit) :
  (calculateDaysDifference (startDate h) (endDate h) = NaN ->
   getDaysToDisplay tz h = Returned [])
  /\ (forall n days,
        calculateDaysDifference (startDate h) (endDate h) = Int n ->
        getDaysToDisplay tz h = Returned days ->
        List.length days = Z.to_nat (n + 1))
  /\ (forall ts te,
        getDateFromString (startDate h) = Some ts ->
        getDateFromString (endDate h) = Some te ->
        steady tz ts te ->
        exists days,
          getDaysToDisplay tz h = Returned days
          /\ forall i s, nth_error days i = Some s ->
               calculateDaysDifference (startDate h) s = Int (Z.of_nat i)).
Proof.
  split; [| split].
  - intros E. unfold getDaysToDisplay. rewrite E. reflexivity.
  - intros n days E G. unfold getDaysToDisplay in G. rewrite E in G.
    apply daysLoop_length in G. exact G.
  - intros ts te Ps' Pe' St.
    destruct (getDateFromString_midnight _ _ Ps') as [ds ->].
    destruct (getDateFromString_midnight _ _ Pe') as [de ->].
    pose proof Ps' as Ps. pose proof Pe' as Pe.
    eexists. split; [apply (getDaysToDisplay_days tz h ds de Ps Pe St) |].
    intros i s N. rewrite nth_error_map in N.
    destruct (nth_error (seq 0 (Z.to_nat (de - ds + 1))) i) as [j |] eqn:J;
      [| discriminate].
    cbn [option_map] in N. inversion N; subst s. clear N.
    assert (Li : (i < Z.to_nat (de - ds + 1))%nat).
    { assert (N' : nth_error (seq 0 (Z.to_nat (de - ds + 1))) i <> None)
        by (rewrite J; discriminate).
      apply nth_error_Some in N'. rewrite length_seq in N'. exact N'. }
    rewrite nth_error_seq in J.
    apply Nat.ltb_lt in Li. rewrite Li in J. apply Nat.ltb_lt in Li.
    injection J as <-. cbn [Nat.add].
    pose proof msPerDay_eq as M.
    pose proof (Date_parse_valid _ _ Ps) as Vs.
    pose proof (Date_parse_valid _ _ Pe) as Ve.
    assert (V : Z.abs ((ds + Z.of_nat i) * msPerDay) <= maxTime)
      by (unfold maxTime in *; rewrite M in *; lia).
    pose proof (getDateFromString_isoDate _ V) as P.
    unfold isoDate in P. rewrite Day_of_midnight in P.
    unfold calculateDaysDifference. rewrite Ps, P.
    cbn [Date_sub floorDivMsPerDay]. f_equal. rewrite M. lia.
Qed.

(** Across the change of the offset in New York the display repeats a day
    and does not reach the end date. *)
Example getDaysToDisplay_newYork_march :
  getDaysToDisplay newYork2024
    {| id := "7"; name := "Walk";
       startDate := "2024-03-08"; endDate := "2024-03-12";
       createdAt := "2024-03-01T08:00:00.000Z";
       completionDates := Some [] |}
  = Returned ["2024-03-08"; "2024-03-09"; "2024-03-10"; "2024-03-10";
              "2024-03-11"].
Proof. vm_compute. reflexivity. Qed.

Lemma getDaysToDisplay_canonical tz h :
  isCanonicalDate (startDate h) = true -> isCanonicalDate (endDate h) = true ->
  steady tz (dayNum (startDate h) * msPerDay) (dayNum (endDate h) * msPerDay) ->
  getDaysToDisplay tz h
  = Returned (map (fun i => isoDateOfDay (dayNum (startDate h) + Z.of_nat i))
                  (seq 0 (Z.to_nat (dayNum (endDate h) - dayNum (startDate h) + 1)))).
Proof.
  intros Cs Ce St.
  destruct (isCanonicalDate_dayNum _ Cs) as [_ [_ Ps]].
  destruct (isCanonicalDate_dayNum _ Ce) as [_ [_ Pe]].
  apply getDaysToDisplay_days; assumption.
Qed.

Lemma In_getDaysToDisplay tz h days s :
  isCanonicalDate (startDate h) = true -> isCanonicalDate (endDate h) = true ->
  steady tz (dayNum (startDate h) * msPerDay) (dayNum (endDate h) * msPerDay) ->
  getDaysToDisplay tz h = Returned days ->
  (In s days <-> isCanonicalDate s = true /\ isDateWithinRange h s = true).
Proof.
  intros Cs Ce St G. rewrite (getDaysToDisplay_canonical tz h Cs Ce St) in G.
  inversion G; subst days. clear G.
  set (ds := dayNum (startDate h)). set (de := dayNum (endDate h)).
  rewrite in_map_iff. split.
  - intros [i [<- I]]. apply in_seq in I.
    assert (Y : 0 <= YearFromDay (ds + Z.of_nat i) <= 9999)
      by (apply (isCanonicalDate_between _ _ _ Cs Ce); unfold ds, de in *; lia).
    destruct (isCanonicalDate_isoDateOfDay _ Y) as [C D].
    split; [exact C |]. unfold isDateWithinRange.
    rewrite (canonical_leb _ _ Cs C), (canonical_leb _ _ C Ce), D.
    apply andb_true_intro. split; apply Z.leb_le; unfold ds, de in *; lia.
  - intros [C R]. unfold isDateWithinRange in R.
    rewrite (canonical_leb _ _ Cs C), (canonical_leb _ _ C Ce) in R.
    apply andb_true_iff in R. destruct R as [R1 R2].
    apply Z.leb_le in R1, R2. fold ds in R1. fold de in R2.
    exists (Z.to_nat (dayNum s - ds)). split.
    + rewrite Z2Nat.id by lia. replace (ds + (dayNum s - ds)) with (dayNum s) by lia.
      symmetry. apply (isCanonicalDate_dayNum s C).
    + apply in_seq. lia.
Qed.

(** X13. For a habit whose two dates are canonical, on a host whose
    offset does not change between them, the days to display are exactly
    the canonical date strings in range: each of them once, in ascending
    order, as many as the inclusive span has days, from the start date to
    the end date. *)
Theorem getDaysToDisplay_is_the_range (tz : TimeZone) (h : Habit) :
  isCanonicalDate (startDate h) = true ->
  isCanonicalDate (endDate h) = true ->
  steady tz (dayNum (startDate h) * msPerDay) (dayNum (endDate h) * msPerDay) ->
  exists days,
    getDaysToDisplay tz h = Returned days
    /\ (forall s, In s days
                  <-> isCanonicalDate s = true /\ isDateWithinRange h s = true)
    /\ NoDup days
    /\ StronglySorted sle days
    /\ List.length days
       = Z.to_nat (dayNum (endDate h) - dayNum (startDate h) + 1)
    /\ (dayNum (startDate h) <= dayNum (endDate h) ->
        hd_error days = Some (startDate h)
        /\ List.last days "" = endDate h).
Proof.
  intros Cs Ce St. pose proof (getDaysToDisplay_canonical tz h Cs Ce St) as G.
  set (ds := dayNum (startDate h)) in *. set (de := dayNum (endDate h)) in *.
  eexists. split; [exact G |]. split; [| split; [| split; [| split]]].
  - intros s. apply (In_getDaysToDisplay tz h _ s Cs Ce St G).
  - apply NoDup_map_NoDup_ForallPairs; [| apply seq_NoDup].
    intros i j Hi Hj E. apply in_seq in Hi, Hj.
    assert (Yi : 0 <= YearFromDay (ds + Z.of_nat i) <= 9999)
      by (apply (isCanonicalDate_between _ _ _ Cs Ce); unfold ds, de in *; lia).
    assert (Yj : 0 <= YearFromDay (ds + Z.of_nat j) <= 9999)
      by (apply (isCanonicalDate_between _ _ _ Cs Ce); unfold ds, de in *; lia).
    pose proof (proj2 (isCanonicalDate_isoDateOfDay _ Yi)) as Di.
    pose proof (proj2 (isCanonicalDate_isoDateOfDay _ Yj)) as Dj.
    rewrite E, Dj in Di. lia.
  - assert (A : forall n k, (k + n <= Z.to_nat (de - ds + 1))%nat ->
              StronglySorted sle
                (map (fun i => isoDateOfDay (ds + Z.of_nat i)) (seq k n))).
    { induction n as [| n IH]; intros k B; cbn [seq map]; constructor.
      - apply IH. lia.
      - apply Forall_forall. intros s I. apply in_map_iff in I.
        destruct I as [j [<- I]]. apply in_seq in I.
        assert (Yk : 0 <= YearFromDay (ds + Z.of_nat k) <= 9999)
          by (apply (isCanonicalDate_between _ _ _ Cs Ce); unfold ds, de in *; lia).
        assert (Yj : 0 <= YearFromDay (ds + Z.of_nat j) <= 9999)
          by (apply (isCanonicalDate_between _ _ _ Cs Ce); unfold ds, de in *; lia).
        apply sle_iff. rewrite (isoDateOfDay_compare _ _ Yk Yj).
        intros C. apply Z.compare_gt_iff in C. lia. }
    apply A. lia.
  - rewrite length_map, length_seq. reflexivity.
  - intros L.
    assert (N : Z.to_nat (de - ds + 1) = S (Z.to_nat (de - ds))) by lia.
    rewrite N. split.
    + cbn [seq map hd_error]. f_equal.
      replace (ds + Z.of_nat 0) with ds by lia.
      symmetry. apply (isCanonicalDate_dayNum _ Cs).
    + rewrite seq_S, map_app. cbn [map Nat.add]. rewrite last_last.
      rewrite Z2Nat.id by lia. replace (ds + (de - ds)) with de by lia.
      symmetry. apply (isCanonicalDate_dayNum _ Ce).
Qed.

Lemma getDaysToDisplay_is_the_range_witness :
  exists days,
    getDaysToDisplay newYork2024 scenarioA = Returned days
    /\ (forall s, In s days
                  <-> isCanonicalDate s = true /\ isDateWithinRange scenarioA s = true)
    /\ NoDup days
    /\ StronglySorted sle days
    /\ List.length days
       = Z.to_nat (dayNum (endDate scenarioA) - dayNum (startDate scenarioA) + 1)
    /\ (dayNum (startDate scenarioA) <= dayNum (endDate scenarioA) ->
        hd_error days = Some (startDate scenarioA)
        /\ List.last days "" = endDate scenarioA).
Proof.
  apply (getDaysToDisplay_is_the_range newYork2024 scenarioA).
  - vm_compute; reflexivity.
  - vm_compute; reflexivity.
  - apply steady_newYork2024_winter. vm_compute. reflexivity.
Defined.

(* ================================================================== *)
(** * Relations between the statistics *)

Lemma list_max_length_concat {A} (ll : list (list A)) :
  (list_max (map (@List.length A) ll) <= List.length (List.concat ll))%nat.
Proof.
  induction ll as [| l ll IH]; [apply Nat.le_refl |].
  unfold list_max in *. cbn [map fold_right List.concat].
  rewrite length_app. lia.
Qed.

Lemma longestRun_le_length l : (longestRun l <= List.length l)%nat.
Proof.
  pose proof (list_max_length_concat (runs l)) as L.
  rewrite concat_runs in L. exact L.
Qed.

(** X14. No streak exceeds the total: for every record, duplicates and
    malformed dates included, the longest streak is at most the number of
    completed days, which is at most the number of stored dates; on a host
    whose offset does not change during the days walked, a current streak
    that is returned is at most the total as well; and the longest streak
    is zero exactly when the total is. *)
Theorem streaks_bounded_by_total (tz : TimeZone) (h : Habit) (now : Instant) :
  (calculateLongestStreak h <= calculateTotalCompleted h)%nat
  /\ (calculateTotalCompleted h <= List.length (datesOf h))%nat
  /\ (steady tz (timeValue now
                 - Z.of_nat (calculateTotalCompleted h) * msPerDay)
                (timeValue now) ->
      forall k, calculateCurrentStreak tz h now = Returned k ->
                (k <= calculateTotalCompleted h)%nat)
  /\ (calculateLongestStreak h = 0%nat <-> calculateTotalCompleted h = 0%nat).
Proof.
  rewrite calculateLongestStreak_longestRun, calculateTotalCompleted_datesOf.
  set (F := filter (isDateWithinRange h) (datesOf h)).
  assert (LS : List.length (sort F) = List.length F)
    by (symmetry; apply Permutation_length, sort_perm).
  split; [| split; [| split]].
  - rewrite <- LS. apply longestRun_le_length.
  - apply filter_length_le.
  - intros St k E.
    destruct (calculateCurrentStreak_steady tz h now St) as [k' [Hk [_ Res]]].
    destruct Res as [[E' _] | [E' _]]; rewrite E' in E; [| discriminate].
    inversion E; subst k'. exact Hk.
  - rewrite longestRun_zero, <- LS. split.
    + intros ->. reflexivity.
    + apply length_zero_iff_nil.
Qed.

(* ------------------------------------------------------------------ *)
(** ** Dates out of range *)

Lemma filter_spliceFirst_false (f : string -> bool) x l :
  f x = false -> filter f (spliceFirst x l) = filter f l.
Proof.
  intros Fx. induction l as [| y l IH]; [reflexivity |].
  cbn [spliceFirst]. destruct (String.eqb_spec y x) as [E | E].
  - subst y. cbn [filter]. rewrite Fx. reflexivity.
  - cbn [filter]. rewrite IH. reflexivity.
Qed.

Lemma length_spliceFirst x l :
  In x l -> S (List.length (spliceFirst x l)) = List.length l.
Proof.
  induction l as [| y l IH]; intros I; [destruct I |].
  cbn [spliceFirst]. destruct (String.eqb_spec y x) as [E | E]; [reflexivity |].
  cbn [List.length]. rewrite IH; [reflexivity |].
  destruct I as [I | I]; [congruence | exact I].
Qed.

Lemma filter_toggleDate_out h d :
  isDateWithinRange h d = false ->
  filter (isDateWithinRange (toggleDate h d)) (datesOf (toggleDate h d))
  = filter (isDateWithinRange h) (datesOf h).
Proof.
  intros R. rewrite datesOf_toggleDate.
  change (isDateWithinRange (toggleDate h d)) with (isDateWithinRange h).
  destruct (includes (datesOf h) d).
  - apply filter_spliceFirst_false, R.
  - rewrite filter_app. cbn [filter]. rewrite R. apply app_nil_r.
Qed.

Lemma isHabitCompletedOnDate_toggleDate_other h d s :
  s <> d ->
  isHabitCompletedOnDate (toggleDate h d) s = isHabitCompletedOnDate h s.
Proof.
  intros O. apply eq_true_iff_eq.
  rewrite !isHabitCompletedOnDate_In, datesOf_toggleDate.
  destruct (includes (datesOf h) d).
  - apply In_spliceFirst_other, O.
  - rewrite in_app_iff. cbn [In]. split; [| tauto].
    intros [I | [E' | []]]; [exact I | congruence].
Qed.

Lemma calculateCurrentStreak_toggleDate_out tz h d now :
  isDateWithinRange h d = false ->
  calculateCurrentStreak tz (toggleDate h d) now = calculateCurrentStreak tz h now.
Proof.
  intros R. apply calculateCurrentStreak_ext; [reflexivity |].
  intros s Rs. apply isHabitCompletedOnDate_toggleDate_other.
  intros ->. congruence.
Qed.

(** X15. The statistics are clipped to the range.  [toggleHabitCompletion]
    has no range test of its own: called with a date outside the range of
    the habit found, it does change the stored array, by one entry, and no
    statistic of the habit moves: total, longest streak, percentage and
    current streak at any time are what they were. *)
Theorem out_of_range_toggle_changes_no_statistic
  (habits : list Habit) (habitId dateStr : string) (h : Habit) :
  findHabit habitId habits = Some h ->
  isDateWithinRange h dateStr = false ->
  exists h',
    findHabit habitId (toggleHabitCompletion habitId dateStr habits) = Some h'
    /\ (List.length (datesOf h') = S (List.length (datesOf h))
        \/ S (List.length (datesOf h')) = List.length (datesOf h))
    /\ calculateTotalCompleted h' = calculateTotalCompleted h
    /\ calculateLongestStreak h' = calculateLongestStreak h
    /\ calculateCompletionPercentage h' = calculateCompletionPercentage h
    /\ (forall tz now,
          calculateCurrentStreak tz h' now = calculateCurrentStreak tz h now).
Proof.
  intros F R.
  destruct (toggleHabitCompletion_found habitId dateStr habits h F)
    as [before [after [E [N [Ei T]]]]].
  assert (Tot : calculateTotalCompleted (toggleDate h dateStr)
                = calculateTotalCompleted h)
    by (rewrite !calculateTotalCompleted_datesOf, filter_toggleDate_out; trivial).
  exists (toggleDate h dateStr). split; [| split; [| split; [| split; [| split]]]].
  - rewrite T. apply findHabit_app_first; trivial.
  - rewrite datesOf_toggleDate. destruct (includes (datesOf h) dateStr) eqn:I.
    + right. apply includes_In in I. apply (length_spliceFirst _ _ I).
    + left. rewrite length_app. cbn [List.length]. lia.
  - exact Tot.
  - rewrite !calculateLongestStreak_longestRun, filter_toggleDate_out; trivial.
  - unfold calculateCompletionPercentage. rewrite Tot. reflexivity.
  - intros tz now. apply calculateCurrentStreak_toggleDate_out, R.
Qed.

Lemma out_of_range_toggle_changes_no_statistic_witness :
  exists h',
    findHabit "1" (toggleHabitCompletion "1" "2024-02-01" [legacyHabit; scenarioA])
    = Some h'
    /\ (List.length (datesOf h') = S (List.length (datesOf scenarioA))
        \/ S (List.length (datesOf h')) = List.length (datesOf scenarioA))
    /\ calculateTotalCompleted h' = calculateTotalCompleted scenarioA
    /\ calculateLongestStreak h' = calculateLongestStreak scenarioA
    /\ calculateCompletionPercentage h' = calculateCompletionPercentage scenarioA
    /\ (forall tz now, calculateCurrentStreak tz h' now
                       = calculateCurrentStreak tz scenarioA now).
Proof.
  apply (out_of_range_toggle_changes_no_statistic
           [legacyHabit; scenarioA] "1" "2024-02-01" scenarioA);
    reflexivity.
Defined.

(* ------------------------------------------------------------------ *)
(** ** The total and the span *)

(** X16. For a habit that the validator admits, with canonical dates and
    with completion dates in range that are canonical and distinct, on a
    host whose offset does not change between the two dates: the display
    has between 2 and 91 days, the total is at most that number and reaches
    it exactly when every displayed day is completed, and then the
    percentage is 100. *)
Theorem total_within_span (tz : TimeZone) (h : Habit) :
  isCanonicalDate (startDate h) = true ->
  isCanonicalDate (endDate h) = true ->
  valid (validateDateRange (startDate h) (endDate h)) = true ->
  NoDup (filter (isDateWithinRange h) (datesOf h)) ->
  Forall (fun s => isCanonicalDate s = true)
         (filter (isDateWithinRange h) (datesOf h)) ->
  steady tz (dayNum (startDate h) * msPerDay) (dayNum (endDate h) * msPerDay) ->
  exists days,
    getDaysToDisplay tz h = Returned days
    /\ (2 <= List.length days <= 91)%nat
    /\ (calculateTotalCompleted h <= List.length days)%nat
    /\ (calculateTotalCompleted h = List.length days
        <-> forall s, In s days -> isHabitCompletedOnDate h s = true)
    /\ (calculateTotalCompleted h = List.length days ->
        calculateCompletionPercentage h = Int 100).
Proof.
  intros Cs Ce V N C St.
  destruct (validateDateRange_valid _ _ Cs Ce V) as [_ B].
  unfold MAX_HABIT_DURATION_DAYS in B.
  destruct (calculateDaysDifference_canonical _ _ Cs Ce) as [D _].
  pose proof (getDaysToDisplay_canonical tz h Cs Ce St) as G.
  set (n := dayNum (endDate h) - dayNum (startDate h)) in *.
  set (days := map (fun i => isoDateOfDay (dayNum (startDate h) + Z.of_nat i))
                   (seq 0 (Z.to_nat (n + 1)))) in *.
  assert (Ld : List.length days = Z.to_nat (n + 1))
    by (unfold days; rewrite length_map, length_seq; reflexivity).
  assert (M : forall s, In s days
                <-> isCanonicalDate s = true /\ isDateWithinRange h s = true)
    by (intros s; apply (In_getDaysToDisplay tz h days s Cs Ce St G)).
  assert (Nd : NoDup days).
  { unfold days. apply NoDup_map_NoDup_ForallPairs; [| apply seq_NoDup].
    intros i j Hi Hj E. apply in_seq in Hi, Hj.
    assert (Yi : 0 <= YearFromDay (dayNum (startDate h) + Z.of_nat i) <= 9999)
      by (apply (isCanonicalDate_between _ _ _ Cs Ce); unfold n in *; lia).
    assert (Yj : 0 <= YearFromDay (dayNum (startDate h) + Z.of_nat j) <= 9999)
      by (apply (isCanonicalDate_between _ _ _ Cs Ce); unfold n in *; lia).
    pose proof (proj2 (isCanonicalDate_isoDateOfDay _ Yi)) as Di.
    pose proof (proj2 (isCanonicalDate_isoDateOfDay _ Yj)) as Dj.
    rewrite E, Dj in Di. lia. }
  set (F := filter (isDateWithinRange h) (datesOf h)) in *.
  assert (I : incl F days).
  { intros s Hs. apply M. split.
    - rewrite Forall_forall in C. apply C, Hs.
    - apply filter_In in Hs. apply Hs. }
  pose proof (NoDup_incl_length N I) as L.
  assert (Eq : List.length F = List.length days
               <-> forall s, In s days -> isHabitCompletedOnDate h s = true).
  { split.
    - intros E s Hs.
      assert (I' : incl days F) by (apply (NoDup_length_incl N); [lia | exact I]).
      apply I' in Hs. apply filter_In in Hs.
      apply isHabitCompletedOnDate_In, Hs.
    - intros A.
      assert (I' : incl days F).
      { intros s Hs. apply filter_In. split.
        - apply isHabitCompletedOnDate_In, A, Hs.
        - apply M, Hs. }
      pose proof (NoDup_incl_length Nd I'). lia. }
  exists days. rewrite calculateTotalCompleted_datesOf. fold F.
  split; [exact G |]. split; [lia |]. split; [exact L |]. split; [exact Eq |].
  intros E. rewrite (calculateCompletionPercentage_Int h n D).
  rewrite calculateTotalCompleted_datesOf. fold F. rewrite E, Ld.
  rewrite Z2Nat.id by lia.
  destruct (Z.eqb_spec (n + 1) 0) as [Z0 | _]; [lia |].
  apply doublePercentage_full; lia.
Qed.

Lemma total_within_span_witness :
  exists days,
    getDaysToDisplay newYork2024 scenarioA = Returned days
    /\ (2 <= List.length days <= 91)%nat
    /\ (calculateTotalCompleted scenarioA <= List.length days)%nat
    /\ (calculateTotalCompleted scenarioA = List.length days
        <-> forall s, In s days -> isHabitCompletedOnDate scenarioA s = true)
    /\ (calculateTotalCompleted scenarioA = List.length days ->
        calculateCompletionPercentage scenarioA = Int 100).
Proof.
  assert (E : filter (isDateWithinRange scenarioA) (datesOf scenarioA)
              = datesOf scenarioA) by (vm_compute; reflexivity).
  apply (total_within_span newYork2024 scenarioA).
  - vm_compute; reflexivity.
  - vm_compute; reflexivity.
  - vm_compute; reflexivity.
  - rewrite E. unfold scenarioA, datesOf. cbn [completionDates].
    repeat constructor; cbn [In]; intros H;
      repeat (destruct H as [H | H]; [discriminate |]); exact H.
  - rewrite E. unfold scenarioA, datesOf. cbn [completionDates].
    repeat constructor.
  - apply steady_newYork2024_winter. vm_compute. reflexivity.
Defined.

(* ------------------------------------------------------------------ *)
(** ** Status, streak and the checkbox of today *)

Lemma getHabitStatus_active h now :
  getHabitStatus h now = active
  <-> isDateWithinRange h (getTodayDateString now) = true.
Proof.
  unfold getHabitStatus, isDateWithinRange. rewrite !String_ltb_leb.
  destruct (startDate h <=? getTodayDateString now)%string;
    destruct (getTodayDateString now <=? endDate h)%string;
    cbn [negb andb]; split; intros E; try reflexivity; discriminate.
Qed.

(** X17. When the two readings of the clock by [renderHabit] fall on the
    same day, the checkbox of today can be used exactly when today is in
    range: the test [status === 'active'] beside it adds nothing, because a
    habit is active exactly when today is in its range.  And the current
    streak is 0 for a habit that is not active and for one whose day of
    today is not completed; there is no day of grace. *)
Theorem today_checkbox_follows_range
  (tz : TimeZone) (h : Habit) (statusClock now : Instant) :
  getTodayDateString statusClock = getTodayDateString now ->
  canToggleToday h statusClock now
  = isDateWithinRange h (getTodayDateString now)
  /\ (getHabitStatus h now = active
      <-> isDateWithinRange h (getTodayDateString now) = true)
  /\ (getHabitStatus h now <> active ->
      calculateCurrentStreak tz h now = Returned 0%nat)
  /\ (isHabitCompletedOnDate h (getTodayDateString now) = false ->
      calculateCurrentStreak tz h now = Returned 0%nat)
  /\ (forall k, calculateCurrentStreak tz h now = Returned (S k) ->
        getHabitStatus h now = active
        /\ isHabitCompletedOnDate h (getTodayDateString now) = true).
Proof.
  intros Same. pose proof (getHabitStatus_active h now) as A.
  split; [| split; [exact A | split; [| split]]].
  - unfold canToggleToday.
    destruct (isDateWithinRange h (getTodayDateString now)) eqn:R; [| reflexivity].
    pose proof (getHabitStatus_active h statusClock) as A'.
    rewrite Same in A'. rewrite (proj2 A' R). reflexivity.
  - intros NA. apply calculateCurrentStreak_first.
    destruct (isDateWithinRange h (getTodayDateString now)); [| reflexivity].
    exfalso. apply NA, A. reflexivity.
  - intros NC. apply calculateCurrentStreak_first. rewrite NC. apply andb_false_r.
  - intros k E.
    destruct (isDateWithinRange h (getTodayDateString now)) eqn:R;
      destruct (isHabitCompletedOnDate h (getTodayDateString now)) eqn:C;
      try (rewrite calculateCurrentStreak_first in E
             by (rewrite R, C; reflexivity); discriminate).
    split; [apply A; reflexivity | reflexivity].
Qed.

Lemma today_checkbox_follows_range_witness :
  canToggleToday scenarioA midnight_2024_01_03 noon_2024_01_03
  = isDateWithinRange scenarioA (getTodayDateString noon_2024_01_03)
  /\ (getHabitStatus scenarioA noon_2024_01_03 = active
      <-> isDateWithinRange scenarioA (getTodayDateString noon_2024_01_03) = true)
  /\ (getHabitStatus scenarioA noon_2024_01_03 <> active ->
      calculateCurrentStreak newYork2024 scenarioA noon_2024_01_03 = Returned 0%nat)
  /\ (isHabitCompletedOnDate scenarioA (getTodayDateString noon_2024_01_03) = false ->
      calculateCurrentStreak newYork2024 scenarioA noon_2024_01_03 = Returned 0%nat)
  /\ (forall k,
        calculateCurrentStreak newYork2024 scenarioA noon_2024_01_03
        = Returned (S k) ->
        getHabitStatus scenarioA noon_2024_01_03 = active
        /\ isHabitCompletedOnDate scenarioA (getTodayDateString noon_2024_01_03)
           = true).
Proof.
  apply (today_checkbox_follows_range
           newYork2024 scenarioA midnight_2024_01_03 noon_2024_01_03).
  vm_compute. reflexivity.
Defined.

Lemma getTodayDateString_mono now1 now2 :
  isCanonicalDate (getTodayDateString now1) = true ->
  isCanonicalDate (getTodayDateString now2) = true ->
  timeValue now1 <= timeValue now2 ->
  sle (getTodayDateString now1) (getTodayDateString now2).
Proof.
  intros C1 C2 L. unfold sle. rewrite (canonical_leb _ _ C1 C2).
  unfold getTodayDateString.
  rewrite !dayNum_isoDate by apply Instant_valid.
  apply Z.leb_le. unfold Day. apply Z.div_le_mono; [reflexivity | exact L].
Qed.

(** X18. The status of a habit never goes back as the clock advances
    through the years 0000 to 9999: a habit that is active is not
    [not_started] at any later instant, and a habit that is completed stays
    completed.  This holds for every record, whatever its dates are. *)
Theorem status_never_goes_back (h : Habit) (now1 now2 : Instant) :
  isCanonicalDate (getTodayDateString now1) = true ->
  isCanonicalDate (getTodayDateString now2) = true ->
  timeValue now1 <= timeValue now2 ->
  (getHabitStatus h now1 = active -> getHabitStatus h now2 <> not_started)
  /\ (getHabitStatus h now1 = completed -> getHabitStatus h now2 = completed)
  /\ (getHabitStatus h now2 = not_started -> getHabitStatus h now1 = not_started).
Proof.
  intros C1 C2 L. pose proof (getTodayDateString_mono now1 now2 C1 C2 L) as M.
  unfold getHabitStatus. rewrite !String_ltb_leb.
  set (t1 := getTodayDateString now1) in *.
  set (t2 := getTodayDateString now2) in *.
  destruct (startDate h <=? t1)%string eqn:S1;
    destruct (startDate h <=? t2)%string eqn:S2;
    destruct (t1 <=? endDate h)%string eqn:E1;
    destruct (t2 <=? endDate h)%string eqn:E2;
    cbn [negb]; repeat split; intros X; try discriminate; try reflexivity;
    exfalso.
  all: try (pose proof (sle_trans _ _ _ S1 M) as T; unfold sle in T; congruence).
  all: try (pose proof (sle_trans _ _ _ M E2) as T; unfold sle in T; congruence).
Qed.

Lemma status_never_goes_back_witness :
  (getHabitStatus scenarioA midnight_2024_01_03 = active ->
   getHabitStatus scenarioA midnight_2024_01_15 <> not_started)
  /\ (getHabitStatus scenarioA midnight_2024_01_03 = completed ->
      getHabitStatus scenarioA midnight_2024_01_15 = completed)
  /\ (getHabitStatus scenarioA midnight_2024_01_15 = not_started ->
      getHabitStatus scenarioA midnight_2024_01_03 = not_started).
Proof.
  apply (status_never_goes_back scenarioA midnight_2024_01_03 midnight_2024_01_15).
  - vm_compute; reflexivity.
  - vm_compute; reflexivity.
  - vm_compute. discriminate.
Defined.

(* ================================================================== *)
(** * Creating habits *)

Lemma digitChar_not_T n : Ascii.eqb (digitChar n) "T" = false.
Proof.
  apply Ascii.eqb_neq. intros E. apply (f_equal N_of_ascii) in E.
  rewrite N_of_digitChar in E. change (N_of_ascii "T") with 84%N in E. lia.
Qed.

Lemma beforeT_padStart w : forall n rest,
  beforeT (padStart w n rest) = padStart w n (beforeT rest).
Proof.
  induction w as [| w IH]; intros n rest; cbn [padStart]; [reflexivity |].
  rewrite IH. cbn [beforeT]. rewrite digitChar_not_T. reflexivity.
Qed.

Lemma beforeT_yearString y rest :
  beforeT (yearString y rest) = yearString y (beforeT rest).
Proof.
  unfold yearString. destruct ((0 <=? y) && (y <=? 9999)).
  - apply beforeT_padStart.
  - destruct (0 <=? y); cbn [beforeT Ascii.eqb Bool.eqb];
      rewrite beforeT_padStart; reflexivity.
Qed.

(** The part of [toISOString] before its [T] is the date. *)
Lemma beforeT_toISOString t : beforeT (toISOString t) = isoDate t.
Proof.
  unfold toISOString, isoDate, isoDateOfDay.
  rewrite yearString_append. cbn [String.append].
  rewrite padStart_append. cbn [String.append].
  rewrite padStart_append. cbn [String.append].
  rewrite beforeT_yearString. cbn [beforeT Ascii.eqb Bool.eqb].
  rewrite beforeT_padStart. cbn [beforeT Ascii.eqb Bool.eqb].
  rewrite beforeT_padStart. cbn [beforeT Ascii.eqb Bool.eqb].
  reflexivity.
Qed.

Lemma validateDateRange_error_nonempty startDateStr endDateStr :
  valid (validateDateRange startDateStr endDateStr) = false ->
  error (validateDateRange startDateStr endDateStr) <> "".
Proof.
  unfold validateDateRange.
  destruct (Date_le (getDateFromString endDateStr) (getDateFromString startDateStr));
    [intros _; discriminate |].
  destruct (Number_gt (calculateDaysDifference startDateStr endDateStr)
              (Int MAX_HABIT_DURATION_DAYS)); cbn [valid error];
    [| discriminate].
  intros _. cbn [String.append]. discriminate.
Qed.

Lemma Z_to_int_not_nil z :
  Z.to_int z <> Decimal.Pos Decimal.Nil /\ Z.to_int z <> Decimal.Neg Decimal.Nil.
Proof.
  split; intros E; pose proof (DecimalZ.of_to z) as O; rewrite E in O;
    cbn in O; subst z; discriminate E.
Qed.

(** The decimal forms of two integers differ when the integers do. *)
Lemma Number_toString_Int_inj a b :
  Number_toString (Int a) = Number_toString (Int b) -> a = b.
Proof.
  cbn [Number_toString]. intros E.
  apply (f_equal NilZero.int_of_string) in E.
  destruct (Z_to_int_not_nil a) as [A1 A2]. destruct (Z_to_int_not_nil b) as [B1 B2].
  rewrite !NilZero.isi in E by assumption.
  inversion E as [E']. apply DecimalZ.to_int_inj, E'.
Qed.

Lemma deleteHabit_fresh habitId habits :
  (forall x, In x habits -> id x <> habitId) -> deleteHabit habitId habits = habits.
Proof.
  unfold deleteHabit. induction habits as [| x rest IH]; intros N; [reflexivity |].
  cbn [filter]. rewrite (proj2 (String.eqb_neq _ _) (N x (or_introl eq_refl))).
  cbn [negb]. rewrite IH; [reflexivity |]. intros y I. apply N. right. exact I.
Qed.

Lemma toggleHabitCompletion_app_fresh habitId dateStr habits rest :
  (forall x, In x habits -> id x <> habitId) ->
  toggleHabitCompletion habitId dateStr (habits ++ rest)
  = habits ++ toggleHabitCompletion habitId dateStr rest.
Proof.
  induction habits as [| x habits IH]; intros N; [reflexivity |].
  cbn [app toggleHabitCompletion].
  rewrite (proj2 (String.eqb_neq _ _) (N x (or_introl eq_refl))).
  rewrite IH; [reflexivity |]. intros y I. apply N. right. exact I.
Qed.

Lemma createHabit_Created name startDateStr endDateStr idClock createdClock habits h store :
  createHabit name startDateStr endDateStr idClock createdClock habits
  = (Created h, store) ->
  store = habits ++ [h]
  /\ id h = Number_toString (Int (timeValue idClock))
  /\ completionDates h = Some [].
Proof.
  unfold createHabit.
  destruct (valid (validateDateRange startDateStr endDateStr)); cbn [negb];
    intros E; inversion E; subst. auto.
Qed.

(** X19. What [createHabit] does.  A range that the validator rejects
    leaves the store as it is and comes back with a message that is not
    empty.  Otherwise one habit is appended to the store, with the two
    dates as given, the name trimmed and a creation stamp whose date part
    is the day of the clock; it has no completed day, so that total,
    longest streak and current streak are 0, and its percentage is 0, or
    NaN when one of the dates, which the validator let through, does not
    parse. *)
Theorem createHabit_outcome
  (name startDateStr endDateStr : string) (idClock createdClock : Instant)
  (habits : list Habit) :
  (valid (validateDateRange startDateStr endDateStr) = false ->
   createHabit name startDateStr endDateStr idClock createdClock habits
   = (Rejected (error (validateDateRange startDateStr endDateStr)), habits)
   /\ error (validateDateRange startDateStr endDateStr) <> "")
  /\ (valid (validateDateRange startDateStr endDateStr) = true ->
      exists h,
        createHabit name startDateStr endDateStr idClock createdClock habits
        = (Created h, habits ++ [h])
        /\ startDate h = startDateStr /\ endDate h = endDateStr
        /\ beforeT (createdAt h) = getTodayDateString createdClock
        /\ (forall dateStr, isHabitCompletedOnDate h dateStr = false)
        /\ calculateTotalCompleted h = 0%nat
        /\ calculateLongestStreak h = 0%nat
        /\ (forall tz now, calculateCurrentStreak tz h now = Returned 0%nat)
        /\ (calculateCompletionPercentage h = Int 0
            \/ (calculateDaysDifference startDateStr endDateStr = NaN
                /\ calculateCompletionPercentage h = NaN))).
Proof.
  split; intros V; unfold createHabit; rewrite V; cbn [negb].
  - split; [reflexivity | apply validateDateRange_error_nonempty, V].
  - eexists. split; [reflexivity |]. cbn [startDate endDate createdAt].
    split; [reflexivity |]. split; [reflexivity |].
    split; [apply beforeT_toISOString |].
    split; [reflexivity |]. split; [reflexivity |]. split; [reflexivity |].
    split; [intros tz now; apply calculateCurrentStreak_first; apply andb_false_r |].
    destruct (calculateDaysDifference_cases startDateStr endDateStr) as [E | [n E]].
    + right. split; [exact E |].
      unfold calculateCompletionPercentage. cbn [startDate endDate]. rewrite E.
      reflexivity.
    + left. erewrite calculateCompletionPercentage_Int by (cbn [startDate endDate]; exact E).
      destruct (Z.eqb_spec (n + 1) 0) as [Z0 | Z0]; [reflexivity |].
      destruct (calculateDaysDifference_Int _ _ _ E) as [ds [de [Ps [Pe ->]]]].
      pose proof (Date_parse_valid _ _ Ps) as Vs.
      pose proof (Date_parse_valid _ _ Pe) as Ve.
      pose proof msPerDay_eq as M.
      apply doublePercentage_zero; [exact Z0 |].
      unfold maxTime in *. rewrite M in *. lia.
Qed.

(** X20. A habit created under an id that no habit of the store has is the
    one that the id finds: a toggle of the id acts on it and on nothing
    else, and deleting the id gives back the store from before the
    creation. *)
Theorem created_habit_with_fresh_id
  (name startDateStr endDateStr : string) (idClock createdClock : Instant)
  (habits store : list Habit) (h : Habit) :
  createHabit name startDateStr endDateStr idClock createdClock habits
  = (Created h, store) ->
  (forall x, In x habits -> id x <> Number_toString (Int (timeValue idClock))) ->
  findHabit (id h) store = Some h
  /\ (forall dateStr,
        toggleHabitCompletion (id h) dateStr store = habits ++ [toggleDate h dateStr])
  /\ deleteHabit (id h) store = habits.
Proof.
  intros C N. destruct (createHabit_Created _ _ _ _ _ _ _ _ C) as [-> [Ei _]].
  rewrite <- Ei in N. split; [| split].
  - apply findHabit_app_first; trivial.
  - intros dateStr. rewrite toggleHabitCompletion_app_fresh by exact N.
    cbn [toggleHabitCompletion]. rewrite String.eqb_refl. reflexivity.
  - unfold deleteHabit. rewrite filter_app. fold (deleteHabit (id h) habits).
    rewrite (deleteHabit_fresh _ _ N). cbn [filter].
    rewrite String.eqb_refl. cbn [negb]. apply app_nil_r.
Qed.

Lemma created_habit_with_fresh_id_witness :
  let h := {| id := "1704283200000"; name := "Read";
              startDate := "2024-01-01"; endDate := "2024-01-22";
              createdAt := "2024-01-03T12:00:00.000Z";
              completionDates := Some [] |} in
  findHabit (id h) [scenarioA; h] = Some h
  /\ (forall dateStr,
        toggleHabitCompletion (id h) dateStr [scenarioA; h]
        = [scenarioA] ++ [toggleDate h dateStr])
  /\ deleteHabit (id h) [scenarioA; h] = [scenarioA].
Proof.
  intros h.
  apply (created_habit_with_fresh_id " Read " "2024-01-01" "2024-01-22"
           noon_2024_01_03 noon_2024_01_03 [scenarioA] [scenarioA; h] h).
  - vm_compute. reflexivity.
  - intros x [<- | []]. vm_compute. discriminate.
Defined.

(** X21. The id of a habit is the millisecond of its creation, so two
    habits get the same id exactly when they are created within the same
    millisecond.  Then the second one cannot be reached: the id finds the
    first, a toggle changes the first, and deleting the id removes both. *)
Theorem same_millisecond_ids_collide
  (name1 start1 end1 name2 start2 end2 : string)
  (idClock1 createdClock1 idClock2 createdClock2 : Instant)
  (habits store1 store2 : list Habit) (h1 h2 : Habit) :
  createHabit name1 start1 end1 idClock1 createdClock1 habits
  = (Created h1, store1) ->
  createHabit name2 start2 end2 idClock2 createdClock2 store1
  = (Created h2, store2) ->
  (id h1 = id h2 <-> timeValue idClock1 = timeValue idClock2)
  /\ (id h1 = id h2 ->
      (forall x, In x habits -> id x <> id h1) ->
      findHabit (id h2) store2 = Some h1
      /\ (forall dateStr,
            toggleHabitCompletion (id h2) dateStr store2
            = habits ++ [toggleDate h1 dateStr; h2])
      /\ deleteHabit (id h2) store2 = habits).
Proof.
  intros C1 C2.
  destruct (createHabit_Created _ _ _ _ _ _ _ _ C1) as [-> [E1 _]].
  destruct (createHabit_Created _ _ _ _ _ _ _ _ C2) as [-> [E2 _]].
  split.
  - rewrite E1, E2. split.
    + apply Number_toString_Int_inj.
    + intros ->. reflexivity.
  - intros E N. rewrite <- E. rewrite <- app_assoc. cbn [app].
    split; [| split].
    + apply findHabit_app_first; trivial.
    + intros dateStr. rewrite toggleHabitCompletion_app_fresh by exact N.
      cbn [toggleHabitCompletion]. rewrite String.eqb_refl. reflexivity.
    + unfold deleteHabit. rewrite filter_app. fold (deleteHabit (id h1) habits).
      rewrite (deleteHabit_fresh _ _ N). cbn [filter].
      rewrite <- E at 2. rewrite String.eqb_refl. cbn [negb]. apply app_nil_r.
Qed.

Lemma same_millisecond_ids_collide_witness :
  let h1 := {| id := "1704283200000"; name := "Read";
               startDate := "2024-01-01"; endDate := "2024-01-22";
               createdAt := "2024-01-03T12:00:00.000Z";
               completionDates := Some [] |} in
  let h2 := {| id := "1704283200000"; name := "Run";
               startDate := "2024-01-03"; endDate := "2024-01-10";
               createdAt := "2024-01-03T12:00:00.000Z";
               completionDates := Some [] |} in
  (id h1 = id h2 <-> timeValue noon_2024_01_03 = timeValue noon_2024_01_03)
  /\ (id h1 = id h2 ->
      (forall x, In x [scenarioA] -> id x <> id h1) ->
      findHabit (id h2) [scenarioA; h1; h2] = Some h1
      /\ (forall dateStr,
            toggleHabitCompletion (id h2) dateStr [scenarioA; h1; h2]
            = [scenarioA] ++ [toggleDate h1 dateStr; h2])
      /\ deleteHabit (id h2) [scenarioA; h1; h2] = [scenarioA]).
Proof.
  intros h1 h2.
  apply (same_millisecond_ids_collide "Read" "2024-01-01" "2024-01-22"
           "Run" "2024-01-03" "2024-01-10"
           noon_2024_01_03 noon_2024_01_03 noon_2024_01_03 noon_2024_01_03
           [scenarioA] [scenarioA; h1] [scenarioA; h1; h2] h1 h2).
  - vm_compute. reflexivity.
  - vm_compute. reflexivity.
Defined.

(* ------------------------------------------------------------------ *)
(** ** The form *)

Lemma startsClean_trimStart s : startsClean (trimStart s) = true.
Proof.
  induction s as [| c s IH]; [reflexivity |]. cbn [trimStart].
  destruct (isWhiteSpace c) eqn:W; [exact IH |]. cbn [startsClean]. rewrite W.
  reflexivity.
Qed.

Lemma trimStart_clean s : startsClean s = true -> trimStart s = s.
Proof.
  destruct s as [| c s]; [reflexivity |]. cbn [startsClean trimStart].
  destruct (isWhiteSpace c); [discriminate | reflexivity].
Qed.

Lemma startsClean_trimEnd s : startsClean s = true -> startsClean (trimEnd s) = true.
Proof.
  destruct s as [| c s]; [reflexivity |]. cbn [startsClean trimEnd]. intros W.
  destruct (trimEnd s); [| exact W].
  destruct (isWhiteSpace c) eqn:Wc; [discriminate |].
  cbn [startsClean]. rewrite Wc. reflexivity.
Qed.

Lemma trimEnd_idempotent s : trimEnd (trimEnd s) = trimEnd s.
Proof.
  induction s as [| c s IH]; [reflexivity |]. cbn [trimEnd].
  destruct (trimEnd s) as [| c' r] eqn:E.
  - destruct (isWhiteSpace c) eqn:W; [reflexivity |].
    cbn [trimEnd]. rewrite W. reflexivity.
  - cbn [trimEnd]. cbn [trimEnd] in IH.
    destruct (trimEnd r) as [| c'' r'] eqn:E'.
    + destruct (isWhiteSpace c'); [discriminate |]. rewrite IH. reflexivity.
    + rewrite IH. reflexivity.
Qed.

Lemma trim_idempotent s : trim (trim s) = trim s.
Proof.
  unfold trim.
  rewrite (trimStart_clean (trimEnd (trimStart s)))
    by apply startsClean_trimEnd, startsClean_trimStart.
  apply trimEnd_idempotent.
Qed.

(** X22. What the form adds.  The click on the confirm button either shows
    a message, which is not empty, and leaves the store as it is, or
    appends one habit: its name is the trimmed input, not empty and without
    white space at its start, its two dates are the inputs, neither of them
    empty, and the pair is one that the validator accepts. *)
Theorem confirmAdd_outcome
  (nameValue startValue endValue : string) (idClock createdClock : Instant)
  (habits : list Habit) :
  (exists message,
     confirmAdd nameValue startValue endValue idClock createdClock habits
     = (Shown message, habits)
     /\ message <> ""
     /\ (trim nameValue = "" \/ startValue = "" \/ endValue = ""
         \/ valid (validateDateRange startValue endValue) = false))
  \/ (exists h,
        confirmAdd nameValue startValue endValue idClock createdClock habits
        = (Added h, habits ++ [h])
        /\ name h = trim nameValue /\ name h <> ""
        /\ startsClean (name h) = true
        /\ startDate h = startValue /\ startValue <> ""
        /\ endDate h = endValue /\ endValue <> ""
        /\ valid (validateDateRange startValue endValue) = true).
Proof.
  unfold confirmAdd.
  destruct (String.eqb_spec (trim nameValue) "") as [N | N].
  { left. eexists. split; [reflexivity |]. split; [discriminate | auto]. }
  destruct (String.eqb_spec startValue "") as [S1 | S1]; cbn [orb].
  { left. eexists. split; [reflexivity |]. split; [discriminate | auto]. }
  destruct (String.eqb_spec endValue "") as [E1 | E1].
  { left. eexists. split; [reflexivity |]. split; [discriminate | auto]. }
  unfold createHabit.
  destruct (valid (validateDateRange startValue endValue)) eqn:V; cbn [negb].
  - right. eexists. split; [reflexivity |]. cbn [name startDate endDate].
    rewrite trim_idempotent.
    repeat split; trivial.
    apply startsClean_trimEnd, startsClean_trimStart.
  - left. eexists. split; [reflexivity |].
    split; [apply validateDateRange_error_nonempty, V | auto].
Qed.

(* ------------------------------------------------------------------ *)
(** ** The migration *)

Lemma orDefault_nonempty x d : d <> "" -> orDefault x d <> "".
Proof.
  unfold orDefault. intros D. destruct x as [s |]; [| exact D].
  destruct (String.eqb_spec s ""); assumption.
Qed.

Lemma orDefault_set v d : v <> "" -> orDefault (Some v) d = v.
Proof.
  unfold orDefault. intros N. destruct (String.eqb_spec v ""); [contradiction | reflexivity].
Qed.

Lemma Number_toString_Int_nonempty z : Number_toString (Int z) <> "".
Proof.
  cbn [Number_toString]. intros E.
  destruct (Z_to_int_not_nil z) as [A1 A2].
  pose proof (NilZero.isi _ A1 A2) as R. rewrite E in R. discriminate R.
Qed.

Lemma isoDate_nonempty t : isoDate t <> "".
Proof.
  unfold isoDate. intros E. pose proof (length_isoDateOfDay (Day t)) as L.
  rewrite E in L. cbn [String.length] in L.
  destruct ((0 <=? YearFromDay (Day t)) && (YearFromDay (Day t) <=? 9999));
    discriminate.
Qed.

Lemma toISOString_nonempty t : toISOString t <> "".
Proof.
  unfold toISOString. destruct (isoDate t); cbn [String.append]; discriminate.
Qed.

Lemma addDaysToDate_isoDate tz dateStr n r :
  addDaysToDate tz dateStr n = Returned r -> exists u, r = isoDate u.
Proof.
  intros A. destruct (addDaysToDate_inv _ _ _ _ A) as [t [u [_ [_ [_ E]]]]].
  exists u. exact E.
Qed.

(** The default end where the offset of the zone does not change during
    the 21 days from today. *)
Lemma default_range_steady tz now endDate :
  steady tz (Day (timeValue now) * msPerDay)
            (Day (timeValue now) * msPerDay + 21 * msPerDay) ->
  addDaysToDate tz (getTodayDateString now) 21 = Returned endDate ->
  calculateDaysDifference (getTodayDateString now) endDate = Int 21.
Proof.
  intros St A. pose proof (Instant_valid now) as Vn. pose proof msPerDay_eq as M.
  set (T := Day (timeValue now) * msPerDay) in *.
  assert (P : getDateFromString (getTodayDateString now) = Some T)
    by (apply getDateFromString_isoDate, Vn).
  destruct (addDaysToDate_inv _ _ _ _ A) as [t [u [P' [Eu [V E]]]]].
  assert (Et : t = T) by congruence. subst t. clear P'.
  pose proof (shiftWithin_steady tz _ _ T (T + 21 * msPerDay) St
                ltac:(rewrite M; lia) ltac:(rewrite M; lia)) as Q.
  replace (T + offsetAtUTC tz T + 21 * msPerDay)
    with (T + 21 * msPerDay + offsetAtUTC tz T) in Eu by lia.
  rewrite <- Q in Eu.
  assert (Eu' : u = T + 21 * msPerDay) by lia.
  subst u endDate. unfold calculateDaysDifference.
  rewrite P, (getDateFromString_isoDate _ V).
  cbn [Date_sub floorDivMsPerDay]. f_equal. unfold T, Day. rewrite M. lia.
Qed.

Lemma migrateFrom_nth_error today endDate idClock createdClock :
  forall habits i k s,
    nth_error habits k = Some s ->
    nth_error (migrateFrom i today endDate idClock createdClock habits) k
    = Some (migrateHabit today endDate (idClock (i + k)%nat)
              (createdClock (i + k)%nat) s).
Proof.
  induction habits as [| x rest IH]; intros i k s N; [destruct k; discriminate |].
  destruct k as [| k]; cbn [nth_error migrateFrom] in *.
  - inversion N; subst. rewrite Nat.add_0_r. reflexivity.
  - rewrite (IH (S i) k s N).
    replace (S i + k)%nat with (i + S k)%nat by lia. reflexivity.
Qed.

Lemma length_migrateFrom today endDate idClock createdClock :
  forall habits i,
    List.length (migrateFrom i today endDate idClock createdClock habits)
    = List.length habits.
Proof.
  induction habits as [| x rest IH]; intros i; [reflexivity |].
  cbn [migrateFrom List.length]. rewrite IH. reflexivity.
Qed.

Lemma migrateHabit_stored today later idClock createdClock h :
  id h <> "" -> name h <> "" -> startDate h <> "" -> endDate h <> "" ->
  createdAt h <> "" -> completionDates h <> None ->
  migrateHabit today later idClock createdClock (stored h) = h.
Proof.
  destruct h as [i n s e c d]. cbn [id name startDate endDate createdAt completionDates].
  intros Hi Hn Hs He Hc Hd. unfold migrateHabit, stored.
  cbn [storedId storedName storedStartDate storedEndDate storedCreatedAt
       storedCompletionDates id name startDate endDate createdAt completionDates].
  rewrite !orDefault_set by assumption.
  destruct d as [l |]; [reflexivity | contradiction].
Qed.

(** X23. What the migration leaves in the store, when it returns: as many
    records as before, in their order, each with every field set, the
    strings not empty and the completion dates an array.  A field that was
    set and not empty keeps its value.  A record without an end date gets
    what [addDaysToDate] returns for 21 days after today.  A record that
    had neither of its dates starts today, and on a host whose offsets
    differ by a day at most its end is 20, 21 or 22 days later, 21 where
    the offset does not change in between, and the validator accepts the
    range. *)
Theorem migrateHabits_completes_records
  (tz : TimeZone) (now : Instant) (idClock createdClock : nat -> Instant)
  (habits : list StoredHabit) (updated : list Habit) :
  migrateHabits tz now idClock createdClock habits = Returned updated ->
  List.length updated = List.length habits
  /\ forall i s, nth_error habits i = Some s ->
       exists h,
         nth_error updated i = Some h
         /\ (id h <> "" /\ name h <> "" /\ startDate h <> "" /\ endDate h <> ""
             /\ createdAt h <> "" /\ completionDates h <> None)
         /\ (forall v, v <> "" ->
               (storedId s = Some v -> id h = v)
               /\ (storedName s = Some v -> name h = v)
               /\ (storedStartDate s = Some v -> startDate h = v)
               /\ (storedEndDate s = Some v -> endDate h = v)
               /\ (storedCreatedAt s = Some v -> createdAt h = v))
         /\ (forall l, storedCompletionDates s = Some l ->
               completionDates h = Some l)
         /\ (storedCompletionDates s = None -> completionDates h = Some [])
         /\ (storedStartDate s = None ->
             startDate h = getTodayDateString now)
         /\ (storedEndDate s = None ->
             addDaysToDate tz (getTodayDateString now) 21
             = Returned (endDate h))
         /\ (storedStartDate s = None -> storedEndDate s = None ->
             shiftWithin tz msPerDay ->
             exists n,
               calculateDaysDifference (startDate h) (endDate h) = Int n
               /\ 20 <= n <= 22
               /\ (steady tz (Day (timeValue now) * msPerDay)
                             (Day (timeValue now) * msPerDay + 21 * msPerDay) ->
                   n = 21)
               /\ validateDateRange (startDate h) (endDate h)
                  = {| valid := true; error := "" |}).
Proof.
  unfold migrateHabits.
  destruct (addDaysToDate tz (getTodayDateString now) 21) as [e | |] eqn:A;
    intros E; inversion E; subst updated; clear E.
  split; [apply length_migrateFrom |].
  intros i s N. eexists. split; [apply migrateFrom_nth_error, N |].
  unfold migrateHabit. cbn [id name startDate endDate createdAt completionDates].
  destruct (addDaysToDate_isoDate _ _ _ _ A) as [u Eu].
  split; [| split; [| split; [| split; [| split; [| split]]]]].
  - repeat split; try apply orDefault_nonempty; try discriminate.
    + apply Number_toString_Int_nonempty.
    + apply isoDate_nonempty.
    + rewrite Eu. apply isoDate_nonempty.
    + apply toISOString_nonempty.
  - intros v V. repeat split; intros ->; apply orDefault_set, V.
  - intros l ->. reflexivity.
  - intros ->. reflexivity.
  - intros ->. reflexivity.
  - intros ->. reflexivity.
  - intros -> -> Sh. cbn [orDefault].
    destruct (default_range tz now e Sh A) as [n [D [B V]]].
    exists n. split; [exact D |]. split; [exact B |]. split; [| exact V].
    intros St. pose proof (default_range_steady tz now e St A) as D'.
    congruence.
Qed.

Lemma migrateHabits_completes_records_witness :
  let legacy := {| storedId := Some "7"; storedName := Some "Walk";
                   storedStartDate := None; storedEndDate := None;
                   storedCreatedAt := None; storedCompletionDates := None |} in
  let updated := [{| id := "7"; name := "Walk";
                     startDate := "2024-01-03"; endDate := "2024-01-24";
                     createdAt := "2024-01-03T12:00:00.000Z";
                     completionDates := Some [] |}] in
  List.length updated = List.length [legacy]
  /\ forall i s, nth_error [legacy] i = Some s ->
       exists h,
         nth_error updated i = Some h
         /\ (id h <> "" /\ name h <> "" /\ startDate h <> "" /\ endDate h <> ""
             /\ createdAt h <> "" /\ completionDates h <> None)
         /\ (forall v, v <> "" ->
               (storedId s = Some v -> id h = v)
               /\ (storedName s = Some v -> name h = v)
               /\ (storedStartDate s = Some v -> startDate h = v)
               /\ (storedEndDate s = Some v -> endDate h = v)
               /\ (storedCreatedAt s = Some v -> createdAt h = v))
         /\ (forall l, storedCompletionDates s = Some l ->
               completionDates h = Some l)
         /\ (storedCompletionDates s = None -> completionDates h = Some [])
         /\ (storedStartDate s = None ->
             startDate h = getTodayDateString noon_2024_01_03)
         /\ (storedEndDate s = None ->
             addDaysToDate newYork2024 (getTodayDateString noon_2024_01_03) 21
             = Returned (endDate h))
         /\ (storedStartDate s = None -> storedEndDate s = None ->
             shiftWithin newYork2024 msPerDay ->
             exists n,
               calculateDaysDifference (startDate h) (endDate h) = Int n
               /\ 20 <= n <= 22
               /\ (steady newYork2024
                     (Day (timeValue noon_2024_01_03) * msPerDay)
                     (Day (timeValue noon_2024_01_03) * msPerDay + 21 * msPerDay) ->
                   n = 21)
               /\ validateDateRange (startDate h) (endDate h)
                  = {| valid := true; error := "" |}).
Proof.
  intros legacy updated.
  apply (migrateHabits_completes_records newYork2024 noon_2024_01_03
           (fun _ => noon_2024_01_03) (fun _ => noon_2024_01_03)
           [legacy] updated).
  vm_compute. reflexivity.
Defined.

(** X24. The migration is idempotent: run again on the store that a
    migration has left, on any host, at any time at which
    [addDaysToDate] returns the day 21 days after today, and with any
    readings of the clock, it returns that store unchanged. *)
Theorem migrateHabits_idempotent
  (tz tz' : TimeZone) (now now' : Instant)
  (idClock createdClock idClock' createdClock' : nat -> Instant)
  (habits : list StoredHabit) (updated : list Habit) (later : string) :
  migrateHabits tz now idClock createdClock habits = Returned updated ->
  addDaysToDate tz' (getTodayDateString now') 21 = Returned later ->
  migrateHabits tz' now' idClock' createdClock' (map stored updated)
  = Returned updated.
Proof.
  intros E A.
  assert (C : Forall (fun h => id h <> "" /\ name h <> "" /\ startDate h <> ""
                               /\ endDate h <> "" /\ createdAt h <> ""
                               /\ completionDates h <> None) updated).
  { unfold migrateHabits in E.
    destruct (addDaysToDate tz (getTodayDateString now) 21) as [e | |] eqn:A0;
      inversion E; subst updated; clear E.
    destruct (addDaysToDate_isoDate _ _ _ _ A0) as [u Eu].
    generalize 0%nat. induction habits as [| s rest IH]; intros i;
      cbn [migrateFrom]; constructor; [| apply IH].
    unfold migrateHabit. cbn [id name startDate endDate createdAt completionDates].
    repeat split; try apply orDefault_nonempty; try discriminate.
    - apply Number_toString_Int_nonempty.
    - apply isoDate_nonempty.
    - rewrite Eu. apply isoDate_nonempty.
    - apply toISOString_nonempty. }
  unfold migrateHabits. rewrite A. f_equal.
  clear E. generalize 0%nat. induction C as [| h rest Hh C IH]; intros i;
    [reflexivity |].
  cbn [map migrateFrom]. rewrite IH. f_equal.
  destruct Hh as [H1 [H2 [H3 [H4 [H5 H6]]]]].
  apply migrateHabit_stored; assumption.
Qed.

Lemma migrateHabits_idempotent_witness :
  migrateHabits newYork2024 midnight_2024_01_15
    (fun _ => midnight_2024_01_15) (fun _ => midnight_2024_01_15)
    (map stored [{| id := "7"; name := "Walk";
                    startDate := "2024-01-03"; endDate := "2024-01-24";
                    createdAt := "2024-01-03T12:00:00.000Z";
                    completionDates := Some [] |}])
  = Returned [{| id := "7"; name := "Walk";
                 startDate := "2024-01-03"; endDate := "2024-01-24";
                 createdAt := "2024-01-03T12:00:00.000Z";
                 completionDates := Some [] |}].
Proof.
  apply (migrateHabits_idempotent utcZone newYork2024
           noon_2024_01_03 midnight_2024_01_15
           (fun _ => noon_2024_01_03) (fun _ => noon_2024_01_03)
           (fun _ => midnight_2024_01_15) (fun _ => midnight_2024_01_15)
           [{| storedId := Some "7"; storedName := Some "Walk";
               storedStartDate := None; storedEndDate := None;
               storedCreatedAt := None; storedCompletionDates := None |}]
           _ "2024-02-05").
  - vm_compute. reflexivity.
  - vm_compute. reflexivity.
Defined.

(* ================================================================== *)
(** * The statistics and the stored array *)

(** X25. The order in which the completion dates are stored is of no
    account: two records with the same dates of range and the same
    completion dates up to their order have the same statistics at any
    time, the same status and the same days to display. *)
Theorem statistics_ignore_order (h h' : Habit) :
  id h' = id h -> startDate h' = startDate h -> endDate h' = endDate h ->
  Permutation (datesOf h) (datesOf h') ->
  sameStatistics h h'
  /\ (forall now, getHabitStatus h' now = getHabitStatus h now)
  /\ (forall tz, getDaysToDisplay tz h' = getDaysToDisplay tz h).
Proof.
  intros Ei Es Ee P. split; [apply sameStatistics_Permutation; assumption |].
  split.
  - intros now. unfold getHabitStatus. rewrite Es, Ee. reflexivity.
  - intros tz. unfold getDaysToDisplay. rewrite Es, Ee. reflexivity.
Qed.

Lemma statistics_ignore_order_witness :
  let h' := {| id := "1"; name := "Gym";
               startDate := "2024-01-01"; endDate := "2024-01-10";
               createdAt := "2024-01-01T08:00:00.000Z";
               completionDates :=
                 Some (rev ["2024-01-01"; "2024-01-02"; "2024-01-03"; "2024-01-05"]) |} in
  sameStatistics scenarioA h'
  /\ (forall now, getHabitStatus h' now = getHabitStatus scenarioA now)
  /\ (forall tz, getDaysToDisplay tz h' = getDaysToDisplay tz scenarioA).
Proof.
  intros h'. apply (statistics_ignore_order scenarioA h'); try reflexivity.
  apply Permutation_rev.
Defined.

Lemma isHabitCompletedOnDate_includes h d :
  isHabitCompletedOnDate h d = includes (datesOf h) d.
Proof.
  unfold isHabitCompletedOnDate, datesOf. destruct (completionDates h); reflexivity.
Qed.

Lemma length_filter_spliceFirst_true (f : string -> bool) x l :
  f x = true -> In x l ->
  S (List.length (filter f (spliceFirst x l))) = List.length (filter f l).
Proof.
  intros Fx. induction l as [| y l IH]; intros I; [destruct I |].
  cbn [spliceFirst]. destruct (String.eqb_spec y x) as [E | E].
  - subst y. cbn [filter]. rewrite Fx. reflexivity.
  - cbn [filter]. destruct (f y); cbn [List.length]; rewrite <- IH;
      try reflexivity; destruct I as [I | I]; congruence.
Qed.

(** X26. A toggle of a date in range moves the total by exactly one: up
    when the date was not completed, down when it was, also when the date
    is stored more than once. *)
Theorem in_range_toggle_moves_total_by_one
  (habits : list Habit) (habitId dateStr : string) (h : Habit) :
  findHabit habitId habits = Some h ->
  isDateWithinRange h dateStr = true ->
  exists h',
    findHabit habitId (toggleHabitCompletion habitId dateStr habits) = Some h'
    /\ (isHabitCompletedOnDate h dateStr = false ->
        calculateTotalCompleted h' = S (calculateTotalCompleted h))
    /\ (isHabitCompletedOnDate h dateStr = true ->
        S (calculateTotalCompleted h') = calculateTotalCompleted h).
Proof.
  intros F R.
  destruct (toggleHabitCompletion_found habitId dateStr habits h F)
    as [before [after [E [N [Ei T]]]]].
  exists (toggleDate h dateStr). split; [| split].
  - rewrite T. apply findHabit_app_first; trivial.
  - rewrite isHabitCompletedOnDate_includes. intros I.
    rewrite !calculateTotalCompleted_datesOf, datesOf_toggleDate, I.
    change (isDateWithinRange (toggleDate h dateStr)) with (isDateWithinRange h).
    rewrite filter_app, length_app. cbn [filter]. rewrite R.
    cbn [List.length]. lia.
  - rewrite isHabitCompletedOnDate_includes. intros I.
    rewrite !calculateTotalCompleted_datesOf, datesOf_toggleDate, I.
    change (isDateWithinRange (toggleDate h dateStr)) with (isDateWithinRange h).
    apply length_filter_spliceFirst_true; [exact R |].
    apply includes_In, I.
Qed.

Lemma in_range_toggle_moves_total_by_one_witness :
  exists h',
    findHabit "1" (toggleHabitCompletion "1" "2024-01-02" [legacyHabit; duplicatedHabit])
    = Some h'
    /\ (isHabitCompletedOnDate duplicatedHabit "2024-01-02" = false ->
        calculateTotalCompleted h' = S (calculateTotalCompleted duplicatedHabit))
    /\ (isHabitCompletedOnDate duplicatedHabit "2024-01-02" = true ->
        S (calculateTotalCompleted h') = calculateTotalCompleted duplicatedHabit).
Proof.
  apply (in_range_toggle_moves_total_by_one
           [legacyHabit; duplicatedHabit] "1" "2024-01-02" duplicatedHabit);
    reflexivity.
Defined.
